(** * charmtools/charms.py: the charm linter, embedded and verified

    The development follows [charmtools/charms.py] (Python 2): the
    [CharmLinter] checks ([check_hook], [check_relation_hooks],
    [check_config_file]) and the orchestrator [Charm.proof].

    - Parsed YAML is a tree of Python values ([pyval]).  PyYAML builds [str]
      for ASCII scalars and [unicode] otherwise; the value universe below
      covers the [str] case (plus [None], [bool], [int], [long], [float],
      [list], [dict]).
    - The linter object is threaded as explicit state; Python exceptions are
      an outcome of each step and keep the state reached when they are raised.
    - The operating system answers through a [World] (read-only); the library
      functions the module imports ([yaml], [hashlib], [email.utils],
      [str], [sorted]) are fields of a [Runtime]. *)

From Stdlib Require Import ZArith List String Ascii Bool Lia DecimalString.
From Stdlib Require Import Floats.SpecFloat.
From Stdlib Require DecimalPos DecimalZ.
Import ListNotations.
Local Open Scope string_scope.

Set Warnings "-register-all".

(* ================================================================== *)
(** * Python strings *)

Module PyString.

Definition nl : ascii := "010"%char.

(** The double quote character, as a string. *)
Definition dq : string := String (ascii_of_nat 34) EmptyString.

(** [needle in hay] on two [str] objects. *)
Fixpoint str_in (needle hay : string) : bool :=
  prefix needle hay ||
  match hay with
  | EmptyString => false
  | String _ hay' => str_in needle hay'
  end.

(** [s.startswith(p)] and [s.endswith(p)]. *)
Definition startswith (s p : string) : bool := prefix p s.

Fixpoint endswith_char (s : string) (c : ascii) : bool :=
  match s with
  | EmptyString => false
  | String a EmptyString => Ascii.eqb a c
  | String _ s' => endswith_char s' c
  end.

Definition upper_char (c : ascii) : ascii :=
  let n := nat_of_ascii c in
  if (97 <=? n)%nat && (n <=? 122)%nat then ascii_of_nat (n - 32) else c.

(** [s.upper()] on a byte string. *)
Fixpoint upper (s : string) : string :=
  match s with
  | EmptyString => EmptyString
  | String c s' => String (upper_char c) (upper s')
  end.

(** The characters [str.strip()] removes: space, \t, \n, \v, \f, \r. *)
Definition isspace (c : ascii) : bool :=
  let n := nat_of_ascii c in
  (n =? 32)%nat || ((9 <=? n)%nat && (n <=? 13)%nat).

Fixpoint lstrip (s : string) : string :=
  match s with
  | EmptyString => EmptyString
  | String c s' => if isspace c then lstrip s' else s
  end.

Fixpoint rstrip (s : string) : string :=
  match s with
  | EmptyString => EmptyString
  | String c s' =>
      match rstrip s' with
      | EmptyString => if isspace c then EmptyString else String c EmptyString
      | r => String c r
      end
  end.

Definition strip (s : string) : string := rstrip (lstrip s).

(** Iterating over a file object: the lines, each with its newline. *)
Fixpoint readlines (s : string) : list string :=
  match s with
  | EmptyString => []
  | String c rest =>
      if Ascii.eqb c nl then String c EmptyString :: readlines rest
      else match readlines rest with
           | [] => [String c EmptyString]
           | l :: ls => String c l :: ls
           end
  end.

(** [', '.join(l)]. *)
Fixpoint join (sep : string) (l : list string) : string :=
  match l with
  | [] => EmptyString
  | [x] => x
  | x :: l' => x ++ sep ++ join sep l'
  end.

(** ["%d" % n]. *)
Definition dec (z : Z) : string := NilZero.string_of_int (Z.to_int z).

Definition is_digit (c : ascii) : bool :=
  let n := nat_of_ascii c in (48 <=? n)%nat && (n <=? 57)%nat.

Fixpoint digits_value (acc : Z) (s : string) : option Z :=
  match s with
  | EmptyString => Some acc
  | String c s' =>
      if is_digit c
      then digits_value (10 * acc + Z.of_nat (nat_of_ascii c - 48))%Z s'
      else None
  end.

Definition unsigned_value (s : string) : option Z :=
  match s with
  | EmptyString => None
  | _ => digits_value 0%Z s
  end.

(** [int(s)] for a [str], as Python 2 reads it: whitespace, one optional
    sign, whitespace again, decimal digits (at least one), whitespace;
    [None] stands for [ValueError]. *)
Definition int_of_str (s : string) : option Z :=
  match strip s with
  | String "-" d => option_map Z.opp (unsigned_value (lstrip d))
  | String "+" d => unsigned_value (lstrip d)
  | d => unsigned_value d
  end.

End PyString.

(* ================================================================== *)
(** * posixpath *)

Module OsPath.
Import PyString.

(** [os.path.join(a, b)]. *)
Definition join (a b : string) : string :=
  if startswith b "/" then b
  else if String.eqb a EmptyString || endswith_char a "/" then a ++ b
  else a ++ "/" ++ b.

Definition join3 (a b c : string) : string := join (join a b) c.

(** [os.path.basename(p)]: what follows the last slash. *)
Fixpoint basename (p : string) : string :=
  match p with
  | EmptyString => EmptyString
  | String c p' =>
      if str_in "/" p' then basename p'
      else if Ascii.eqb c "/" then p' else p
  end.

End OsPath.

(* ================================================================== *)
(** * Python values and exceptions *)

Inductive pyval : Type :=
| PyNone
| PyBool (b : bool)
| PyInt (z : Z)
| PyLong (z : Z)
| PyFloat (f : spec_float)
| PyStr (s : string)
| PyList (l : list pyval)
| PyDict (d : list (pyval * pyval)).

(** A [dict] is kept as its items in iteration order; its keys are pairwise
    distinct in Python. *)
Definition pydict : Type := list (pyval * pyval).

(** The exceptions the module can meet.  [IOError] carries the [filename]
    and [strerror] attributes the handlers print. *)
Inductive exn : Type :=
| IOError (filename strerror : string)
| OSError
| KeyError
| TypeError
| AttributeError
| ValueError
| OverflowError
| RelationError.

(** The classes of [KNOWN_OPTION_TYPES]. *)
Inductive pyclass : Type := basestring | int_class | float_class | bool_class.

Module Py.

(** [type(v).__name__]. *)
Definition type_name (v : pyval) : string :=
  match v with
  | PyNone => "NoneType"
  | PyBool _ => "bool"
  | PyInt _ => "int"
  | PyLong _ => "long"
  | PyFloat _ => "float"
  | PyStr _ => "str"
  | PyList _ => "list"
  | PyDict _ => "dict"
  end.

(** [isinstance(v, cls)]; [bool] is a subclass of [int], [long] is not. *)
Definition isinstance (v : pyval) (cls : pyclass) : bool :=
  match cls, v with
  | basestring, PyStr _ => true
  | int_class, PyInt _ => true
  | int_class, PyBool _ => true
  | float_class, PyFloat _ => true
  | bool_class, PyBool _ => true
  | _, _ => false
  end.

(** [v == s] for a [str] literal [s]. *)
Definition eq_str (v : pyval) (s : string) : bool :=
  match v with
  | PyStr t => String.eqb t s
  | _ => false
  end.

(** [v in l] for a list [l] of [str] literals. *)
Definition in_strs (v : pyval) (l : list string) : bool :=
  existsb (eq_str v) l.

(** Truth value of [v] in a condition. *)
Definition truthy (v : pyval) : bool :=
  match v with
  | PyNone => false
  | PyBool b => b
  | PyInt z | PyLong z => negb (Z.eqb z 0)
  | PyFloat (S754_zero _) => false
  | PyFloat _ => true
  | PyStr s => negb (String.eqb s EmptyString)
  | PyList l => match l with [] => false | _ => true end
  | PyDict d => match d with [] => false | _ => true end
  end.

Fixpoint dict_find (k : string) (d : pydict) : option pyval :=
  match d with
  | [] => None
  | (k', v) :: d' => if eq_str k' k then Some v else dict_find k d'
  end.

Definition dict_has (k : string) (d : pydict) : bool :=
  match dict_find k d with Some _ => true | None => false end.

Definition float_trunc (f : spec_float) : exn + Z :=
  match f with
  | S754_zero _ => inr 0%Z
  | S754_infinity _ => inl OverflowError
  | S754_nan => inl ValueError
  | S754_finite s m e =>
      let a := if (0 <=? e)%Z then Z.shiftl (Zpos m) e
               else Z.shiftr (Zpos m) (- e) in
      inr (if s then (- a)%Z else a)
  end.

(** [int(v)]. *)
Definition int (v : pyval) : exn + Z :=
  match v with
  | PyInt z | PyLong z => inr z
  | PyBool b => inr (if b then 1%Z else 0%Z)
  | PyFloat f => float_trunc f
  | PyStr s => match PyString.int_of_str s with
               | Some z => inr z
               | None => inl ValueError
               end
  | PyNone | PyList _ | PyDict _ => inl TypeError
  end.

End Py.

(* ================================================================== *)
(** * The linter object *)

Inductive severity : Type := SInfo | SWarn | SErr | SCrit.

Definition Diagnostic : Type := (severity * string)%type.

(** Modelled from the spec: the module [linter] (class [Linter], the base of
    [CharmLinter]) is not part of the sources.  A linter holds the
    accumulated sequence [lint] and an [exit_code]; it is created empty. *)
Record Linter : Type := mkLinter { lint : list Diagnostic; exit_code : Z }.

(* ================================================================== *)
(** * What the module imports and what the system answers *)

Record Runtime : Type := mkRuntime {
  (** [yaml.safe_load]: the value, or [str(e)] of the exception raised. *)
  yaml_safe_load : string -> pyval + string;
  (** [str(v)] for a value that is not a string. *)
  py_str : pyval -> string;
  (** [str(e)] for an exception. *)
  exn_str : exn -> string;
  (** [sorted(l)]. *)
  py_sorted : list pyval -> list pyval;
  (** Iteration order of the [set] obtained by adding these elements. *)
  set_order : list string -> list string;
  (** [hashlib.sha1(s).hexdigest()]. *)
  sha1_hexdigest : string -> string;
  (** [email.utils.parseaddr] and [email.utils.formataddr]. *)
  parseaddr : pyval -> exn + (string * string);
  formataddr : string * string -> string;
  (** Modelled from the spec: how [Linter] recomputes its exit code when a
      diagnostic of a severity is recorded (the mapping is left to the
      host). *)
  exit_code_after : severity -> Z -> Z
}.

Inductive node : Type :=
| File (mode : Z) (readable : bool) (content : string)
| Dir (mode : Z) (entries : list string).

Record World : Type := mkWorld {
  fs : string -> option node;
  (** [os.getenv('CHARM_HOME')]. *)
  CHARM_HOME : option string;
  (** [os.path.abspath(os.path.dirname(__file__))]. *)
  TEMPLATE_PATH : string
}.

(* ================================================================== *)
(** * Steps: linter state and exceptions *)

Inductive outcome (A : Type) : Type :=
| Ok (a : A)
| Raise (e : exn).
Arguments Ok {A} a.
Arguments Raise {A} e.

Definition M (A : Type) : Type := Linter -> outcome A * Linter.

Definition ret {A} (a : A) : M A := fun L => (Ok a, L).

Definition raise {A} (e : exn) : M A := fun L => (Raise e, L).

Definition bind {A B} (m : M A) (k : A -> M B) : M B :=
  fun L => match m L with
           | (Ok a, L') => k a L'
           | (Raise e, L') => (Raise e, L')
           end.

Declare Scope py_scope.
Delimit Scope py_scope with py.
Notation "x <- c1 ;; c2" := (bind c1 (fun x => c2))
  (at level 61, c1 at next level, right associativity) : py_scope.
Notation "c1 ;; c2" := (bind c1 (fun _ => c2))
  (at level 61, right associativity) : py_scope.
Local Open Scope py_scope.

(** [try: m except ...: h]: the handler [h e] is [None] when no [except]
    clause matches [e]. *)
Definition try_except {A} (m : M A) (h : exn -> option (M A)) : M A :=
  fun L => match m L with
           | (Raise e, L') =>
               match h e with
               | Some k => k L'
               | None => (Raise e, L')
               end
           | r => r
           end.

Definition lift {A} (r : exn + A) : M A :=
  match r with
  | inl e => raise e
  | inr a => ret a
  end.

Definition when (b : bool) (m : M unit) : M unit := if b then m else ret tt.

Fixpoint forM_ {A} (l : list A) (f : A -> M unit) : M unit :=
  match l with
  | [] => ret tt
  | x :: l' => f x ;; forM_ l' f
  end.

Definition set_exit_code (z : Z) : M unit :=
  fun L => (Ok tt, mkLinter (lint L) z).

(* ================================================================== *)
(** * Module constants *)

Definition KNOWN_METADATA_KEYS : list string :=
  ["name"; "summary"; "maintainer"; "description"; "categories";
   "subordinate"; "provides"; "requires"; "format"; "peers"].

Definition KNOWN_RELATION_KEYS : list string :=
  ["interface"; "scope"; "limit"; "optional"].

Definition KNOWN_SCOPES : list string := ["global"; "container"].

(** [KNOWN_OPTION_KEYS], listed in the order [sorted] gives it. *)
Definition KNOWN_OPTION_KEYS : list string :=
  ["default"; "description"; "type"].

Definition KNOWN_OPTION_TYPES : list (string * pyclass) :=
  [("string", basestring); ("int", int_class);
   ("float", float_class); ("boolean", bool_class)].

Definition S_IXUSR : Z := 64.

(** In [check_relation_hooks] both names are bound to a parenthesised
    string, not to a one-element tuple. *)
Definition template_interfaces : string := "interface-name".
Definition template_relations : string := "relation-name".

Definition hook_warnings : list (string * string) :=
  [("http://169.254.169.254/",
    "hook accesses EC2 metadata service directly")].

Definition subordinate_msg : string :=
  "subordinates must have at least one scope: container relation".

(* ================================================================== *)
(** * The checks *)

Section Charms.

Variable R : Runtime.
Variable W : World.

(** ** Linter methods *)

(** Modelled from the spec: [Linter.info], [warn], [err] and [crit] each
    append one diagnostic of their severity to [lint]. *)
Definition record (sev : severity) (msg : string) : M unit :=
  fun L => (Ok tt, mkLinter (lint L ++ [(sev, msg)])
                            (exit_code_after R sev (exit_code L))).

Definition info := record SInfo.
Definition warn := record SWarn.
Definition err := record SErr.
Definition crit := record SCrit.

(** Modelled from the spec: [CharmLinter()] starts with no diagnostic and
    exit code zero. *)
Definition CharmLinter : Linter := mkLinter [] 0%Z.

(** ** Operations on parsed values *)

(** ["%s" % v]. *)
Definition fmt_s (v : pyval) : string :=
  match v with
  | PyStr s => s
  | _ => py_str R v
  end.

(** [v.keys()]. *)
Definition py_keys (v : pyval) : M (list pyval) :=
  match v with
  | PyDict d => ret (map fst d)
  | _ => raise AttributeError
  end.

(** [v.items()] and [v.iteritems()]. *)
Definition py_items (v : pyval) : M pydict :=
  match v with
  | PyDict d => ret d
  | _ => raise AttributeError
  end.

(** [v.get(k, default)]. *)
Definition py_get (v : pyval) (k : string) (default : pyval) : M pyval :=
  match v with
  | PyDict d => ret (match Py.dict_find k d with
                     | Some x => x
                     | None => default
                     end)
  | _ => raise AttributeError
  end.

(** [v[k]]. *)
Definition py_getitem (v : pyval) (k : string) : M pyval :=
  match v with
  | PyDict d => match Py.dict_find k d with
                | Some x => ret x
                | None => raise KeyError
                end
  | _ => raise TypeError
  end.

(** [k in v] for a [str] literal [k]. *)
Definition py_contains (k : string) (v : pyval) : M bool :=
  match v with
  | PyDict d => ret (Py.dict_has k d)
  | PyStr s => ret (PyString.str_in k s)
  | PyList l => ret (existsb (fun x => Py.eq_str x k) l)
  | _ => raise TypeError
  end.

(** [v in s] for a [str] literal [s]: a substring test, defined on strings
    only. *)
Definition py_in_str (v : pyval) (s : string) : M bool :=
  match v with
  | PyStr t => ret (PyString.str_in t s)
  | _ => raise TypeError
  end.

(** [v + s] and [s + v] for a [str] literal [s]. *)
Definition py_add_str (v : pyval) (s : string) : M string :=
  match v with
  | PyStr t => ret (t ++ s)
  | _ => raise TypeError
  end.

Definition py_str_add (s : string) (v : pyval) : M string :=
  match v with
  | PyStr t => ret (s ++ t)
  | _ => raise TypeError
  end.

(** [len(v)]. *)
Definition py_len (v : pyval) : M nat :=
  match v with
  | PyStr s => ret (String.length s)
  | PyList l => ret (List.length l)
  | PyDict d => ret (List.length d)
  | _ => raise TypeError
  end.

(** [v not in KNOWN_OPTION_TYPES] hashes [v]. *)
Definition option_type_lookup (v : pyval) : M (option pyclass) :=
  match v with
  | PyList _ | PyDict _ => raise TypeError
  | PyStr s =>
      ret (option_map snd
             (find (fun p => String.eqb (fst p) s) KNOWN_OPTION_TYPES))
  | _ => ret None
  end.

(** ** The file system *)

Definition os_path_exists (p : string) : bool :=
  match fs W p with Some _ => true | None => false end.

Definition os_path_isdir (p : string) : bool :=
  match fs W p with Some (Dir _ _) => true | _ => false end.

Definition os_path_isfile (p : string) : bool :=
  match fs W p with Some (File _ _ _) => true | _ => false end.

(** [os.stat(p)[ST_MODE]]. *)
Definition os_stat_mode (p : string) : M Z :=
  match fs W p with
  | Some (File m _ _) | Some (Dir m _) => ret m
  | None => raise OSError
  end.

(** [os.listdir(p)]. *)
Definition os_listdir (p : string) : M (list string) :=
  match fs W p with
  | Some (Dir _ names) => ret names
  | _ => raise OSError
  end.

(** [open(p, 'r')] followed by reading the file. *)
Definition open_read (p : string) : M string :=
  match fs W p with
  | Some (File _ true c) => ret c
  | Some (File _ false _) => raise (IOError p "Permission denied")
  | Some (Dir _ _) => raise (IOError p "Is a directory")
  | None => raise (IOError p "No such file or directory")
  end.

Definition TEMPLATE_README : string :=
  OsPath.join (OsPath.join3 (TEMPLATE_PATH W) "templates" "charm") "README.ex".

Definition TEMPLATE_ICON : string :=
  OsPath.join (OsPath.join3 (TEMPLATE_PATH W) "templates" "charm") "icon.svg".

(** ** [CharmLinter.check_hook] *)

Fixpoint scan_hook (hook : string) (count : Z) (lines : list string)
  : M unit :=
  match lines with
  | [] => ret tt
  | line :: rest =>
      let count := (count + 1)%Z in
      forM_ hook_warnings (fun warning =>
        when (PyString.str_in (fst warning) line)
             (warn ("(" ++ hook ++ ":" ++ PyString.dec count ++ ") - "
                    ++ snd warning))) ;;
      scan_hook hook count rest
  end.

Definition check_hook (hook hooks_path : string)
           (required recommended : bool) : M bool :=
  let hook_path := OsPath.join hooks_path hook in
  try_except
    (mode <- os_stat_mode hook_path ;;
     when (Z.eqb (Z.land mode S_IXUSR) 0) (warn (hook ++ " not executable")) ;;
     content <- open_read hook_path ;;
     scan_hook hook 0 (PyString.readlines content) ;;
     ret true)
    (fun e =>
       match e with
       | OSError =>
           Some ((if required then err ("missing hook " ++ hook)
                  else if recommended
                       then warn ("missing recommended hook " ++ hook)
                       else ret tt) ;;
                 ret false)
       | _ => None
       end).

(** ** [CharmLinter.check_relation_hooks] *)

(** [has_one = has_one or self.check_hook(r + suffix, hooks_path,
    required=False)]. *)
Definition or_check_hook (has_one : bool) (r : pyval) (suffix : string)
           (hooks_path : string) : M bool :=
  if has_one then ret true
  else (hook <- py_add_str r suffix ;;
        check_hook hook hooks_path false false).

Definition check_relation_fields (name : pyval) (rel : pydict) : M unit :=
  (if Py.dict_has "scope" rel then
     scope <- py_getitem (PyDict rel) "scope" ;;
     when (negb (Py.in_strs scope KNOWN_SCOPES))
          (err ("Unknown scope found in relation " ++ fmt_s name
                ++ " - (" ++ fmt_s scope ++ ")"))
   else ret tt) ;;
  (if Py.dict_has "interface" rel then
     interface <- py_getitem (PyDict rel) "interface" ;;
     is_template <- py_in_str interface template_interfaces ;;
     if is_template then
       msg <- py_str_add "template interface names should be changed: "
                         interface ;;
       err msg
     else ret tt
   else err "relation missing interface") ;;
  forM_ (map fst rel) (fun key =>
    when (negb (Py.in_strs key KNOWN_RELATION_KEYS))
         (err ("Unknown relation field in relation " ++ fmt_s name
               ++ " - (" ++ fmt_s key ++ ")"))).

Definition check_relation (subordinate : pyval) (hooks_path : string)
           (item : pyval * pyval) : M unit :=
  let r := fst item in
  match snd item with
  | PyDict rel => check_relation_fields r rel
  | _ => err ("relation " ++ fmt_s r ++ " is not a map")
  end ;;
  is_template <- py_in_str r template_relations ;;
  (if is_template then
     msg <- py_str_add "template relations should be renamed to fit charm: "
                       r ;;
     err msg
   else ret tt) ;;
  has_one <- or_check_hook false r "-relation-changed" hooks_path ;;
  has_one <- or_check_hook has_one r "-relation-departed" hooks_path ;;
  has_one <- or_check_hook has_one r "-relation-joined" hooks_path ;;
  has_one <- or_check_hook has_one r "-relation-broken" hooks_path ;;
  if negb has_one && negb (Py.truthy subordinate) then
    a <- py_str_add "relation " r ;;
    info (a ++ " has no hooks")
  else ret tt.

Definition check_relation_hooks (relations subordinate : pyval)
           (hooks_path : string) : M unit :=
  items <- py_items relations ;;
  forM_ items (check_relation subordinate hooks_path).

(** ** [CharmLinter.check_config_file] *)

(** [wrong_keys.pop(wrong_keys.index('options'))]. *)
Fixpoint pop_options (l : list pyval) : exn + list pyval :=
  match l with
  | [] => inl ValueError
  | k :: l' =>
      if Py.eq_str k "options" then inr l'
      else match pop_options l' with
           | inl e => inl e
           | inr r => inr (k :: r)
           end
  end.

(** Lines 177-192: the declared type against the default value. *)
Definition check_option_type (option_name : pyval) (option_value : pydict)
  : M unit :=
  option_type <- py_get (PyDict option_value) "type" (PyStr "string") ;;
  known <- option_type_lookup option_type ;;
  match known with
  | None =>
      warn ("config.yaml: option " ++ fmt_s option_name
            ++ " has an invalid type (" ++ fmt_s option_type ++ ")")
  | Some _ =>
      if Py.dict_has "default" option_value then
        declared <- py_getitem (PyDict option_value) "type" ;;
        found <- option_type_lookup declared ;;
        expected_type <- match found with
                         | Some c => ret c
                         | None => raise KeyError
                         end ;;
        default <- py_getitem (PyDict option_value) "default" ;;
        when (negb (Py.isinstance default expected_type))
             (err ("config.yaml: type of option " ++ fmt_s option_name
                   ++ " is specified as " ++ fmt_s declared
                   ++ ", but the type of the default value is "
                   ++ Py.type_name default))
      else ret tt
  end.

(** The body of the loop over [options.items()]. *)
Definition check_option (item : pyval * pyval) : M unit :=
  let option_name := fst item in
  match snd item with
  | PyDict option_value =>
      let existing_keys := map fst option_value in
      let missing_keys :=
        filter (fun k => negb (existsb (fun e => Py.eq_str e k) existing_keys))
               KNOWN_OPTION_KEYS in
      when (match missing_keys with [] => false | _ => true end)
           (warn ("config.yaml: option " ++ fmt_s option_name
                  ++ " does not have the keys: "
                  ++ PyString.join ", " missing_keys)) ;;
      let invalid_keys :=
        filter (fun e => negb (Py.in_strs e KNOWN_OPTION_KEYS))
               existing_keys in
      when (match invalid_keys with [] => false | _ => true end)
           (warn ("config.yaml: option " ++ fmt_s option_name
                  ++ " has unknown keys: "
                  ++ PyString.join ", "
                       (map fmt_s (py_sorted R invalid_keys)))) ;;
      (if Py.dict_has "description" option_value then
         description <- py_getitem (PyDict option_value) "description" ;;
         when (negb (Py.isinstance description basestring))
              (warn ("config.yaml: description of option "
                     ++ fmt_s option_name ++ " should be a string"))
       else ret tt) ;;
      check_option_type option_name option_value
  | _ =>
      err ("config.yaml: data for option " ++ fmt_s option_name
           ++ " is not a dict")
  end.

Definition check_config_file (charm_path : string) : M unit :=
  let config_path := OsPath.join charm_path "config.yaml" in
  if negb (os_path_isfile config_path) then
    warn "File config.yaml not found."
  else
    loaded <- try_except
                (text <- open_read config_path ;;
                 match yaml_safe_load R text with
                 | inl config => ret (Some config)
                 | inr error =>
                     err ("Cannot parse config.yaml: " ++ error) ;; ret None
                 end)
                (fun error =>
                   Some (err ("Cannot parse config.yaml: "
                              ++ exn_str R error) ;; ret None)) ;;
    match loaded with
    | None => ret tt
    | Some (PyDict config) =>
        match Py.dict_find "options" config with
        | None => err ("config.yaml must have an " ++ PyString.dq ++ "options" ++ PyString.dq ++ " key.")
        | Some options =>
            (if (1 <? List.length config)%nat then
               wrong_keys <- lift (pop_options (py_sorted R (map fst config))) ;;
               warn ("Ignored keys in config.yaml: "
                     ++ py_str R (PyList wrong_keys))
             else ret tt) ;;
            match options with
            | PyDict opts => forM_ opts check_option
            | _ => err "config.yaml: options section is not parsed as a dictionary"
            end
        end
    | Some _ => err "config.yaml not parsed into a dictionary."
    end.

(** ** [Charm.proof] *)

(** Lines 229-231. *)
Definition check_metadata_keys (charm : pyval) : M unit :=
  keys <- py_keys charm ;;
  forM_ keys (fun key =>
    when (negb (Py.in_strs key KNOWN_METADATA_KEYS))
         (err ("Unknown root metadata field (" ++ fmt_s key ++ ")"))).

(** Lines 233-242. *)
Definition check_name_summary (charm : pyval) (charm_path : string)
  : M unit :=
  let charm_basename := OsPath.basename charm_path in
  name <- py_getitem charm "name" ;;
  when (negb (Py.eq_str name charm_basename))
       (warn ("metadata name (" ++ fmt_s name
              ++ ") must match directory name (" ++ charm_basename
              ++ ") exactly for local deployment.")) ;;
  summary <- py_getitem charm "summary" ;;
  n <- py_len summary ;;
  when (72 <? n)%nat (warn "summary sould be less than 72").

(** Lines 244-260. *)
Definition check_maintainer (charm : pyval) : M unit :=
  has <- py_contains "maintainer" charm ;;
  if negb has then
    err "Charms need a maintainer (See RFC2822) - Name <email>"
  else
    m <- py_getitem charm "maintainer" ;;
    let maintainers := match m with PyList l => l | _ => [m] end in
    forM_ maintainers (fun maintainer =>
      parsed <- lift (parseaddr R maintainer) ;;
      let formatted := formataddr R parsed in
      when (negb (Py.eq_str maintainer formatted))
           (warn ("Maintainer address should contain a real-name and "
                  ++ "email only. [" ++ formatted ++ "]"))).

(** Lines 262-272. *)
Definition check_categories (charm : pyval) : M unit :=
  has <- py_contains "categories" charm ;;
  if negb has then warn "Metadata is missing categories."
  else
    categories <- py_getitem charm "categories" ;;
    when (match categories with PyList (_ :: _) => false | _ => true end)
         (warn ("Categories metadata must be a list of one or more of:"
                ++ " applications, app-servers, databases, file-servers, "
                ++ "cache-proxy, misc")).

Definition on_IOError (k : string -> string -> M unit) (e : exn)
  : option (M unit) :=
  match e with
  | IOError filename strerror => Some (k filename strerror)
  | _ => None
  end.

Definition opening_error (filename strerror : string) : M unit :=
  err ("Error while opening " ++ filename ++ " (" ++ strerror ++ ")").

(** Lines 274-290. *)
Definition check_icon (charm_path : string) : M unit :=
  if negb (os_path_exists (OsPath.join charm_path "icon.svg")) then
    warn "No icon.svg file."
  else
    try_except
      (ti <- open_read TEMPLATE_ICON ;;
       ci <- open_read (OsPath.join charm_path "icon.svg") ;;
       when (String.eqb (sha1_hexdigest R ti) (sha1_hexdigest R ci))
            (err "Includes template icon.svg file."))
      (on_IOError opening_error).

(** Lines 292-298. *)
Definition check_hooks_dir_copyright (charm_path hooks_path : string)
  : M unit :=
  when (negb (os_path_exists hooks_path)) (err "no hooks directory") ;;
  when (negb (os_path_exists (OsPath.join charm_path "copyright")))
       (err "no copyright file").

(** Lines 311-314: the stripped template lines of raw length at least 40. *)
Definition bad_lines_of (template : string) : list string :=
  map PyString.strip
      (filter (fun line => (40 <=? String.length line)%nat)
              (PyString.readlines template)).

Definition boilerplate_msg (readme : string) (lc : Z) : string :=
  readme ++ " Includes boilerplate README.ex line " ++ PyString.dec lc.

(** The lines the counter [lc] counts: those of [bad_lines] that are not
    empty once stripped. *)
Definition counted_lines (template : string) : list string :=
  filter (fun l => negb (String.length l =? 0)%nat) (bad_lines_of template).

(** Lines 319-327: the loop over [bad_lines] with its counter [lc]. *)
Fixpoint scan_boilerplate (readme readme_content : string) (lc : Z)
         (bad_lines : list string) : M unit :=
  match bad_lines with
  | [] => ret tt
  | l :: rest =>
      if (String.length l =? 0)%nat
      then scan_boilerplate readme readme_content lc rest
      else
        let lc := (lc + 1)%Z in
        when (PyString.str_in l readme_content)
             (err (boilerplate_msg readme lc)) ;;
        scan_boilerplate readme readme_content lc rest
  end.

(** Lines 309-331. *)
Definition check_boilerplate (charm_path : string) (readmes : list string)
  : M unit :=
  try_except
    (tr <- open_read TEMPLATE_README ;;
     let bad_lines := bad_lines_of tr in
     forM_ readmes (fun readme =>
       readme_content <- open_read (OsPath.join charm_path readme) ;;
       scan_boilerplate readme readme_content 0 bad_lines))
    (on_IOError opening_error).

(** Lines 303-305: the names that contain README, in any case. *)
Definition found_readmes (root_files : list string) : list string :=
  filter (fun filename => PyString.str_in "README" (PyString.upper filename))
         root_files.

(** Lines 300-333. *)
Definition check_readme (charm_path : string) : M unit :=
  root_files <- os_listdir charm_path ;;
  let found := found_readmes root_files in
  match found with
  | [] => warn "no README file"
  | _ =>
      when (existsb (String.eqb "README.ex") found)
           (err "Includes template README.ex file") ;;
      check_boilerplate charm_path (set_order R found)
  end.

(** Lines 352-356: the search for a [scope: container] relation; [true]
    is the [break]. *)
Fixpoint find_scope_container (items : pydict) : M bool :=
  match items with
  | [] => ret false
  | (_, rel) :: rest =>
      has <- py_contains "scope" rel ;;
      if has then
        scope <- py_getitem rel "scope" ;;
        if Py.eq_str scope "container" then ret true
        else find_scope_container rest
      else find_scope_container rest
  end.

(** Lines 348-363. *)
Definition check_subordinate_requires (charm : pyval) : M unit :=
  try_except
    (requires <- py_get charm "requires" PyNone ;;
     match requires with
     | PyNone => raise RelationError
     | _ =>
         items <- py_items requires ;;
         found_scope_container <- find_scope_container items ;;
         if negb found_scope_container then raise RelationError
         else ret tt
     end)
    (fun e =>
       match e with
       | RelationError => Some (err subordinate_msg)
       | _ => None
       end).

(** Lines 335-372. *)
Definition check_relations (charm : pyval) (hooks_path : string) : M unit :=
  subordinate <- py_get charm "subordinate" (PyBool false) ;;
  when (match subordinate with PyBool _ => false | _ => true end)
       (err "subordinate must be a boolean value") ;;
  provides <- py_get charm "provides" PyNone ;;
  match provides with
  | PyNone =>
      when (negb (Py.truthy subordinate))
           (warn "all charms should provide at least one thing")
  | _ => check_relation_hooks provides subordinate hooks_path
  end ;;
  (if Py.truthy subordinate then check_subordinate_requires charm
   else
     requires <- py_get charm "requires" PyNone ;;
     match requires with
     | PyNone => ret tt
     | _ => check_relation_hooks requires subordinate hooks_path
     end) ;;
  peers <- py_get charm "peers" PyNone ;;
  match peers with
  | PyNone => ret tt
  | _ => check_relation_hooks peers subordinate hooks_path
  end.

(** Lines 374-383. *)
Definition check_revision (charm : pyval) : M unit :=
  has <- py_contains "revision" charm ;;
  if has then
    warn ("Revision should not be stored in metadata.yaml "
          ++ "anymore. Move it to the revision file") ;;
    try_except
      (revision <- py_getitem charm "revision" ;;
       x <- lift (Py.int revision) ;;
       if (x <? 0)%Z then raise ValueError else ret tt)
      (fun e =>
         match e with
         | TypeError | ValueError =>
             Some (warn "revision should be a positive integer")
         | _ => None
         end)
  else ret tt.

(** Lines 385-390. *)
Definition check_charm_hooks (hooks_path : string) : M unit :=
  check_hook "install" hooks_path true false ;;
  check_hook "start" hooks_path false true ;;
  check_hook "stop" hooks_path false true ;;
  check_hook "config-changed" hooks_path false false ;;
  ret tt.

(** Lines 229-390: what runs on the parsed manifest inside the [try]. *)
Definition manifest_checks (charm : pyval) (charm_path hooks_path : string)
  : M unit :=
  check_metadata_keys charm ;;
  check_name_summary charm charm_path ;;
  check_maintainer charm ;;
  check_categories charm ;;
  check_icon charm_path ;;
  check_hooks_dir_copyright charm_path hooks_path ;;
  check_readme charm_path ;;
  check_relations charm hooks_path ;;
  check_revision charm ;;
  check_charm_hooks hooks_path.

(** Lines 391-393: the [except IOError] clause of [proof]. *)
Definition metadata_handler (charm_name : string) : M unit :=
  err ("could not find metadata file for " ++ charm_name) ;;
  set_exit_code (-1).

(** Lines 219-393.  The result is [true] when [proof] has executed its
    [return] statement of line 225. *)
Definition load_and_check (charm_name charm_path : string) : M bool :=
  let hooks_path := OsPath.join charm_path "hooks" in
  let yaml_path := OsPath.join charm_path "metadata.yaml" in
  try_except
    (yamlfile <- open_read yaml_path ;;
     match yaml_safe_load R yamlfile with
     | inr e => crit ("cannot parse " ++ yaml_path ++ ":" ++ e) ;; ret true
     | inl charm => manifest_checks charm charm_path hooks_path ;; ret false
     end)
    (fun e =>
       match e with
       | IOError _ _ => Some (metadata_handler charm_name ;; ret false)
       | _ => None
       end).

(** Lines 395-408. *)
Definition final_checks (charm_path : string) : M unit :=
  when (os_path_exists (OsPath.join3 charm_path "tests" "00-autogen"))
       (warn "has templated 00-autogen test file") ;;
  let rev_path := OsPath.join charm_path "revision" in
  (if os_path_exists rev_path then
     content <- open_read rev_path ;;
     match PyString.int_of_str (PyString.rstrip content) with
     | Some _ => ret tt
     | None => err "revision file contains non-numeric data"
     end
   else ret tt) ;;
  check_config_file charm_path.

(** Lines 206-211. *)
Definition resolve_charm_path (charm_name : string) : string :=
  if os_path_isdir charm_name then charm_name
  else
    let charm_home := match CHARM_HOME W with
                      | Some h => h
                      | None => "."
                      end in
    OsPath.join charm_home charm_name.

Definition proof_steps (charm_name : string) : M unit :=
  let charm_path := resolve_charm_path charm_name in
  if negb (os_path_isdir charm_path) then
    crit (charm_path ++ " is not a directory, Aborting")
  else
    returned <- load_and_check charm_name charm_path ;;
    if returned then ret tt else final_checks charm_path.

(** What a call of [proof] gives its caller: the pair
    [(lint.lint, lint.exit_code)], or the exception that escapes. *)
Inductive proof_result : Type :=
| Returned (diagnostics : list Diagnostic) (code : Z)
| Raised (e : exn).

Definition result_of (r : outcome unit * Linter) : proof_result :=
  match r with
  | (Ok _, L) => Returned (lint L) (exit_code L)
  | (Raise e, _) => Raised e
  end.

(** [proof] builds its linter itself (line 205). *)
Definition proof (charm_name : string) : proof_result :=
  result_of (proof_steps charm_name CharmLinter).

End Charms.

(* ================================================================== *)
(** * Reading a result *)

Definition severity_eqb (a b : severity) : bool :=
  match a, b with
  | SInfo, SInfo | SWarn, SWarn | SErr, SErr | SCrit, SCrit => true
  | _, _ => false
  end.

Definition diag_eqb (a b : Diagnostic) : bool :=
  severity_eqb (fst a) (fst b) && String.eqb (snd a) (snd b).

(** How many times [d] occurs in a diagnostic sequence. *)
Definition occurrences (d : Diagnostic) (l : list Diagnostic) : nat :=
  List.length (filter (diag_eqb d) l).

Definition is_err (d : Diagnostic) : bool :=
  match fst d with SErr => true | _ => false end.

(** The [err]-level diagnostics of a sequence, in order. *)
Definition errs (l : list Diagnostic) : list Diagnostic := filter is_err l.

Fixpoint has_char (c : ascii) (s : string) : bool :=
  match s with
  | EmptyString => false
  | String a s' => Ascii.eqb a c || has_char c s'
  end.

(** [emits P m]: whatever the linter holds when [m] starts, [m] ends in
    the same way and appends the same diagnostics, all of them in [P]; it
    never reads or removes what was recorded before. *)
Definition emits {A} (P : Diagnostic -> Prop) (m : M A) : Prop :=
  exists (o : outcome A) (ds : list Diagnostic),
    Forall P ds /\
    forall L, fst (m L) = o /\ lint (snd (m L)) = (lint L ++ ds)%list.

(* ================================================================== *)
(** * The diagnostics that one check alone can record *)

Definition revision_warning : Diagnostic :=
  (SWarn, "revision should be a positive integer").

Definition revision_relocation : Diagnostic :=
  (SWarn, "Revision should not be stored in metadata.yaml "
          ++ "anymore. Move it to the revision file").

Definition subordinate_error : Diagnostic := (SErr, subordinate_msg).

(** Every diagnostic other than those three. *)
Definition other (d : Diagnostic) : Prop :=
  d <> revision_warning /\ d <> revision_relocation /\
  d <> subordinate_error.

(** [rel] is a mapping whose [scope] equals 'container'. *)
Definition scope_is_container (rel : pyval) : bool :=
  match rel with
  | PyDict r => match Py.dict_find "scope" r with
                | Some s => Py.eq_str s "container"
                | None => false
                end
  | _ => false
  end.

(** The manifest has a [requires] mapping with a container-scoped
    relation. *)
Definition requires_container (charm : pydict) : bool :=
  match Py.dict_find "requires" charm with
  | Some (PyDict rels) => existsb scope_is_container (map snd rels)
  | _ => false
  end.

(** [charm.get('subordinate', False)]. *)
Definition subordinate_of (charm : pydict) : pyval :=
  match Py.dict_find "subordinate" charm with
  | Some v => v
  | None => PyBool false
  end.

(** The error recorded by the [except IOError] clause of [proof]. *)
Definition metadata_error (charm_name : string) : Diagnostic :=
  (SErr, "could not find metadata file for " ++ charm_name).

(** The manifest [proof] works on: the charm path is a directory, its
    [metadata.yaml] can be read and the loader returns a value. *)
Definition loaded_manifest (R : Runtime) (W : World) (charm_name : string)
  : option pyval :=
  let charm_path := resolve_charm_path W charm_name in
  if os_path_isdir W charm_path then
    match fs W (OsPath.join charm_path "metadata.yaml") with
    | Some (File _ true text) =>
        match yaml_safe_load R text with
        | inl charm => Some charm
        | inr _ => None
        end
    | _ => None
    end
  else None.

(** The error of lines 184-188, for an option whose declared type is the
    string [declared]. *)
Definition default_type_error (R : Runtime) (option_name : pyval)
           (declared : string) (default : pyval) : Diagnostic :=
  (SErr, "config.yaml: type of option " ++ fmt_s R option_name
         ++ " is specified as " ++ declared
         ++ ", but the type of the default value is "
         ++ Py.type_name default).

(** [path] exists and [open(path, 'r')] fails: a file without read
    permission, or a directory. *)
Definition exists_unreadable (W : World) (path : string) : bool :=
  match fs W path with
  | Some (File _ readable _) => negb readable
  | Some (Dir _ _) => true
  | None => false
  end.

(** [path] is a file that can be read. *)
Definition readable (W : World) (path : string) : Prop :=
  exists mode content, fs W path = Some (File mode true content).

(* ================================================================== *)
(** * Concrete charms

    A runtime and a few charm directories on which the checks are run.  The
    loader of the fixture answers for the file texts listed in its table
    (each text stands for the YAML document written next to it) and raises
    on any other text. *)

Module Fixtures.

Definition load_from (table : list (string * pyval)) (text : string)
  : pyval + string :=
  match find (fun p => String.eqb (fst p) text) table with
  | Some p => inl (snd p)
  | None => inr "could not determine a constructor"
  end.

Definition str_of (v : pyval) : string :=
  match v with
  | PyNone => "None"
  | PyBool true => "True"
  | PyBool false => "False"
  | PyInt z | PyLong z => PyString.dec z
  | PyStr s => s
  | _ => "<" ++ Py.type_name v ++ ">"
  end.

(** Exit codes as a linter could keep them: 100 from a warning on, 200
    from an error on. *)
Definition exit_policy (sev : severity) (code : Z) : Z :=
  match sev with
  | SInfo => code
  | SWarn => Z.max code 100
  | SErr | SCrit => Z.max code 200
  end.

Definition runtime (table : list (string * pyval)) : Runtime :=
  {| yaml_safe_load := load_from table;
     py_str := str_of;
     exn_str := fun e => match e with
                         | IOError f s => s ++ ": " ++ f
                         | _ => "error"
                         end;
     py_sorted := fun l => l;
     set_order := fun l => l;
     sha1_hexdigest := fun s => s;
     parseaddr := fun v => match v with
                           | PyStr s => inr (EmptyString, s)
                           | PyNone => inr (EmptyString, EmptyString)
                           | _ => inl TypeError
                           end;
     formataddr := fun p => snd p;
     exit_code_after := exit_policy |}.

Definition files (l : list (string * node)) (p : string) : option node :=
  option_map snd (find (fun e => String.eqb (fst e) p) l).

Definition world (l : list (string * node)) : World :=
  {| fs := files l;
     CHARM_HOME := None;
     TEMPLATE_PATH := "/usr/share/charmtools" |}.

Definition item (k : string) (v : pyval) : pyval * pyval := (PyStr k, v).

Definition line (s : string) : string := s ++ String PyString.nl EmptyString.

Definition script : string := line "#!/bin/sh" ++ line "exit 0".

Definition usage_line : string :=
  "Step by step instructions on using the charm:".

(** Forty-four spaces. *)
Definition blank_line : string :=
  "                                            ".

(** The bundled README.ex: seven lines; lines 3, 4 and 7 have 40 characters
    or more, line 4 is made of spaces. *)
Definition template_readme : string :=
  line "# Overview" ++ line EmptyString
  ++ line "This charm provides a service, describe it in a paragraph here."
  ++ line blank_line ++ line "# Usage" ++ line EmptyString
  ++ line usage_line.

(** A charm directory [mycharm] with every file [proof] looks for. *)
Definition charm_files (metadata config readme : string)
           (install_readable : bool) : list (string * node) :=
  [("mycharm", Dir 493 ["metadata.yaml"; "config.yaml"; "hooks"; "copyright";
                        "README.md"; "icon.svg"; "revision"]);
   ("mycharm/metadata.yaml", File 420 true metadata);
   ("mycharm/config.yaml", File 420 true config);
   ("mycharm/hooks", Dir 493 ["install"; "start"; "stop";
                              "website-relation-changed"]);
   ("mycharm/hooks/install", File 493 install_readable script);
   ("mycharm/hooks/start", File 493 true script);
   ("mycharm/hooks/stop", File 493 true script);
   ("mycharm/hooks/website-relation-changed", File 493 true script);
   ("mycharm/copyright", File 420 true "Copyright 2013");
   ("mycharm/README.md", File 420 true readme);
   ("mycharm/icon.svg", File 420 true "<svg>mine</svg>");
   ("mycharm/revision", File 420 true "7");
   ("/usr/share/charmtools/templates/charm/icon.svg",
    File 420 true "<svg>template</svg>");
   ("/usr/share/charmtools/templates/charm/README.ex",
    File 420 true template_readme)].

Definition website (interface : string) : pyval * pyval :=
  item "website" (PyDict [item "interface" (PyStr interface)]).

(** name: mycharm / summary / maintainer / description / categories. *)
Definition base_items : pydict :=
  [item "name" (PyStr "mycharm");
   item "summary" (PyStr "An example charm");
   item "maintainer" (PyStr "Jane Doe <jane@example.com>");
   item "description" (PyStr "Nothing much");
   item "categories" (PyList [PyStr "misc"])].

(** The same with provides: {website: {interface: http}}. *)
Definition manifest_items : pydict :=
  (base_items ++ [item "provides" (PyDict [website "http"])])%list.

(** ... and revision: 3. *)
Definition revision_items : pydict :=
  (manifest_items ++ [item "revision" (PyInt 3)])%list.

(** ... and subordinate: true,
    requires: {db: {interface: mysql, scope: <scope>}}. *)
Definition subordinate_items (scope : string) : pydict :=
  (manifest_items
   ++ [item "subordinate" (PyBool true);
       item "requires"
         (PyDict [item "db" (PyDict [item "interface" (PyStr "mysql");
                                     item "scope" (PyStr scope)])])])%list.

(** provides: {website: {interface: interface}}. *)
Definition template_interface_items : pydict :=
  (base_items ++ [item "provides" (PyDict [website "interface"])])%list.

(** provides: {name: {interface: http}}. *)
Definition template_relation_items : pydict :=
  (base_items
   ++ [item "provides"
         (PyDict [item "name"
                    (PyDict [item "interface" (PyStr "http")])])])%list.

(** options: {port: <fields>}. *)
Definition config_with (fields : pydict) : pyval :=
  PyDict [item "options" (PyDict [item "port" (PyDict fields)])].

(** {type: int, default: 80, description: The port}. *)
Definition port_fields : pydict :=
  [item "type" (PyStr "int"); item "default" (PyInt 80);
   item "description" (PyStr "The port")].

(** {default: 80, description: The port}: no type. *)
Definition untyped_fields : pydict :=
  [item "default" (PyStr "80"); item "description" (PyStr "The port")].

(** {type: int, default: true, description: The port}. *)
Definition bool_default_fields : pydict :=
  [item "type" (PyStr "int"); item "default" (PyBool true);
   item "description" (PyStr "The port")].

(** {type: int, default: eighty, description: The port}. *)
Definition str_default_fields : pydict :=
  [item "type" (PyStr "int"); item "default" (PyStr "eighty");
   item "description" (PyStr "The port")].

Definition table : list (string * pyval) :=
  [("<metadata>", PyDict manifest_items);
   ("<revision>", PyDict revision_items);
   ("<subordinate-global>", PyDict (subordinate_items "global"));
   ("<subordinate-container>", PyDict (subordinate_items "container"));
   ("<template-interface>", PyDict template_interface_items);
   ("<template-relation>", PyDict template_relation_items);
   ("<sequence>", PyList [PyStr "name"; PyStr "summary"]);
   ("<no-name>", PyDict (tl base_items));
   ("<no-summary>", PyDict (hd (item "name" PyNone) base_items
                             :: tl (tl base_items)));
   ("<config>", config_with port_fields);
   ("<config-untyped>", config_with untyped_fields);
   ("<config-bool-default>", config_with bool_default_fields)].

Definition R0 : Runtime := runtime table.

Definition readme : string := "How to deploy this charm".

Definition charm_world (metadata : string) : World :=
  world (charm_files metadata "<config>" readme true).

Definition good_world : World := charm_world "<metadata>".

(** [metadata.yaml] does not parse; no hooks directory, no copyright file,
    no config.yaml. *)
Definition broken_world : World :=
  world [("mycharm", Dir 493 ["metadata.yaml"]);
         ("mycharm/metadata.yaml", File 420 true "name: [")].

(** The option [port] has a default and no type. *)
Definition untyped_world : World :=
  world (charm_files "<metadata>" "<config-untyped>" readme true).

(** README.md repeats lines 4 and 7 of the template. *)
Definition boilerplate_readme : string :=
  line "# mycharm" ++ line blank_line ++ line usage_line.

Definition boilerplate_world : World :=
  world (charm_files "<metadata>" "<config>" boilerplate_readme true).

(** [hooks/install] exists and cannot be opened. *)
Definition unreadable_world : World :=
  world (charm_files "<metadata>" "<config>" readme false).

Definition diagnostics_of (r : proof_result) : list Diagnostic :=
  match r with
  | Returned ds _ => ds
  | Raised _ => []
  end.

Definition code_of (r : proof_result) : Z :=
  match r with
  | Returned _ code => code
  | Raised _ => 0%Z
  end.

End Fixtures.

(** A step that ends normally and records warnings at most. *)
Definition warns_only (m : M unit) : Prop :=
  forall L, exists L', m L = (Ok tt, L') /\ errs (lint L') = errs (lint L).


(* ================================================================== *)
(** * The rest of the module: [Charm] and [local] *)

Section CharmClass.

Variable R : Runtime.
Variable W : World.

(** [Charm.is_charm] (line 202). *)
Definition is_charm (charm_path : string) : bool :=
  os_path_isfile W (OsPath.join charm_path "metadata.yaml").

(** [Charm.__init__] (lines 196-199): the object keeps the path; [None]
    stands for [Exception('Not a Charm')]. *)
Definition Charm (path : string) : option string :=
  if negb (is_charm path) then None else Some path.

(** [Charm.metadata] (lines 411-416): the loaded value, the [IOError] of
    [open], or [str(e)] of what the loader raises. *)
Definition metadata (charm_path : string) : exn + (pyval + string) :=
  match fs W (OsPath.join charm_path "metadata.yaml") with
  | Some (File _ true text) => inr (yaml_safe_load R text)
  | Some (File _ false _) =>
      inl (IOError (OsPath.join charm_path "metadata.yaml")
                   "Permission denied")
  | Some (Dir _ _) =>
      inl (IOError (OsPath.join charm_path "metadata.yaml") "Is a directory")
  | None =>
      inl (IOError (OsPath.join charm_path "metadata.yaml")
                   "No such file or directory")
  end.

(** [local] (lines 443-449).  The loop body evaluates [os.join], which the
    module [os] does not have: the attribute lookup raises [AttributeError]
    before [os.path.exists] is called. *)
Definition local_entry (directory charm : string) : exn + bool :=
  inl AttributeError.

Fixpoint local_loop (directory : string) (entries local_charms : list string)
  : exn + list string :=
  match entries with
  | [] => inr local_charms
  | charm :: rest =>
      match local_entry directory charm with
      | inl e => inl e
      | inr true => local_loop directory rest (local_charms ++ [charm])
      | inr false => local_loop directory rest local_charms
      end
  end.

Definition local (directory : string) : exn + list string :=
  match fs W directory with
  | Some (Dir _ entries) => local_loop directory entries []
  | _ => inl OSError
  end.

End CharmClass.

(* ================================================================== *)
(** * More ways to read a result *)

(** [proof] stops at one of its two [crit] diagnostics: the resolved path is
    not a directory, or [metadata.yaml] opens and the loader raises. *)
Definition stops_early (R : Runtime) (W : World) (charm_name : string)
  : bool :=
  let charm_path := resolve_charm_path W charm_name in
  if os_path_isdir W charm_path then
    match fs W (OsPath.join charm_path "metadata.yaml") with
    | Some (File _ true text) =>
        match yaml_safe_load R text with
        | inl _ => false
        | inr _ => true
        end
    | _ => false
    end
  else true.

(** [open] fails on the path: no entry, a directory, or no read
    permission. *)
Definition cannot_open (W : World) (path : string) : bool :=
  match fs W path with
  | Some (File _ true _) => false
  | _ => true
  end.

Definition not_crit (d : Diagnostic) : Prop := fst d <> SCrit.

(** The warning of lines 68-70 for line [count] of [hook]. *)
Definition ec2_warning (hook : string) (count : Z) : Diagnostic :=
  (SWarn, "(" ++ hook ++ ":" ++ PyString.dec count ++ ") - "
          ++ "hook accesses EC2 metadata service directly").

Definition not_executable (hook : string) : Diagnostic :=
  (SWarn, hook ++ " not executable").

Definition ec2_url : string := "http://169.254.169.254/".

(** The info of line 123. *)
Definition no_hooks (r : string) : Diagnostic :=
  (SInfo, "relation " ++ r ++ " has no hooks").

(** [maintainer] goes through [parseaddr] and [formataddr] unchanged. *)
Definition round_trips (R : Runtime) (maintainer : pyval) : bool :=
  match parseaddr R maintainer with
  | inr parsed => Py.eq_str maintainer (formataddr R parsed)
  | inl _ => false
  end.

Definition maintainer_warning (R : Runtime) (maintainer : pyval)
  : Diagnostic :=
  (SWarn, "Maintainer address should contain a real-name and "
          ++ "email only. ["
          ++ match parseaddr R maintainer with
             | inr parsed => formataddr R parsed
             | inl _ => EmptyString
             end ++ "]").

(* ================================================================== *)
(** * More concrete charms *)

Module Cases.
Import Fixtures.

(** name and summary only. *)
Definition bare_items : pydict :=
  [item "name" (PyStr "mycharm"); item "summary" (PyStr "An example charm")].

(** subordinate: true, requires: {juju-info: } (an empty value). *)
Definition null_requires_items : pydict :=
  (manifest_items
   ++ [item "subordinate" (PyBool true);
       item "requires" (PyDict [item "juju-info" PyNone])])%list.

(** subordinate: true, and no requires. *)
Definition no_requires_items : pydict :=
  (manifest_items ++ [item "subordinate" (PyBool true)])%list.

Definition table : list (string * pyval) :=
  (Fixtures.table
   ++ [("<no-maintainer>", PyDict bare_items);
       ("<subordinate-null-requires>", PyDict null_requires_items);
       ("<subordinate-no-requires>", PyDict no_requires_items)])%list.

Definition R1 : Runtime := runtime table.

Definition charm_world (metadata : string) : World :=
  world (charm_files metadata "<config>" readme true).

(** The charm directory with one more entry, looked up first. *)
Definition with_entry (path : string) (n : node) (metadata : string)
  : World :=
  world ((path, n) :: charm_files metadata "<config>" readme true).



(** A directory and nothing in it. *)
Definition empty_world : World := world [("mycharm", Dir 493 [])].

End Cases.

(** [v] can be hashed: it is not a list or a dict. *)
Definition hashable (v : pyval) : bool :=
  match v with
  | PyList _ | PyDict _ => false
  | _ => true
  end.

(** The class [KNOWN_OPTION_TYPES] gives for a hashable [v], if any. *)
Definition declared_class (v : pyval) : option pyclass :=
  match v with
  | PyStr s =>
      option_map snd (find (fun p => String.eqb (fst p) s) KNOWN_OPTION_TYPES)
  | _ => None
  end.

(** The warning of lines 179-180. *)
Definition invalid_type_warning (R : Runtime) (option_name option_type : pyval)
  : Diagnostic :=
  (SWarn, "config.yaml: option " ++ fmt_s R option_name
          ++ " has an invalid type (" ++ fmt_s R option_type ++ ")").

Fixpoint has_char_where (f : ascii -> bool) (s : string) : bool :=
  match s with
  | EmptyString => false
  | String c s' => f c || has_char_where f s'
  end.

(** The warnings of lines 235-242. *)
Definition name_warning (R : Runtime) (name : pyval) (charm_basename : string)
  : Diagnostic :=
  (SWarn, "metadata name (" ++ fmt_s R name
          ++ ") must match directory name (" ++ charm_basename
          ++ ") exactly for local deployment.").

Definition summary_warning : Diagnostic :=
  (SWarn, "summary sould be less than 72").

(** The list line 249-252 iterates over. *)
Definition maintainers_of (maintainer : pyval) : list pyval :=
  match maintainer with
  | PyList l => l
  | _ => [maintainer]
  end.

(** [v] supports [in]: a string, a list or a mapping. *)
Definition iterable (v : pyval) : bool :=
  match v with
  | PyStr _ | PyList _ | PyDict _ => true
  | _ => false
  end.

(** The error of line 406. *)
Definition revision_file_error : Diagnostic :=
  (SErr, "revision file contains non-numeric data").

(** Every character of [s] is one that [strip] removes. *)
Definition all_space (s : string) : bool :=
  negb (has_char_where (fun c => negb (PyString.isspace c)) s).

(** The number a sequence of decimal digits stands for, read after [acc]. *)
Fixpoint uint_value (acc : Z) (d : Decimal.uint) : Z :=
  match d with
  | Decimal.Nil => acc
  | Decimal.D0 d' => uint_value (10 * acc + 0) d'
  | Decimal.D1 d' => uint_value (10 * acc + 1) d'
  | Decimal.D2 d' => uint_value (10 * acc + 2) d'
  | Decimal.D3 d' => uint_value (10 * acc + 3) d'
  | Decimal.D4 d' => uint_value (10 * acc + 4) d'
  | Decimal.D5 d' => uint_value (10 * acc + 5) d'
  | Decimal.D6 d' => uint_value (10 * acc + 6) d'
  | Decimal.D7 d' => uint_value (10 * acc + 7) d'
  | Decimal.D8 d' => uint_value (10 * acc + 8) d'
  | Decimal.D9 d' => uint_value (10 * acc + 9) d'
  end.

(** [escapes P m]: every exception [m] ends with is in [P]. *)
Definition escapes {A} (P : exn -> Prop) (m : M A) : Prop :=
  forall L e, fst (m L) = Raise e -> P e.

(** The exceptions of a failed lookup and of an operand of the wrong
    type. *)
Definition lookup_or_type_error (e : exn) : Prop :=
  e = KeyError \/ e = TypeError.

(* ================================================================== *)
(** * The hooks [proof] opens *)




(* ================================================================== *)
(** * Calls of [proof] in one process *)








(* ================================================================== *)
(** * Keys that [str] accepts *)

(** A string whose characters are all ASCII.  The loader gives a [str] for
    such a text only; any other text comes out as a [unicode] object, which
    the values of this development do not have. *)
Definition ascii_only (s : string) : bool :=
  negb (has_char_where (fun c => (128 <=? nat_of_ascii c)%nat) s).

Definition ascii_key (k : pyval) : bool :=
  match k with
  | PyStr s => ascii_only s
  | _ => true
  end.

(** Every key of every option of config.yaml is one on which [str(key)]
    (line 167) cannot fail. *)
Definition option_keys_ascii (R : Runtime) (W : World) (charm_path : string)
  : bool :=
  match fs W (OsPath.join charm_path "config.yaml") with
  | Some (File _ true text) =>
      match yaml_safe_load R text with
      | inl (PyDict config) =>
          match Py.dict_find "options" config with
          | Some (PyDict opts) =>
              forallb (fun item =>
                         match snd item with
                         | PyDict value => forallb ascii_key (map fst value)
                         | _ => true
                         end) opts
          | _ => true
          end
      | _ => true
      end
  | _ => true
  end.

(* ================================================================== *)
(** * Steps: general lemmas *)

Local Open Scope py_scope.

Lemma severity_eqb_eq a b : severity_eqb a b = true <-> a = b.
Proof. destruct a, b; simpl; split; congruence. Qed.

Lemma diag_eqb_eq a b : diag_eqb a b = true <-> a = b.
Proof.
  destruct a as [s m], b as [s' m']; unfold diag_eqb; simpl.
  rewrite andb_true_iff, severity_eqb_eq, String.eqb_eq.
  split; [intros [-> ->]; reflexivity | intros [= -> ->]; auto].
Qed.

Lemma occurrences_app d l1 l2 :
  occurrences d (l1 ++ l2) = (occurrences d l1 + occurrences d l2)%nat.
Proof. unfold occurrences. now rewrite filter_app, length_app. Qed.

Lemma occurrences_absent d l :
  Forall (fun x => x <> d) l -> occurrences d l = 0%nat.
Proof.
  unfold occurrences. induction 1 as [|x l Hx _ IH]; simpl; auto.
  destruct (diag_eqb d x) eqn:E; auto.
  apply diag_eqb_eq in E. congruence.
Qed.

Lemma occurrences_self d : occurrences d [d] = 1%nat.
Proof.
  unfold occurrences; simpl.
  now rewrite (proj2 (diag_eqb_eq d d) eq_refl).
Qed.

Lemma occurrences_zero_not_in d l : occurrences d l = 0%nat -> ~ In d l.
Proof.
  unfold occurrences. induction l as [|x l IH]; simpl; auto.
  destruct (diag_eqb d x) eqn:E; simpl; try discriminate.
  intros H [->|Hin]; [|now apply IH].
  now rewrite (proj2 (diag_eqb_eq d d) eq_refl) in E.
Qed.

Lemma has_char_app c a b : has_char c (a ++ b) = has_char c a || has_char c b.
Proof.
  induction a as [|x a IH]; simpl; auto.
  now rewrite IH, orb_assoc.
Qed.

Lemma bind_Ok_inv {A B} (m : M A) (k : A -> M B) L b L2 :
  bind m k L = (Ok b, L2) ->
  exists a L1, m L = (Ok a, L1) /\ k a L1 = (Ok b, L2).
Proof.
  unfold bind. destruct (m L) as [[a|e] L1]; intros H; [|discriminate].
  now exists a, L1.
Qed.

Lemma bind_Raise_inv {A B} (m : M A) (k : A -> M B) L e L2 :
  bind m k L = (Raise e, L2) ->
  m L = (Raise e, L2) \/
  exists a L1, m L = (Ok a, L1) /\ k a L1 = (Raise e, L2).
Proof.
  unfold bind. destruct (m L) as [[a|e'] L1]; intros H.
  - right. now exists a, L1.
  - left. congruence.
Qed.

Section Emits.

Variable R : Runtime.
Variable P : Diagnostic -> Prop.

Lemma emits_ret {A} (a : A) : emits P (ret a).
Proof.
  exists (Ok a), []. split; [constructor|].
  intros L; simpl. now rewrite app_nil_r.
Qed.

Lemma emits_raise {A} (e : exn) : emits P (@raise A e).
Proof.
  exists (Raise e), []. split; [constructor|].
  intros L; simpl. now rewrite app_nil_r.
Qed.

Lemma emits_lift {A} (r : exn + A) : emits P (lift r).
Proof. destruct r; [apply emits_raise | apply emits_ret]. Qed.

Lemma emits_set_exit_code z : emits P (set_exit_code z).
Proof.
  exists (Ok tt), []. split; [constructor|].
  intros L; simpl. now rewrite app_nil_r.
Qed.

Lemma emits_record sev msg : P (sev, msg) -> emits P (record R sev msg).
Proof.
  intros H. exists (Ok tt), [(sev, msg)]. split; [now constructor|].
  intros L; simpl. auto.
Qed.

Lemma emits_bind {A B} (m : M A) (k : A -> M B) :
  emits P m -> (forall a, emits P (k a)) -> emits P (bind m k).
Proof.
  intros (o & ds & HP & Hm) Hk. destruct o as [a|e].
  - destruct (Hk a) as (o' & ds' & HP' & Hk').
    exists o', (ds ++ ds')%list. split; [now apply Forall_app|].
    intros L. unfold bind. destruct (Hm L) as [Ho Hl].
    destruct (m L) as [o1 L1]; simpl in *; subst o1.
    destruct (Hk' L1) as [Ho' Hl']. split; auto.
    now rewrite Hl', Hl, app_assoc.
  - exists (Raise e), ds. split; auto.
    intros L. unfold bind. destruct (Hm L) as [Ho Hl].
    destruct (m L) as [o1 L1]; simpl in *; subst o1. auto.
Qed.

Lemma emits_bind_ret {A B} (a : A) (k : A -> M B) :
  emits P (k a) -> emits P (bind (ret a) k).
Proof. intros (o & ds & HP & Hk). exists o, ds. split; auto. Qed.

Lemma emits_bind_raise {A B} (e : exn) (k : A -> M B) :
  emits P (bind (raise e) k).
Proof.
  exists (Raise e), []. split; [constructor|].
  intros L; simpl. now rewrite app_nil_r.
Qed.

Lemma emits_try {A} (m : M A) (h : exn -> option (M A)) :
  emits P m ->
  (forall e, match h e with Some k => emits P k | None => True end) ->
  emits P (try_except m h).
Proof.
  intros (o & ds & HP & Hm) Hh. destruct o as [a|e].
  - exists (Ok a), ds. split; auto.
    intros L. unfold try_except. destruct (Hm L) as [Ho Hl].
    destruct (m L) as [o1 L1]; simpl in *; subst o1. auto.
  - specialize (Hh e). destruct (h e) as [k|] eqn:Ek.
    + destruct Hh as (o' & ds' & HP' & Hk').
      exists o', (ds ++ ds')%list. split; [now apply Forall_app|].
      intros L. unfold try_except. destruct (Hm L) as [Ho Hl].
      destruct (m L) as [o1 L1]; simpl in *; subst o1.
      rewrite Ek. destruct (Hk' L1) as [Ho' Hl']. split; auto.
      now rewrite Hl', Hl, app_assoc.
    + exists (Raise e), ds. split; auto.
      intros L. unfold try_except. destruct (Hm L) as [Ho Hl].
      destruct (m L) as [o1 L1]; simpl in *; subst o1.
      rewrite Ek. auto.
Qed.

Lemma emits_when b m : emits P m -> emits P (when b m).
Proof. destruct b; simpl; auto using emits_ret. Qed.

Lemma emits_forM_ {A} (l : list A) (f : A -> M unit) :
  (forall x, emits P (f x)) -> emits P (forM_ l f).
Proof.
  intros Hf. induction l as [|x l IH]; simpl.
  - apply emits_ret.
  - apply emits_bind; auto.
Qed.

End Emits.

(** What [emits] gives for one run. *)
Lemma emits_run {A} P (m : M A) L o L' :
  emits P m -> m L = (o, L') ->
  exists ds, lint L' = (lint L ++ ds)%list /\ Forall P ds.
Proof.
  intros (o1 & ds & HP & Hm) E. destruct (Hm L) as [_ Hl].
  rewrite E in Hl. now exists ds.
Qed.

Lemma emits_keeps {A} (m : M A) L o L' d :
  emits (fun _ => True) m -> m L = (o, L') -> In d (lint L) -> In d (lint L').
Proof.
  intros Hm E Hin. destruct (emits_run _ _ _ _ _ Hm E) as (ds & -> & _).
  apply in_or_app; auto.
Qed.

Lemma emits_occurrences {A} (m : M A) L o L' d :
  emits (fun x => x <> d) m -> m L = (o, L') ->
  occurrences d (lint L') = occurrences d (lint L).
Proof.
  intros Hm E. destruct (emits_run _ _ _ _ _ Hm E) as (ds & -> & Hds).
  rewrite occurrences_app, (occurrences_absent _ _ Hds). lia.
Qed.

Lemma emits_weaken {A} (P Q : Diagnostic -> Prop) (m : M A) :
  (forall d, P d -> Q d) -> emits P m -> emits Q m.
Proof.
  intros HPQ (o & ds & HP & Hm). exists o, ds. split; auto.
  eapply Forall_impl; eauto.
Qed.

(** [(sev, msg) <> d] for a known [d]: by the severity, by the first
    characters of the message, or by a character that only one has. *)
Ltac differ_by c :=
  let H := fresh "H" in
  intro H;
  apply (f_equal (fun d => has_char c (snd d))) in H;
  cbn in H; rewrite ?has_char_app in H; cbn in H;
  rewrite ?orb_true_r in H; discriminate H.

Ltac differ :=
  unfold revision_warning, revision_relocation, subordinate_error,
    subordinate_msg;
  first [ discriminate
        | let H := fresh "H" in intro H; cbn in H; discriminate H
        | differ_by "x"%char
        | differ_by "I"%char ].

Ltac is_other := first [ exact I | differ | repeat split; differ ].

Ltac emits_step :=
  first
    [ solve [auto 1 with quiet nocore]
    | match goal with
      | |- emits ?P _ =>
          apply (emits_weaken other P);
          [ unfold other; cbv beta; tauto
          | solve [auto 1 with quiet nocore] ]
      end
    | apply emits_ret | apply emits_raise | apply emits_set_exit_code
    | apply emits_lift
    | match goal with
      | |- emits _ (bind (ret _) _) => apply emits_bind_ret
      | |- emits _ (bind (raise _) _) => apply emits_bind_raise
      | |- emits _ (bind (match ?x with _ => _ end) _) => destruct x
      | |- emits _ (bind (if ?x then _ else _) _) => destruct x
      end
    | apply emits_bind; [ | intros ? ]
    | apply emits_when
    | apply emits_forM_; intros ?
    | apply emits_try;
      [ | let e := fresh "e" in intros e; destruct e; cbn; try exact I ]
    | apply emits_record; is_other
    | progress cbv zeta
    | match goal with
      | |- emits _ (match ?x with _ => _ end) => destruct x
      | |- emits _ (if ?x then _ else _) => destruct x
      | |- emits _ (let _ := _ in _) => cbv zeta
      end ].

Ltac emits_auto := repeat emits_step.

Create HintDb quiet.

Lemma scan_hook_other R hook lines : forall count,
  emits other (scan_hook R hook count lines).
Proof.
  induction lines as [|line rest IH]; intros count; simpl.
  - apply emits_ret.
  - unfold hook_warnings. emits_auto.
Qed.
#[local] Hint Resolve scan_hook_other : quiet.

Lemma check_hook_other R W hook hooks_path required recommended :
  emits other (check_hook R W hook hooks_path required recommended).
Proof.
  unfold check_hook, os_stat_mode, open_read.
  emits_auto.
Qed.
#[local] Hint Resolve check_hook_other : quiet.

Lemma or_check_hook_other R W has_one r suffix hooks_path :
  emits other (or_check_hook R W has_one r suffix hooks_path).
Proof.
  unfold or_check_hook, py_add_str.
  emits_auto.
Qed.
#[local] Hint Resolve or_check_hook_other : quiet.

Lemma check_relation_fields_other R name rel :
  emits other (check_relation_fields R name rel).
Proof.
  unfold check_relation_fields, py_getitem, py_in_str, py_str_add.
  emits_auto.
Qed.
#[local] Hint Resolve check_relation_fields_other : quiet.

Lemma check_relation_other R W subordinate hooks_path item :
  emits other (check_relation R W subordinate hooks_path item).
Proof.
  unfold check_relation, py_in_str, py_str_add.
  emits_auto.
Qed.
#[local] Hint Resolve check_relation_other : quiet.

Lemma check_relation_hooks_other R W relations subordinate hooks_path :
  emits other (check_relation_hooks R W relations subordinate hooks_path).
Proof.
  unfold check_relation_hooks, py_items.
  emits_auto.
Qed.
#[local] Hint Resolve check_relation_hooks_other : quiet.

Lemma check_option_type_other R option_name option_value :
  emits other (check_option_type R option_name option_value).
Proof.
  unfold check_option_type, py_get, py_getitem, option_type_lookup.
  emits_auto.
Qed.
#[local] Hint Resolve check_option_type_other : quiet.

Lemma check_option_other R item : emits other (check_option R item).
Proof.
  unfold check_option, py_getitem.
  emits_auto.
Qed.
#[local] Hint Resolve check_option_other : quiet.

Lemma check_config_file_other R W charm_path :
  emits other (check_config_file R W charm_path).
Proof.
  unfold check_config_file, open_read.
  emits_auto.
Qed.
#[local] Hint Resolve check_config_file_other : quiet.

Lemma check_metadata_keys_other R charm :
  emits other (check_metadata_keys R charm).
Proof. unfold check_metadata_keys, py_keys. emits_auto. Qed.
#[local] Hint Resolve check_metadata_keys_other : quiet.

Lemma check_name_summary_other R charm charm_path :
  emits other (check_name_summary R charm charm_path).
Proof. unfold check_name_summary, py_getitem, py_len. emits_auto. Qed.
#[local] Hint Resolve check_name_summary_other : quiet.

Lemma check_maintainer_other R charm : emits other (check_maintainer R charm).
Proof. unfold check_maintainer, py_contains, py_getitem. emits_auto. Qed.
#[local] Hint Resolve check_maintainer_other : quiet.

Lemma check_categories_other R charm : emits other (check_categories R charm).
Proof. unfold check_categories, py_contains, py_getitem. emits_auto. Qed.
#[local] Hint Resolve check_categories_other : quiet.

Lemma check_icon_other R W charm_path : emits other (check_icon R W charm_path).
Proof.
  unfold check_icon, open_read, on_IOError, opening_error. emits_auto.
Qed.
#[local] Hint Resolve check_icon_other : quiet.

Lemma check_hooks_dir_copyright_other R W charm_path hooks_path :
  emits other (check_hooks_dir_copyright R W charm_path hooks_path).
Proof. unfold check_hooks_dir_copyright. emits_auto. Qed.
#[local] Hint Resolve check_hooks_dir_copyright_other : quiet.

Lemma scan_boilerplate_other R readme content bad_lines : forall lc,
  emits other (scan_boilerplate R readme content lc bad_lines).
Proof.
  induction bad_lines as [|l rest IH]; intros lc; simpl.
  - apply emits_ret.
  - unfold boilerplate_msg. emits_auto.
Qed.
#[local] Hint Resolve scan_boilerplate_other : quiet.

Lemma check_boilerplate_other R W charm_path readmes :
  emits other (check_boilerplate R W charm_path readmes).
Proof.
  unfold check_boilerplate, open_read, on_IOError, opening_error.
  emits_auto.
Qed.
#[local] Hint Resolve check_boilerplate_other : quiet.

Lemma check_readme_other R W charm_path :
  emits other (check_readme R W charm_path).
Proof.
  unfold check_readme, os_listdir.
  emits_auto.
Qed.
#[local] Hint Resolve check_readme_other : quiet.

Lemma check_charm_hooks_other R W hooks_path :
  emits other (check_charm_hooks R W hooks_path).
Proof. unfold check_charm_hooks. emits_auto. Qed.
#[local] Hint Resolve check_charm_hooks_other : quiet.

Lemma final_checks_other R W charm_path :
  emits other (final_checks R W charm_path).
Proof.
  unfold final_checks, open_read.
  emits_auto.
Qed.
#[local] Hint Resolve final_checks_other : quiet.

Lemma metadata_handler_other R charm_name :
  emits other (metadata_handler R charm_name).
Proof. unfold metadata_handler. emits_auto. Qed.
#[local] Hint Resolve metadata_handler_other : quiet.

(* ================================================================== *)
(** * The subordinate rule and the revision field, step by step *)


Lemma find_scope_container_run rels : forall L,
  exists o, find_scope_container rels L = (o, L) /\
            (forall b, o = Ok b ->
                       b = existsb scope_is_container (map snd rels)) /\
            o <> Raise RelationError.
Proof.
  induction rels as [|[name rel] rest IH]; intros L; simpl.
  - exists (Ok false). repeat split; [congruence | discriminate].
  - destruct (IH L) as (o & E & Hb & Hr).
    destruct rel as [ | | | | |s|l|r]; simpl;
      try (exists (Raise TypeError); unfold bind; simpl;
           repeat split; [discriminate | discriminate]).
    + unfold bind; simpl. destruct (PyString.str_in "scope" s).
      * exists (Raise TypeError). repeat split; discriminate.
      * exists o; auto.
    + unfold bind; simpl.
      destruct (existsb (fun x => Py.eq_str x "scope") l).
      * exists (Raise TypeError). repeat split; discriminate.
      * exists o; auto.
    + unfold bind, Py.dict_has; simpl.
      destruct (Py.dict_find "scope" r) as [s|]; simpl.
      * destruct (Py.eq_str s "container"); simpl.
        -- exists (Ok true). repeat split; [congruence | discriminate].
        -- exists o; auto.
      * exists o; auto.
Qed.

Lemma find_scope_container_quiet P rels :
  emits P (find_scope_container rels).
Proof.
  induction rels as [|[name rel] rest IH]; simpl.
  - apply emits_ret.
  - unfold py_contains, py_getitem. emits_auto.
Qed.

Lemma record_run R sev msg L :
  record R sev msg L =
  (Ok tt, mkLinter (lint L ++ [(sev, msg)])
                   (exit_code_after R sev (exit_code L))).
Proof. reflexivity. Qed.

(** When the subordinate check completes, it has recorded its error once
    or not at all, according to [requires_container]. *)
Lemma check_subordinate_requires_run R charm L L' :
  check_subordinate_requires R (PyDict charm) L = (Ok tt, L') ->
  lint L' = (lint L ++ if requires_container charm then []
                       else [subordinate_error])%list.
Proof.
  unfold check_subordinate_requires, requires_container, try_except, bind,
    py_get, py_items.
  simpl.
  destruct (Py.dict_find "requires" charm) as [[ | | | | |s|l|rels]|]; simpl;
    try discriminate;
    try (intros [= <-]; reflexivity).
  destruct (find_scope_container_run rels L) as (o & E & Hb & Hr).
  rewrite E. destruct o as [b|e].
  - rewrite <- (Hb b eq_refl). destruct b; simpl.
    + intros [= <-]. now rewrite app_nil_r.
    + intros [= <-]. reflexivity.
  - destruct e; try discriminate. congruence.
Qed.

Lemma check_subordinate_requires_quiet R charm :
  emits (fun d => d <> revision_warning /\ d <> revision_relocation)
        (check_subordinate_requires R charm).
Proof.
  unfold check_subordinate_requires, py_get, py_items.
  pose proof find_scope_container_quiet.
  emits_auto.
Qed.

(** A [revision] that [int] turns into a number that is not negative gets
    the relocation warning and nothing else. *)
Lemma check_revision_run R charm v x L :
  Py.dict_find "revision" charm = Some v ->
  Py.int v = inr x -> (0 <= x)%Z ->
  check_revision R (PyDict charm) L =
  (Ok tt, mkLinter (lint L ++ [revision_relocation])
                   (exit_code_after R SWarn (exit_code L))).
Proof.
  intros Hv Hx Hpos.
  unfold check_revision, py_contains, py_getitem, Py.dict_has, bind,
    try_except, warn.
  simpl. repeat (rewrite ?Hv, ?Hx; simpl).
  destruct (Z.ltb_spec x 0); [lia|]. reflexivity.
Qed.

Lemma check_revision_quiet R charm :
  emits (fun d => d <> subordinate_error) (check_revision R charm).
Proof.
  unfold check_revision, py_contains, py_getitem. emits_auto.
Qed.

Lemma check_relations_quiet R W charm hooks_path :
  emits (fun d => d <> revision_warning /\ d <> revision_relocation)
        (check_relations R W charm hooks_path).
Proof.
  unfold check_relations, py_get.
  pose proof check_subordinate_requires_quiet.
  emits_auto.
Qed.

(** Every step only appends. *)
Lemma appends_only {A} P (m : M A) : emits P m -> emits (fun _ => True) m.
Proof. apply emits_weaken; auto. Qed.

(* ================================================================== *)
(** * [proof], from the loaded manifest on *)


Lemma proof_steps_loaded R W charm_name charm L :
  loaded_manifest R W charm_name = Some charm ->
  proof_steps R W charm_name L =
  let charm_path := resolve_charm_path W charm_name in
  match manifest_checks R W charm charm_path
                        (OsPath.join charm_path "hooks") L with
  | (Ok _, L1) => final_checks R W charm_path L1
  | (Raise (IOError _ _), L1) =>
      bind (metadata_handler R charm_name)
           (fun _ => final_checks R W charm_path) L1
  | (Raise e, L1) => (Raise e, L1)
  end.
Proof.
  unfold loaded_manifest, proof_steps, load_and_check.
  cbv zeta.
  destruct (os_path_isdir W (resolve_charm_path W charm_name)); [|discriminate].
  simpl. unfold open_read, try_except, bind.
  destruct (fs W _) as [[m [|] text|]|]; try discriminate.
  simpl.
  destruct (yaml_safe_load R text) as [c|]; [|discriminate].
  intros [= ->]. simpl.
  destruct (manifest_checks R W charm _ _ L) as [[u|e] L1]; simpl; auto.
  destruct e; simpl; auto.
Qed.

Lemma manifest_checks_Ok R W charm charm_path hooks_path L0 L :
  manifest_checks R W charm charm_path hooks_path L0 = (Ok tt, L) ->
  exists L1 L2 L3 L4 L5 L6 L7 L8 L9,
    check_metadata_keys R charm L0 = (Ok tt, L1) /\
    check_name_summary R charm charm_path L1 = (Ok tt, L2) /\
    check_maintainer R charm L2 = (Ok tt, L3) /\
    check_categories R charm L3 = (Ok tt, L4) /\
    check_icon R W charm_path L4 = (Ok tt, L5) /\
    check_hooks_dir_copyright R W charm_path hooks_path L5 = (Ok tt, L6) /\
    check_readme R W charm_path L6 = (Ok tt, L7) /\
    check_relations R W charm hooks_path L7 = (Ok tt, L8) /\
    check_revision R charm L8 = (Ok tt, L9) /\
    check_charm_hooks R W hooks_path L9 = (Ok tt, L).
Proof.
  unfold manifest_checks. intros H.
  do 9 (apply bind_Ok_inv in H; destruct H as ([] & ? & ? & H)).
  repeat eexists; eauto.
Qed.

Lemma metadata_handler_run R charm_name L :
  metadata_handler R charm_name L =
  (Ok tt, mkLinter (lint L ++ [metadata_error charm_name]) (-1)).
Proof. reflexivity. Qed.

(** A call that returns without the metadata error has run the manifest
    checks to their end, and then the final checks. *)
Lemma proof_completed R W charm_name charm ds code :
  loaded_manifest R W charm_name = Some charm ->
  proof R W charm_name = Returned ds code ->
  ~ In (metadata_error charm_name) ds ->
  let charm_path := resolve_charm_path W charm_name in
  exists L1,
    manifest_checks R W charm charm_path (OsPath.join charm_path "hooks")
                    (CharmLinter) = (Ok tt, L1) /\
    final_checks R W charm_path L1 = (Ok tt, mkLinter ds code).
Proof.
  intros Hload Hproof Hnot. cbv zeta. unfold proof, result_of in Hproof.
  rewrite (proof_steps_loaded _ _ _ _ _ Hload) in Hproof. cbv zeta in Hproof.
  destruct (manifest_checks _ _ _ _ _ _) as [[[]|e] L1].
  - exists L1. split; auto.
    destruct (final_checks _ _ _ L1) as [[[]|e] [l c]]; [|discriminate].
    simpl in Hproof. congruence.
  - exfalso.
    assert (Hh : exists f s, e = IOError f s).
    { destruct e; try discriminate; eauto. }
    destruct Hh as (f & s & ->).
    unfold bind in Hproof. rewrite metadata_handler_run in Hproof.
    destruct (final_checks _ _ _ _) as [[[]|e] L2] eqn:E; [|discriminate].
    injection Hproof as <- <-.
    apply Hnot.
    eapply emits_keeps;
      [ eapply appends_only, final_checks_other | exact E | ].
    simpl. apply in_or_app. right. left. reflexivity.
Qed.

Lemma other_occurrences {A} (m : M A) L o L' d :
  (forall x, other x -> x <> d) ->
  emits other m -> m L = (o, L') ->
  occurrences d (lint L') = occurrences d (lint L).
Proof.
  intros Hd Hm E. eapply emits_occurrences; eauto.
  eapply emits_weaken; eauto.
Qed.

Lemma other_not_subordinate x : other x -> x <> subordinate_error.
Proof. unfold other; tauto. Qed.

Lemma other_not_warning x : other x -> x <> revision_warning.
Proof. unfold other; tauto. Qed.

Lemma other_not_relocation x : other x -> x <> revision_relocation.
Proof. unfold other; tauto. Qed.

(** The relation checks of a subordinate charm, when they complete, add
    the subordinate error once or not at all. *)
Lemma check_relations_subordinate R W charm hooks_path L L' :
  Py.truthy (subordinate_of charm) = true ->
  check_relations R W (PyDict charm) hooks_path L = (Ok tt, L') ->
  occurrences subordinate_error (lint L') =
  (occurrences subordinate_error (lint L)
   + if requires_container charm then 0 else 1)%nat.
Proof.
  intros Hsub H. unfold check_relations in H.
  apply bind_Ok_inv in H. destruct H as (sub & La & E1 & H).
  injection E1 as <- <-. fold (subordinate_of charm) in H.
  apply bind_Ok_inv in H. destruct H as ([] & Lb & E2 & H).
  apply bind_Ok_inv in H. destruct H as (provides & Lc & E3 & H).
  injection E3 as <- <-.
  apply bind_Ok_inv in H. destruct H as ([] & Ld & E4 & H).
  apply bind_Ok_inv in H. destruct H as ([] & Le & E5 & H).
  rewrite Hsub in E5.
  apply check_subordinate_requires_run in E5.
  apply bind_Ok_inv in H. destruct H as (peers & Lf & E6 & H).
  injection E6 as <- <-.
  assert (Q2 : occurrences subordinate_error (lint Lb)
               = occurrences subordinate_error (lint L)).
  { eapply other_occurrences; [apply other_not_subordinate | | exact E2].
    emits_auto. }
  assert (Q4 : occurrences subordinate_error (lint Ld)
               = occurrences subordinate_error (lint Lb)).
  { eapply other_occurrences; [apply other_not_subordinate | | exact E4].
    emits_auto. }
  assert (Q6 : occurrences subordinate_error (lint L')
               = occurrences subordinate_error (lint Le)).
  { eapply other_occurrences; [apply other_not_subordinate | | exact H].
    emits_auto. }
  rewrite Q6, E5, occurrences_app, Q4, Q2.
  destruct (requires_container charm); [reflexivity|].
  now rewrite occurrences_self.
Qed.

(* ================================================================== *)
(** * The subordinate rule *)

(** C8, amended.  Let [proof] return for a subordinate charm after the
    manifest checks have run to their end (the metadata error is not among
    the diagnostics).  If the [requires] block is absent or has no relation with
    [scope: container], the result holds the error "subordinates must have at
    least one scope: container relation" exactly once; if some [requires]
    relation has [scope: container], the result does not hold it. *)
Theorem subordinate_requires_container_scope
        R W charm_name charm ds code :
  loaded_manifest R W charm_name = Some (PyDict charm) ->
  Py.truthy (subordinate_of charm) = true ->
  proof R W charm_name = Returned ds code ->
  ~ In (metadata_error charm_name) ds ->
  occurrences subordinate_error ds
  = if requires_container charm then 0%nat else 1%nat.
Proof.
  intros Hload Hsub Hproof Hnot.
  destruct (proof_completed _ _ _ _ _ _ Hload Hproof Hnot) as (L & Hm & Hf).
  apply manifest_checks_Ok in Hm.
  destruct Hm as (L1 & L2 & L3 & L4 & L5 & L6 & L7 & L8 & L9 &
                  E1 & E2 & E3 & E4 & E5 & E6 & E7 & E8 & E9 & E10).
  pose proof (fun A m La o Lb =>
                @other_occurrences A m La o Lb _ other_not_subordinate) as Q.
  apply Q in E1, E2, E3, E4, E5, E6, E7, E10, Hf; auto with quiet nocore.
  apply (check_relations_subordinate _ _ _ _ _ _ Hsub) in E8.
  apply (emits_occurrences _ _ _ _ _ (check_revision_quiet R _)) in E9.
  simpl in Hf, E1.
  rewrite Hf, E10, E9, E8, E7, E6, E5, E4, E3, E2, E1.
  reflexivity.
Qed.

Lemma subordinate_requires_container_scope_witness :
  let r := proof Fixtures.R0 (Fixtures.charm_world "<subordinate-global>")
                 "mycharm" in
  let r' := proof Fixtures.R0 (Fixtures.charm_world "<subordinate-container>")
                  "mycharm" in
  occurrences subordinate_error (Fixtures.diagnostics_of r) = 1%nat /\
  occurrences subordinate_error (Fixtures.diagnostics_of r') = 0%nat.
Proof.
  split.
  - apply (subordinate_requires_container_scope
             Fixtures.R0 (Fixtures.charm_world "<subordinate-global>")
             "mycharm" (Fixtures.subordinate_items "global")
             _ (Fixtures.code_of
                  (proof Fixtures.R0
                         (Fixtures.charm_world "<subordinate-global>")
                         "mycharm"))).
    + vm_compute; reflexivity.
    + vm_compute; reflexivity.
    + vm_compute; reflexivity.
    + apply occurrences_zero_not_in. vm_compute; reflexivity.
  - apply (subordinate_requires_container_scope
             Fixtures.R0 (Fixtures.charm_world "<subordinate-container>")
             "mycharm" (Fixtures.subordinate_items "container")
             _ (Fixtures.code_of
                  (proof Fixtures.R0
                         (Fixtures.charm_world "<subordinate-container>")
                         "mycharm"))).
    + vm_compute; reflexivity.
    + vm_compute; reflexivity.
    + vm_compute; reflexivity.
    + apply occurrences_zero_not_in. vm_compute; reflexivity.
Defined.

(** C8 as stated fails, in two ways.  With [requires: {juju-info: }] the
    subordinate check raises [TypeError] and [proof] yields nothing.  With
    no [requires] and a hook of the provided relation that cannot be read,
    [proof] returns, the manifest checks having been left before the
    subordinate rule was looked at, and the error is not in the result. *)
Lemma subordinate_error_not_always_yielded :
  let W := Cases.with_entry "mycharm/hooks/website-relation-changed"
                            (File 493 false Fixtures.script)
                            "<subordinate-no-requires>" in
  (Py.truthy (subordinate_of Cases.null_requires_items) = true /\
   requires_container Cases.null_requires_items = false /\
   proof Cases.R1 (Cases.charm_world "<subordinate-null-requires>") "mycharm"
   = Raised TypeError) /\
  (Py.truthy (subordinate_of Cases.no_requires_items) = true /\
   requires_container Cases.no_requires_items = false /\
   proof Cases.R1 W "mycharm"
   = Returned [metadata_error "mycharm"] (-1) /\
   occurrences subordinate_error
     (Fixtures.diagnostics_of (proof Cases.R1 W "mycharm")) = 0%nat).
Proof. cbv zeta. repeat split; vm_compute; reflexivity. Qed.

(* ================================================================== *)
(** * The [revision] field of the manifest *)

Lemma dict_find_key k d v :
  Py.dict_find k d = Some v -> In (PyStr k) (map fst d).
Proof.
  induction d as [|[k' v'] d IH]; simpl; [discriminate|].
  destruct (Py.eq_str k' k) eqn:E; auto.
  intros _. left. destruct k'; try discriminate.
  simpl in E. apply String.eqb_eq in E. now subst.
Qed.

Lemma metadata_keys_loop_reports R k keys :
  Py.in_strs (PyStr k) KNOWN_METADATA_KEYS = false ->
  In (PyStr k) keys ->
  forall L o L',
    forM_ keys (fun key =>
      when (negb (Py.in_strs key KNOWN_METADATA_KEYS))
           (err R ("Unknown root metadata field (" ++ fmt_s R key ++ ")")))
      L = (o, L') ->
    In (SErr, "Unknown root metadata field (" ++ k ++ ")") (lint L').
Proof.
  intros Hk. induction keys as [|x keys IH]; cbn [forM_ In]; [tauto|].
  intros Hin L o L' E. unfold bind in E.
  destruct Hin as [->|Hin].
  - rewrite Hk in E. cbn [negb when] in E. unfold err in E.
    rewrite record_run in E.
    eapply emits_keeps; [ | exact E | ].
    + apply emits_forM_. intros key. emits_auto.
    + cbn [lint fmt_s]. apply in_or_app. right. left. reflexivity.
  - destruct (negb (Py.in_strs x KNOWN_METADATA_KEYS));
      cbn [when] in E; [unfold err in E; rewrite record_run in E|];
      cbn [ret] in E; eauto.
Qed.

(** A top-level key outside [KNOWN_METADATA_KEYS] gets its error. *)
Lemma check_metadata_keys_reports R charm k v L o L' :
  Py.dict_find k charm = Some v ->
  Py.in_strs (PyStr k) KNOWN_METADATA_KEYS = false ->
  check_metadata_keys R (PyDict charm) L = (o, L') ->
  In (SErr, "Unknown root metadata field (" ++ k ++ ")") (lint L').
Proof.
  intros Hv Hk E. unfold check_metadata_keys, py_keys, bind in E.
  cbn [ret] in E.
  eapply metadata_keys_loop_reports; eauto using dict_find_key.
Qed.

(** C5, amended.  Let the manifest hold a [revision] that [int] reads as a
    number that is not negative, and let [proof] return after the manifest
    checks have run to their end.  The result holds the relocation warning
    exactly once, does not hold the warning "revision should be a positive
    integer", and holds the error "Unknown root metadata field (revision)":
    [revision] is not in [KNOWN_METADATA_KEYS]. *)
Theorem revision_in_manifest R W charm_name charm v x ds code :
  loaded_manifest R W charm_name = Some (PyDict charm) ->
  Py.dict_find "revision" charm = Some v ->
  Py.int v = inr x -> (0 <= x)%Z ->
  proof R W charm_name = Returned ds code ->
  ~ In (metadata_error charm_name) ds ->
  occurrences revision_relocation ds = 1%nat /\
  occurrences revision_warning ds = 0%nat /\
  In (SErr, "Unknown root metadata field (revision)") ds.
Proof.
  intros Hload Hv Hx Hpos Hproof Hnot.
  destruct (proof_completed _ _ _ _ _ _ Hload Hproof Hnot) as (L & Hm & Hf).
  apply manifest_checks_Ok in Hm.
  destruct Hm as (L1 & L2 & L3 & L4 & L5 & L6 & L7 & L8 & L9 &
                  E1 & E2 & E3 & E4 & E5 & E6 & E7 & E8 & E9 & E10).
  rewrite (check_revision_run R charm v x L8 Hv Hx Hpos) in E9.
  injection E9 as <-.
  assert (Hunknown : In (SErr, "Unknown root metadata field (revision)") ds).
  { pose proof (check_metadata_keys_reports _ _ _ _ _ _ _ Hv eq_refl E1)
      as Hin.
    pose proof (fun A (m : M A) (Hq : emits other m) La o Lb d =>
                  @emits_keeps A m La o Lb d (appends_only other m Hq)) as K.
    eapply K in Hin; [ | | exact E2]; auto with quiet nocore.
    eapply K in Hin; [ | | exact E3]; auto with quiet nocore.
    eapply K in Hin; [ | | exact E4]; auto with quiet nocore.
    eapply K in Hin; [ | | exact E5]; auto with quiet nocore.
    eapply K in Hin; [ | | exact E6]; auto with quiet nocore.
    eapply K in Hin; [ | | exact E7]; auto with quiet nocore.
    eapply emits_keeps in Hin;
      [ | eapply appends_only, check_relations_quiet | exact E8].
    assert (Hin9 : In (SErr, "Unknown root metadata field (revision)")
                      (lint L8 ++ [revision_relocation])).
    { apply in_or_app; auto. }
    apply (K _ _ (check_charm_hooks_other R W _) _ _ _ _ E10) in Hin9.
    apply (K _ _ (final_checks_other R W _) _ _ _ _ Hf) in Hin9.
    exact Hin9. }
  split; [|split]; auto.
  - pose proof (fun A m La o Lb =>
                  @other_occurrences A m La o Lb _ other_not_relocation) as Q.
    apply Q in E1, E2, E3, E4, E5, E6, E7, E10, Hf; auto with quiet nocore.
    apply (emits_occurrences _ _ _ _ _
             (emits_weaken _ _ _ (fun d H => proj2 H)
                           (check_relations_quiet R W _ _))) in E8.
    simpl in Hf, E1, E10.
    rewrite Hf, E10, occurrences_app, E8, E7, E6, E5, E4, E3, E2, E1.
    reflexivity.
  - pose proof (fun A m La o Lb =>
                  @other_occurrences A m La o Lb _ other_not_warning) as Q.
    apply Q in E1, E2, E3, E4, E5, E6, E7, E10, Hf; auto with quiet nocore.
    apply (emits_occurrences _ _ _ _ _
             (emits_weaken _ _ _ (fun d H => proj1 H)
                           (check_relations_quiet R W _ _))) in E8.
    simpl in Hf, E1, E10.
    rewrite Hf, E10, occurrences_app, E8, E7, E6, E5, E4, E3, E2, E1.
    reflexivity.
Qed.

Lemma revision_in_manifest_witness :
  let r := proof Fixtures.R0 (Fixtures.charm_world "<revision>") "mycharm" in
  occurrences revision_relocation (Fixtures.diagnostics_of r) = 1%nat /\
  occurrences revision_warning (Fixtures.diagnostics_of r) = 0%nat /\
  In (SErr, "Unknown root metadata field (revision)")
     (Fixtures.diagnostics_of r).
Proof.
  apply (revision_in_manifest
           Fixtures.R0 (Fixtures.charm_world "<revision>") "mycharm"
           Fixtures.revision_items (PyInt 3) 3 _
           (Fixtures.code_of
              (proof Fixtures.R0 (Fixtures.charm_world "<revision>")
                     "mycharm"))).
  - vm_compute; reflexivity.
  - vm_compute; reflexivity.
  - vm_compute; reflexivity.
  - lia.
  - vm_compute; reflexivity.
  - apply occurrences_zero_not_in. vm_compute; reflexivity.
Defined.

(** C5 as stated fails: a manifest with [revision: 3] gets an err-level
    diagnostic for that key. *)
Lemma revision_key_reported_as_unknown :
  Py.dict_find "revision" Fixtures.revision_items = Some (PyInt 3) /\
  errs (Fixtures.diagnostics_of
          (proof Fixtures.R0 (Fixtures.charm_world "<revision>") "mycharm"))
  = [(SErr, "Unknown root metadata field (revision)")].
Proof. split; vm_compute; reflexivity. Qed.

(* ================================================================== *)
(** * A manifest that does not parse, or is not what the checks expect *)

(** C2, amended.  When [metadata.yaml] can be opened and the loader raises,
    [proof] records the [crit] diagnostic and returns at once: the result
    holds that diagnostic alone, and no later check has run. *)
Theorem unparsable_metadata_returns_at_once R W charm_name mode text e :
  let charm_path := resolve_charm_path W charm_name in
  let yaml_path := OsPath.join charm_path "metadata.yaml" in
  os_path_isdir W charm_path = true ->
  fs W yaml_path = Some (File mode true text) ->
  yaml_safe_load R text = inr e ->
  proof R W charm_name
  = Returned [(SCrit, "cannot parse " ++ yaml_path ++ ":" ++ e)]
             (exit_code_after R SCrit 0).
Proof.
  cbv zeta. intros Hdir Hfile Hload.
  unfold proof, proof_steps, load_and_check, open_read, try_except, bind.
  rewrite Hdir. cbn [negb]. rewrite Hfile. cbn [ret].
  rewrite Hload. reflexivity.
Qed.

Lemma unparsable_metadata_returns_at_once_witness :
  proof Fixtures.R0 Fixtures.broken_world "mycharm"
  = Returned [(SCrit, "cannot parse mycharm/metadata.yaml:"
                      ++ "could not determine a constructor")] 200.
Proof.
  apply (unparsable_metadata_returns_at_once
           Fixtures.R0 Fixtures.broken_world "mycharm" 420 "name: ["
           "could not determine a constructor").
  - vm_compute; reflexivity.
  - vm_compute; reflexivity.
  - vm_compute; reflexivity.
Defined.

(** C2 as stated fails: in this charm the hooks directory, the copyright
    file and config.yaml are missing, the checks for them would say so, and
    the result of [proof] holds none of their diagnostics. *)
Lemma unparsable_metadata_skips_filesystem_checks :
  let W := Fixtures.broken_world in
  let ds := Fixtures.diagnostics_of (proof Fixtures.R0 W "mycharm") in
  lint (snd (check_hooks_dir_copyright Fixtures.R0 W "mycharm" "mycharm/hooks"
                                       (CharmLinter)))
  = [(SErr, "no hooks directory"); (SErr, "no copyright file")] /\
  lint (snd (check_config_file Fixtures.R0 W "mycharm" (CharmLinter)))
  = [(SWarn, "File config.yaml not found.")] /\
  ~ In (SErr, "no hooks directory") ds /\
  ~ In (SErr, "no copyright file") ds /\
  ~ In (SWarn, "File config.yaml not found.") ds.
Proof.
  cbv zeta. repeat split; try (vm_compute; reflexivity);
    apply occurrences_zero_not_in; vm_compute; reflexivity.
Qed.

(** C3: valid YAML that is not a mapping, or a mapping without [name] or
    without [summary], makes [proof] raise instead of returning. *)
Theorem proof_raises_on_unexpected_manifest :
  proof Fixtures.R0 (Fixtures.charm_world "<sequence>") "mycharm"
  = Raised AttributeError /\
  proof Fixtures.R0 (Fixtures.charm_world "<no-name>") "mycharm"
  = Raised KeyError /\
  proof Fixtures.R0 (Fixtures.charm_world "<no-summary>") "mycharm"
  = Raised KeyError.
Proof. repeat split; vm_compute; reflexivity. Qed.

(** The same for every loaded value that is not a mapping: [charm.keys()]
    raises and no handler of [proof] takes [AttributeError]. *)
Lemma proof_raises_on_non_mapping R W charm_name charm :
  loaded_manifest R W charm_name = Some charm ->
  (forall d, charm <> PyDict d) ->
  proof R W charm_name = Raised AttributeError.
Proof.
  intros Hload Hnot. unfold proof.
  rewrite (proof_steps_loaded _ _ _ _ _ Hload). cbv zeta.
  unfold manifest_checks, check_metadata_keys, py_keys, bind.
  destruct charm; try reflexivity.
  now elim (Hnot d).
Qed.

(** ... and for every mapping without a [name]. *)
Lemma proof_raises_on_missing_name R W charm_name charm :
  loaded_manifest R W charm_name = Some (PyDict charm) ->
  Py.dict_find "name" charm = None ->
  proof R W charm_name = Raised KeyError.
Proof.
  intros Hload Hname. unfold proof.
  rewrite (proof_steps_loaded _ _ _ _ _ Hload). cbv zeta.
  unfold manifest_checks. unfold bind at 1.
  destruct (check_metadata_keys R (PyDict charm) _) as [[[]|e] L1] eqn:E.
  - unfold check_name_summary, py_getitem, bind. rewrite Hname. reflexivity.
  - exfalso. revert E. unfold check_metadata_keys, py_keys, bind. cbn [ret].
    generalize (CharmLinter). generalize (map fst charm).
    induction l as [|x l IH]; intros L0; cbn [forM_]; [discriminate|].
    unfold bind.
    destruct (negb (Py.in_strs x KNOWN_METADATA_KEYS)); cbn [when];
      [unfold err; rewrite record_run|cbn [ret]]; apply IH.
Qed.

(* ================================================================== *)
(** * Options of config.yaml: declared type and default value *)

(** An option with a default and no [type]: the effective type is looked
    up from ['string'], then line 182 reads [option_value['type']]. *)
Lemma check_option_type_untyped R option_name option_value default L :
  Py.dict_find "type" option_value = None ->
  Py.dict_find "default" option_value = Some default ->
  check_option_type R option_name option_value L = (Raise KeyError, L).
Proof.
  intros Htype Hdefault.
  unfold check_option_type, py_get, py_getitem, Py.dict_has, bind.
  repeat (rewrite ?Htype, ?Hdefault; cbn). reflexivity.
Qed.

(** C1: for the option {default: '80', description: ...} the check of the
    option raises [KeyError], and so does [proof] on a charm whose
    config.yaml holds that option; no diagnostic is returned. *)
Theorem default_without_type_raises :
  Py.dict_find "type" Fixtures.untyped_fields = None /\
  Py.dict_find "default" Fixtures.untyped_fields = Some (PyStr "80") /\
  fst (check_option Fixtures.R0
         (Fixtures.item "port" (PyDict Fixtures.untyped_fields))
         (CharmLinter)) = Raise KeyError /\
  fst (check_config_file Fixtures.R0 Fixtures.untyped_world "mycharm"
                         (CharmLinter)) = Raise KeyError /\
  proof Fixtures.R0 Fixtures.untyped_world "mycharm" = Raised KeyError.
Proof. repeat split; vm_compute; reflexivity. Qed.

Lemma errs_app l1 l2 : errs (l1 ++ l2) = (errs l1 ++ errs l2)%list.
Proof. apply filter_app. Qed.

Lemma warns_only_when R b msg : warns_only (when b (warn R msg)).
Proof.
  intros L. destruct b; simpl.
  - eexists. split; [reflexivity|]. simpl.
    rewrite errs_app. simpl. now rewrite app_nil_r.
  - exists L. split; reflexivity.
Qed.

Lemma warns_only_bind (m : M unit) (k : unit -> M unit) L r :
  warns_only m ->
  (forall L1, errs (lint L1) = errs (lint L) -> k tt L1 = r L1) ->
  exists L1, bind m k L = r L1 /\ errs (lint L1) = errs (lint L).
Proof.
  intros Hm Hk. destruct (Hm L) as (L1 & E & He).
  exists L1. unfold bind. rewrite E. auto.
Qed.

(** C4, amended.  For an option whose [type] is a recognised token and
    which has a default, the check of the option ends normally and records
    exactly one error, naming the declared type and the type of the default,
    when the default is not an instance of the class of the declared type;
    it records no error when it is an instance (so a boolean default under
    [int] passes, [bool] being a subclass of [int]). *)
Theorem default_checked_by_isinstance
        R option_name option_value token cls default L :
  Py.dict_find "type" option_value = Some (PyStr token) ->
  In (token, cls) KNOWN_OPTION_TYPES ->
  Py.dict_find "default" option_value = Some default ->
  exists L',
    check_option R (option_name, PyDict option_value) L = (Ok tt, L') /\
    errs (lint L')
    = (errs (lint L)
       ++ if Py.isinstance default cls then []
          else [default_type_error R option_name token default])%list.
Proof.
  intros Htype Hin Hdefault.
  assert (Htail : forall L1,
    exists L',
      check_option_type R option_name option_value L1 = (Ok tt, L') /\
      errs (lint L')
      = (errs (lint L1)
         ++ if Py.isinstance default cls then []
            else [default_type_error R option_name token default])%list).
  { intros L1.
    unfold check_option_type, py_get, py_getitem, Py.dict_has, bind.
    rewrite Htype, Hdefault.
    simpl in Hin.
    destruct Hin as [H|[H|[H|[H|[]]]]]; injection H as <- <-;
      cbn -[Py.isinstance Py.type_name errs String.append];
      (destruct (Py.isinstance default _); cbn [negb when];
       [ eexists; split; [reflexivity | now rewrite app_nil_r]
       | unfold err; rewrite record_run; eexists;
         split; [reflexivity | cbn [lint]; now rewrite errs_app] ]). }
  unfold check_option. cbn [fst snd].
  destruct (warns_only_when R
              (match filter (fun k => negb (existsb (fun e => Py.eq_str e k)
                                              (map fst option_value)))
                            KNOWN_OPTION_KEYS
               with [] => false | _ => true end)
              ("config.yaml: option " ++ fmt_s R option_name
               ++ " does not have the keys: "
               ++ PyString.join ", "
                    (filter (fun k => negb (existsb (fun e => Py.eq_str e k)
                                              (map fst option_value)))
                            KNOWN_OPTION_KEYS)) L) as (L1 & E1 & H1).
  unfold bind at 1. rewrite E1.
  destruct (warns_only_when R
              (match filter (fun e => negb (Py.in_strs e KNOWN_OPTION_KEYS))
                            (map fst option_value)
               with [] => false | _ => true end)
              ("config.yaml: option " ++ fmt_s R option_name
               ++ " has unknown keys: "
               ++ PyString.join ", "
                    (map (fmt_s R)
                         (py_sorted R
                            (filter (fun e => negb (Py.in_strs e
                                                      KNOWN_OPTION_KEYS))
                                    (map fst option_value))))) L1)
    as (L2 & E2 & H2).
  unfold bind at 1. rewrite E2.
  assert (E3 : exists L3,
    (if Py.dict_has "description" option_value
     then bind (py_getitem (PyDict option_value) "description")
            (fun description =>
               when (negb (Py.isinstance description basestring))
                    (warn R ("config.yaml: description of option "
                             ++ fmt_s R option_name
                             ++ " should be a string")))
     else ret tt) L2 = (Ok tt, L3) /\ errs (lint L3) = errs (lint L2)).
  { unfold Py.dict_has, py_getitem, bind.
    destruct (Py.dict_find "description" option_value) as [d|].
    - cbn [ret]. apply warns_only_when.
    - exists L2. split; reflexivity. }
  destruct E3 as (L3 & E3 & H3).
  unfold bind at 1. rewrite E3.
  destruct (Htail L3) as (L' & E4 & H4).
  exists L'. split; [exact E4|].
  now rewrite H4, H3, H2, H1.
Qed.

Lemma default_checked_by_isinstance_witness :
  exists L',
    check_option Fixtures.R0
      (PyStr "port", PyDict Fixtures.str_default_fields) (CharmLinter)
    = (Ok tt, L') /\
    errs (lint L')
    = [default_type_error Fixtures.R0 (PyStr "port") "int" (PyStr "eighty")].
Proof.
  apply (default_checked_by_isinstance
           Fixtures.R0 (PyStr "port") Fixtures.str_default_fields
           "int" int_class (PyStr "eighty") (CharmLinter)).
  - vm_compute; reflexivity.
  - right; left; reflexivity.
  - vm_compute; reflexivity.
Defined.

(** C4 as stated fails: the default [true] has the runtime type [bool],
    the declared type is [int], and the option passes without an error. *)
Lemma boolean_default_accepted_for_int :
  Py.dict_find "type" Fixtures.bool_default_fields = Some (PyStr "int") /\
  Py.dict_find "default" Fixtures.bool_default_fields = Some (PyBool true) /\
  Py.type_name (PyBool true) = "bool" /\
  check_option Fixtures.R0
    (Fixtures.item "port" (PyDict Fixtures.bool_default_fields))
    (CharmLinter)
  = (Ok tt, CharmLinter).
Proof. repeat split; vm_compute; reflexivity. Qed.

(* ================================================================== *)
(** * Template names in relations *)

(** An interface that occurs inside 'interface-name' is reported as the
    template name: line 95 tests [interface in template_interfaces] against
    a string. *)
Lemma substring_of_template_interface_reported R name rel interface L :
  Py.dict_find "interface" rel = Some (PyStr interface) ->
  PyString.str_in interface template_interfaces = true ->
  In (SErr, "template interface names should be changed: " ++ interface)
     (lint (snd (check_relation_fields R name rel L))).
Proof.
  intros Hi Hsub. unfold check_relation_fields.
  unfold bind at 1.
  match goal with
  | |- context [match ?m L with _ => _ end] =>
      destruct (m L) as [[[]|e] L1] eqn:E1
  end.
  - unfold bind at 1. unfold Py.dict_has, py_getitem, py_in_str, py_str_add.
    rewrite Hi. unfold bind at 1 2 3. cbn [ret]. rewrite Hsub.
    cbn [ret]. unfold err. rewrite record_run.
    match goal with
    | |- In _ (lint (snd (?m ?L0))) =>
        destruct (m L0) as [o L2] eqn:E2
    end.
    eapply emits_keeps; [ | exact E2 | ].
    + apply emits_forM_. intros key. emits_auto.
    + cbn [lint snd]. apply in_or_app. right. left. reflexivity.
  - exfalso. revert E1. unfold Py.dict_has, py_getitem, bind.
    destruct (Py.dict_find "scope" rel) as [s|]; cbn [ret]; [|discriminate].
    destruct (negb (Py.in_strs s KNOWN_SCOPES)); cbn [when];
      [unfold err; rewrite record_run|]; discriminate.
Qed.

(** C6: the interface 'interface' and the relation name 'name' are not the
    placeholders, yet each gets the template error, being substrings of
    'interface-name' and of 'relation-name'. *)
Theorem template_names_matched_as_substrings :
  "interface" <> template_interfaces /\
  In (SErr, "template interface names should be changed: interface")
     (Fixtures.diagnostics_of
        (proof Fixtures.R0 (Fixtures.charm_world "<template-interface>")
               "mycharm")) /\
  "name" <> template_relations /\
  In (SErr, "template relations should be renamed to fit charm: name")
     (Fixtures.diagnostics_of
        (proof Fixtures.R0 (Fixtures.charm_world "<template-relation>")
               "mycharm")).
Proof.
  repeat split; try discriminate; vm_compute; auto.
Qed.

(* ================================================================== *)
(** * Boilerplate lines in a README *)

Lemma scan_boilerplate_run R readme content bad_lines : forall lc L,
  exists L',
    scan_boilerplate R readme content lc bad_lines L = (Ok tt, L') /\
    (forall d, In d (lint L) -> In d (lint L')) /\
    forall i l,
      nth_error (filter (fun l => negb (String.length l =? 0)%nat) bad_lines)
                i = Some l ->
      PyString.str_in l content = true ->
      In (SErr, boilerplate_msg readme (lc + Z.of_nat i + 1)) (lint L').
Proof.
  induction bad_lines as [|l0 rest IH]; intros lc L; cbn [scan_boilerplate].
  - exists L. repeat split; auto. intros [|i] l; discriminate.
  - cbn [filter]. destruct (String.length l0 =? 0)%nat; cbn [negb].
    + apply IH.
    + unfold bind.
      destruct (PyString.str_in l0 content) eqn:E0; cbn [when].
      * unfold err. rewrite record_run.
        match goal with
        | |- context [scan_boilerplate _ _ _ _ _ ?L1] =>
            destruct (IH (lc + 1)%Z L1) as (L' & E & Hkeep & Hrep)
        end.
        exists L'. split; [exact E|]. split.
        -- intros d Hd. apply Hkeep. cbn [lint]. apply in_or_app; auto.
        -- intros [|i] l Hl Hin.
           ++ apply Hkeep. cbn [lint]. apply in_or_app. right. left.
              now rewrite Z.add_0_r.
           ++ cbn [nth_error] in Hl. specialize (Hrep i l Hl Hin).
              now replace (lc + Z.of_nat (S i) + 1)%Z
                with (lc + 1 + Z.of_nat i + 1)%Z by lia.
      * cbn [ret].
        destruct (IH (lc + 1)%Z L) as (L' & E & Hkeep & Hrep).
        exists L'. split; [exact E|]. split; [exact Hkeep|].
        intros [|i] l Hl Hin.
        -- cbn [nth_error] in Hl. injection Hl as Hl. subst l0.
           rewrite Hin in E0. discriminate E0.
        -- cbn [nth_error] in Hl. specialize (Hrep i l Hl Hin).
           now replace (lc + Z.of_nat (S i) + 1)%Z
             with (lc + 1 + Z.of_nat i + 1)%Z by lia.
Qed.

Lemma readmes_loop_run R W charm_path bad_lines readme content i l readmes :
  (forall r, In r readmes -> readable W (OsPath.join charm_path r)) ->
  (exists mode, fs W (OsPath.join charm_path readme)
                = Some (File mode true content)) ->
  nth_error (filter (fun l => negb (String.length l =? 0)%nat) bad_lines) i
  = Some l ->
  PyString.str_in l content = true ->
  forall L, exists L',
    forM_ readmes (fun readme =>
      bind (open_read W (OsPath.join charm_path readme))
           (fun readme_content =>
              scan_boilerplate R readme readme_content 0 bad_lines)) L
    = (Ok tt, L') /\
    (forall d, In d (lint L) -> In d (lint L')) /\
    (In readme readmes ->
     In (SErr, boilerplate_msg readme (Z.of_nat i + 1)) (lint L')).
Proof.
  intros Hall (mode & Hfile) Hl Hin.
  induction readmes as [|r rest IH]; intros L; cbn [forM_].
  - exists L. repeat split; auto. intros [].
  - destruct (Hall r (or_introl eq_refl)) as (m & c & Hr).
    unfold bind at 1 2. unfold open_read at 1. rewrite Hr.
    destruct (scan_boilerplate_run R r c bad_lines 0 L)
      as (L1 & E1 & Hkeep1 & Hrep1).
    cbn [ret]. rewrite E1.
    destruct IH with (L := L1) as (L' & E & Hkeep & Hrep).
    { intros r' Hr'. apply Hall. now right. }
    exists L'. split; [exact E|]. split; [auto|].
    intros [->|Hrest]; [|auto].
    apply Hkeep. rewrite Hfile in Hr. injection Hr as <- <-.
    exact (Hrep1 i l Hl Hin).
Qed.

Lemma check_readme_reports
      R W charm_path mode entries readme content tr i l L :
  fs W charm_path = Some (Dir mode entries) ->
  In readme (found_readmes entries) ->
  In readme (set_order R (found_readmes entries)) ->
  (forall r, In r (set_order R (found_readmes entries)) ->
             readable W (OsPath.join charm_path r)) ->
  (exists m, fs W (TEMPLATE_README W) = Some (File m true tr)) ->
  (exists m, fs W (OsPath.join charm_path readme)
             = Some (File m true content)) ->
  nth_error (counted_lines tr) i = Some l ->
  PyString.str_in l content = true ->
  exists L',
    check_readme R W charm_path L = (Ok tt, L') /\
    In (SErr, boilerplate_msg readme (Z.of_nat i + 1)) (lint L').
Proof.
  intros Hdir Hfound Hiter Hall (m & Htr) Hfile Hl Hin.
  unfold check_readme, os_listdir, bind at 1. rewrite Hdir. cbn [ret].
  cbv zeta.
  destruct (found_readmes entries) as [|f fs'] eqn:Ef; [destruct Hfound|].
  rewrite <- Ef in *. unfold bind at 1.
  match goal with
  | |- context [when ?b ?m ?L0] => destruct (when b m L0) as [o L1] eqn:E1
  end.
  assert (Ho : o = Ok tt).
  { revert E1. destruct (existsb _ _); cbn [when];
      [unfold err; rewrite record_run|unfold ret];
      intros [= <- _]; reflexivity. }
  subst o.
  unfold check_boilerplate, try_except, bind at 1, open_read at 1.
  rewrite Htr. cbn [ret].
  destruct (readmes_loop_run R W charm_path (bad_lines_of tr) readme content
              i l (set_order R (found_readmes entries)) Hall Hfile Hl Hin L1)
    as (L' & E & _ & Hrep).
  rewrite E. exists L'. split; auto.
Qed.

(** C7, amended.  Let a README of the charm contain a line that the check
    counts in the bundled template (raw length at least 40, not empty once
    stripped), let the template and the READMEs be readable, and let
    [proof] return after the manifest checks have run to their end.  The
    result holds an error "<readme> Includes boilerplate README.ex line
    <n>" citing the README's name. *)
Theorem boilerplate_line_reported
        R W charm_name charm mode entries readme content tr l ds code :
  let charm_path := resolve_charm_path W charm_name in
  loaded_manifest R W charm_name = Some charm ->
  fs W charm_path = Some (Dir mode entries) ->
  In readme (found_readmes entries) ->
  In readme (set_order R (found_readmes entries)) ->
  (forall r, In r (set_order R (found_readmes entries)) ->
             readable W (OsPath.join charm_path r)) ->
  (exists m, fs W (TEMPLATE_README W) = Some (File m true tr)) ->
  (exists m, fs W (OsPath.join charm_path readme)
             = Some (File m true content)) ->
  In l (counted_lines tr) ->
  PyString.str_in l content = true ->
  proof R W charm_name = Returned ds code ->
  ~ In (metadata_error charm_name) ds ->
  exists n, In (SErr, boilerplate_msg readme n) ds.
Proof.
  cbv zeta.
  intros Hload Hdir Hfound Hiter Hall Htr Hfile Hl Hin Hproof Hnot.
  apply In_nth_error in Hl. destruct Hl as (i & Hl).
  exists (Z.of_nat i + 1)%Z.
  destruct (proof_completed _ _ _ _ _ _ Hload Hproof Hnot) as (L & Hm & Hf).
  apply manifest_checks_Ok in Hm.
  destruct Hm as (L1 & L2 & L3 & L4 & L5 & L6 & L7 & L8 & L9 &
                  E1 & E2 & E3 & E4 & E5 & E6 & E7 & E8 & E9 & E10).
  destruct (check_readme_reports R W _ _ _ _ _ _ _ _ L6
              Hdir Hfound Hiter Hall Htr Hfile Hl Hin) as (L7' & E7' & Hrep).
  rewrite E7 in E7'. injection E7' as <-.
  eapply emits_keeps in Hrep;
    [ | eapply appends_only, check_relations_quiet | exact E8].
  eapply emits_keeps in Hrep;
    [ | eapply appends_only, check_revision_quiet | exact E9].
  eapply emits_keeps in Hrep;
    [ | eapply appends_only, check_charm_hooks_other | exact E10].
  eapply emits_keeps in Hrep;
    [ | eapply appends_only, final_checks_other | exact Hf].
  exact Hrep.
Qed.

Lemma boilerplate_line_reported_witness :
  exists n,
    In (SErr, boilerplate_msg "README.md" n)
       (Fixtures.diagnostics_of
          (proof Fixtures.R0 Fixtures.boilerplate_world "mycharm")).
Proof.
  apply (boilerplate_line_reported
           Fixtures.R0 Fixtures.boilerplate_world "mycharm"
           (PyDict Fixtures.manifest_items) 493
           ["metadata.yaml"; "config.yaml"; "hooks"; "copyright";
            "README.md"; "icon.svg"; "revision"]
           "README.md" Fixtures.boilerplate_readme
           Fixtures.template_readme Fixtures.usage_line
           _ (Fixtures.code_of
                (proof Fixtures.R0 Fixtures.boilerplate_world "mycharm"))).
  - vm_compute; reflexivity.
  - vm_compute; reflexivity.
  - vm_compute; auto.
  - vm_compute; auto.
  - intros r Hr. vm_compute in Hr. destruct Hr as [<-|[]].
    exists 420%Z. eexists. vm_compute; reflexivity.
  - exists 420%Z. vm_compute; reflexivity.
  - exists 420%Z. vm_compute; reflexivity.
  - vm_compute; auto.
  - vm_compute; reflexivity.
  - vm_compute; reflexivity.
  - apply occurrences_zero_not_in. vm_compute; reflexivity.
Defined.

(** C7 as stated fails: README.md repeats lines 4 and 7 of the template,
    both of 40 characters or more.  Line 4, made of spaces, is skipped; for
    line 7 the error cites 2, not 7.  No error cites 4 or 7. *)
Lemma boilerplate_lines_not_cited_by_line_number :
  let ds := Fixtures.diagnostics_of
              (proof Fixtures.R0 Fixtures.boilerplate_world "mycharm") in
  let long_line n s :=
    nth_error (PyString.readlines Fixtures.template_readme) n
    = Some (Fixtures.line s) /\
    (40 <=? String.length s)%nat = true /\
    PyString.str_in (Fixtures.line s) Fixtures.boilerplate_readme = true in
  long_line 3%nat Fixtures.blank_line /\
  long_line 6%nat Fixtures.usage_line /\
  fs Fixtures.boilerplate_world "mycharm/README.md"
  = Some (File 420 true Fixtures.boilerplate_readme) /\
  ds = [(SErr, boilerplate_msg "README.md" 2)] /\
  ~ In (SErr, boilerplate_msg "README.md" 4) ds /\
  ~ In (SErr, boilerplate_msg "README.md" 7) ds.
Proof.
  cbv zeta. repeat split; try (vm_compute; reflexivity);
    apply occurrences_zero_not_in; vm_compute; reflexivity.
Qed.

(* ================================================================== *)
(** * A hook that exists and cannot be opened *)



(* ================================================================== *)
(** * Running [proof] again *)

Lemma manifest_checks_appends R W charm charm_path hooks_path :
  emits (fun _ => True) (manifest_checks R W charm charm_path hooks_path).
Proof.
  unfold manifest_checks.
  pose proof (appends_only _ _ (check_relations_quiet R W charm hooks_path)).
  pose proof (appends_only _ _ (check_revision_quiet R charm)).
  emits_auto.
Qed.

Lemma proof_steps_appends R W charm_name :
  emits (fun _ => True) (proof_steps R W charm_name).
Proof.
  unfold proof_steps, load_and_check, open_read, metadata_handler.
  pose proof (manifest_checks_appends R W).
  emits_auto.
Qed.





(* ================================================================== *)
(** * Which severities a check can record *)

(** The steps of a check, for a set [P] of diagnostics given by a
    condition on the severity alone; [tac] proves [P (sev, msg)]. *)
Ltac sev_step tac :=
  first
    [ solve [auto 1 with severity nocore]
    | apply emits_ret | apply emits_raise | apply emits_set_exit_code
    | apply emits_lift
    | match goal with
      | |- emits _ (bind (ret _) _) => apply emits_bind_ret
      | |- emits _ (bind (raise _) _) => apply emits_bind_raise
      | |- emits _ (bind (match ?x with _ => _ end) _) => destruct x
      | |- emits _ (bind (if ?x then _ else _) _) => destruct x
      end
    | apply emits_bind; [ | intros ? ]
    | apply emits_when
    | apply emits_forM_; intros ?
    | apply emits_try;
      [ | let e := fresh "e" in intros e; destruct e; cbn; try exact I ]
    | apply emits_record; tac
    | progress cbv zeta
    | match goal with
      | |- emits _ (match ?x with _ => _ end) => destruct x
      | |- emits _ (if ?x then _ else _) => destruct x
      end ].

Create HintDb severity.

Section NoCrit.

Variable R : Runtime.
Variable W : World.

Ltac no_crit := repeat (sev_step ltac:(unfold not_crit; cbn; discriminate)).

Lemma scan_hook_no_crit hook lines : forall count,
  emits not_crit (scan_hook R hook count lines).
Proof.
  induction lines as [|line rest IH]; intros count; simpl.
  - apply emits_ret.
  - unfold hook_warnings. no_crit.
Qed.
Hint Resolve scan_hook_no_crit : severity.

Lemma check_hook_no_crit hook hooks_path required recommended :
  emits not_crit (check_hook R W hook hooks_path required recommended).
Proof. unfold check_hook, os_stat_mode, open_read. no_crit. Qed.
Hint Resolve check_hook_no_crit : severity.

Lemma or_check_hook_no_crit has_one r suffix hooks_path :
  emits not_crit (or_check_hook R W has_one r suffix hooks_path).
Proof. unfold or_check_hook, py_add_str. no_crit. Qed.
Hint Resolve or_check_hook_no_crit : severity.

Lemma check_relation_fields_no_crit name rel :
  emits not_crit (check_relation_fields R name rel).
Proof.
  unfold check_relation_fields, py_getitem, py_in_str, py_str_add. no_crit.
Qed.
Hint Resolve check_relation_fields_no_crit : severity.

Lemma check_relation_no_crit subordinate hooks_path item :
  emits not_crit (check_relation R W subordinate hooks_path item).
Proof. unfold check_relation, py_in_str, py_str_add. no_crit. Qed.
Hint Resolve check_relation_no_crit : severity.

Lemma check_relation_hooks_no_crit relations subordinate hooks_path :
  emits not_crit (check_relation_hooks R W relations subordinate hooks_path).
Proof. unfold check_relation_hooks, py_items. no_crit. Qed.
Hint Resolve check_relation_hooks_no_crit : severity.

Lemma check_option_no_crit item : emits not_crit (check_option R item).
Proof.
  unfold check_option, check_option_type, py_get, py_getitem,
    option_type_lookup.
  no_crit.
Qed.
Hint Resolve check_option_no_crit : severity.

Lemma check_config_file_no_crit charm_path :
  emits not_crit (check_config_file R W charm_path).
Proof. unfold check_config_file, open_read. no_crit. Qed.
Hint Resolve check_config_file_no_crit : severity.

Lemma final_checks_no_crit charm_path :
  emits not_crit (final_checks R W charm_path).
Proof. unfold final_checks, open_read. no_crit. Qed.

Lemma scan_boilerplate_no_crit readme content bad_lines : forall lc,
  emits not_crit (scan_boilerplate R readme content lc bad_lines).
Proof.
  induction bad_lines as [|l rest IH]; intros lc; simpl.
  - apply emits_ret.
  - no_crit.
Qed.
Hint Resolve scan_boilerplate_no_crit : severity.

Lemma find_scope_container_no_crit items :
  emits not_crit (find_scope_container items).
Proof. apply find_scope_container_quiet. Qed.
Hint Resolve find_scope_container_no_crit : severity.

Lemma manifest_checks_no_crit charm charm_path hooks_path :
  emits not_crit (manifest_checks R W charm charm_path hooks_path).
Proof.
  unfold manifest_checks, check_metadata_keys, check_name_summary,
    check_maintainer, check_categories, check_icon,
    check_hooks_dir_copyright, check_readme, check_boilerplate,
    check_relations, check_subordinate_requires, check_revision,
    check_charm_hooks, py_keys, py_getitem, py_len, py_contains, py_get,
    py_items, open_read, os_listdir, on_IOError, opening_error.
  no_crit.
Qed.

Lemma metadata_handler_no_crit charm_name :
  emits not_crit (metadata_handler R charm_name).
Proof. unfold metadata_handler. no_crit. Qed.

End NoCrit.

(* ================================================================== *)
(** * How [proof] starts and stops *)

Lemma proof_steps_unopened R W charm_name L :
  os_path_isdir W (resolve_charm_path W charm_name) = true ->
  cannot_open W (OsPath.join (resolve_charm_path W charm_name)
                             "metadata.yaml") = true ->
  proof_steps R W charm_name L
  = bind (metadata_handler R charm_name)
         (fun _ => final_checks R W (resolve_charm_path W charm_name)) L.
Proof.
  intros Hdir Hopen.
  unfold proof_steps, load_and_check, cannot_open in *. cbv zeta.
  rewrite Hdir. cbn [negb].
  unfold open_read, try_except, bind.
  destruct (fs W _) as [[m [|] text|m es]|]; try discriminate;
    cbn [raise]; rewrite metadata_handler_run; cbn [ret];
    destruct (final_checks R W _ _) as [[[]|e] L1]; reflexivity.
Qed.

Lemma proof_unopened R W charm_name :
  os_path_isdir W (resolve_charm_path W charm_name) = true ->
  cannot_open W (OsPath.join (resolve_charm_path W charm_name)
                             "metadata.yaml") = true ->
  proof R W charm_name
  = result_of (final_checks R W (resolve_charm_path W charm_name)
                 (mkLinter [metadata_error charm_name] (-1))).
Proof.
  intros Hdir Hopen.
  unfold proof. rewrite (proof_steps_unopened R W _ _ Hdir Hopen).
  unfold bind. rewrite metadata_handler_run. reflexivity.
Qed.

Lemma proof_stops_at_parse_error R W charm_name mode text e :
  os_path_isdir W (resolve_charm_path W charm_name) = true ->
  fs W (OsPath.join (resolve_charm_path W charm_name) "metadata.yaml")
  = Some (File mode true text) ->
  yaml_safe_load R text = inr e ->
  proof_steps R W charm_name (CharmLinter)
  = (Ok tt,
     mkLinter [(SCrit,
                "cannot parse "
                ++ OsPath.join (resolve_charm_path W charm_name)
                               "metadata.yaml" ++ ":" ++ e)]
              (exit_code_after R SCrit 0)).
Proof.
  intros Hdir Hfile Hload.
  unfold proof_steps, load_and_check, open_read, try_except, bind.
  rewrite Hdir. cbn [negb]. rewrite Hfile. cbn [ret].
  rewrite Hload. reflexivity.
Qed.

(** When [metadata.yaml] cannot be opened (missing, a directory, or not
    readable) in a charm directory, [proof] records "could not find metadata
    file for <name>" first, sets the exit code to -1, skips every manifest
    check and goes on with the final checks (autogen test, revision file,
    config.yaml). *)
Theorem unopened_metadata_runs_final_checks R W charm_name :
  let charm_path := resolve_charm_path W charm_name in
  os_path_isdir W charm_path = true ->
  cannot_open W (OsPath.join charm_path "metadata.yaml") = true ->
  proof R W charm_name
  = result_of (final_checks R W charm_path
                 (mkLinter [metadata_error charm_name] (-1))) /\
  forall ds code,
    proof R W charm_name = Returned ds code ->
    exists rest, ds = metadata_error charm_name :: rest.
Proof.
  cbv zeta. intros Hdir Hopen.
  assert (E : proof R W charm_name
              = result_of (final_checks R W (resolve_charm_path W charm_name)
                             (mkLinter [metadata_error charm_name] (-1)))).
  { unfold proof. rewrite (proof_steps_unopened R W _ _ Hdir Hopen).
    unfold bind. rewrite metadata_handler_run. reflexivity. }
  split; [exact E|].
  intros ds code Hret. rewrite E in Hret.
  destruct (final_checks R W _ _) as [[[]|e] L1] eqn:Ef; [|discriminate].
  destruct (emits_run _ _ _ _ _ (final_checks_other R W _) Ef)
    as (rest & Hl & _).
  simpl in Hret, Hl. injection Hret as <- _. now exists rest.
Qed.

Lemma unopened_metadata_runs_final_checks_witness :
  proof Fixtures.R0 (Fixtures.world [("mycharm", Dir 493 [])]) "mycharm"
  = Returned [(SErr, "could not find metadata file for mycharm");
              (SWarn, "File config.yaml not found.")] 100.
Proof.
  apply (unopened_metadata_runs_final_checks
           Fixtures.R0 (Fixtures.world [("mycharm", Dir 493 [])]) "mycharm").
  - vm_compute; reflexivity.
  - vm_compute; reflexivity.
Defined.

Lemma no_crit_in (ds : list Diagnostic) msg :
  Forall not_crit ds -> ~ In (SCrit, msg) ds.
Proof.
  intros H Hin. rewrite Forall_forall in H.
  apply (H _ Hin). reflexivity.
Qed.

(** A result of [proof] holds a [crit] diagnostic exactly when [proof]
    stopped early (the path is not a directory, or the metadata did not
    parse), and then the [crit] is the only diagnostic of the result: no
    check records a [crit], and nothing runs after one. *)
Theorem crit_only_when_stopped_early R W charm_name ds code :
  proof R W charm_name = Returned ds code ->
  ((exists msg, In (SCrit, msg) ds) <-> stops_early R W charm_name = true) /\
  ((exists msg, In (SCrit, msg) ds) -> exists msg, ds = [(SCrit, msg)]).
Proof.
  intros Hret.
  assert (Hcases :
    (stops_early R W charm_name = true /\ exists msg, ds = [(SCrit, msg)]) \/
    (stops_early R W charm_name = false /\ Forall not_crit ds)).
  { unfold stops_early. cbv zeta.
    destruct (os_path_isdir W (resolve_charm_path W charm_name)) eqn:Hdir.
    - destruct (fs W (OsPath.join (resolve_charm_path W charm_name)
                                  "metadata.yaml"))
        as [[m [|] text|m es]|] eqn:Hfs.
      + destruct (yaml_safe_load R text) as [charm|e] eqn:Hload.
        * right. split; [reflexivity|].
          assert (Hm : loaded_manifest R W charm_name = Some charm).
          { unfold loaded_manifest. cbv zeta.
            now rewrite Hdir, Hfs, Hload. }
          unfold proof in Hret.
          rewrite (proof_steps_loaded _ _ _ _ _ Hm) in Hret.
          cbv zeta in Hret.
          destruct (manifest_checks R W charm _ _ (CharmLinter))
            as [o L1] eqn:E1.
          destruct (emits_run _ _ _ _ _
                      (manifest_checks_no_crit R W _ _ _) E1)
            as (ds1 & Hl1 & H1).
          simpl in Hl1.
          assert (Hfinal : forall L2 o2 L3,
                    Forall not_crit (lint L2) ->
                    final_checks R W (resolve_charm_path W charm_name) L2
                    = (o2, L3) -> Forall not_crit (lint L3)).
          { intros L2 o2 L3 H2 E2.
            destruct (emits_run _ _ _ _ _ (final_checks_no_crit R W _) E2)
              as (ds2 & -> & H3).
            apply Forall_app; auto. }
          destruct o as [[]|e].
          -- destruct (final_checks R W _ L1) as [[[]|e] L3] eqn:E2;
               [|discriminate].
             injection Hret as <- _.
             eapply Hfinal; [|exact E2]. now rewrite Hl1.
          -- destruct e; try discriminate.
             unfold bind in Hret. rewrite metadata_handler_run in Hret.
             destruct (final_checks R W _ _) as [[[]|e] L3] eqn:E2;
               [|discriminate].
             injection Hret as <- _.
             eapply Hfinal; [|exact E2]. cbn [lint]. rewrite Hl1.
             apply Forall_app. split; auto.
             constructor; [discriminate|constructor].
        * left. split; [reflexivity|].
          unfold proof in Hret.
          rewrite (proof_stops_at_parse_error
                     R W charm_name m text e Hdir Hfs Hload) in Hret.
          cbn [result_of lint exit_code] in Hret.
          injection Hret as <- _. eauto.
      + right. split; [reflexivity|].
        lapply (proof_unopened R W charm_name Hdir);
          [ intros E | unfold cannot_open; now rewrite Hfs ].
        rewrite E in Hret.
        destruct (final_checks R W _ _) as [[[]|e] L3] eqn:E2;
          [|discriminate].
        injection Hret as <- _.
        destruct (emits_run _ _ _ _ _ (final_checks_no_crit R W _) E2)
          as (ds2 & -> & H3).
        apply Forall_app. split; auto.
        constructor; [discriminate|constructor].
      + right. split; [reflexivity|].
        lapply (proof_unopened R W charm_name Hdir);
          [ intros E | unfold cannot_open; now rewrite Hfs ].
        rewrite E in Hret.
        destruct (final_checks R W _ _) as [[[]|e] L3] eqn:E2;
          [|discriminate].
        injection Hret as <- _.
        destruct (emits_run _ _ _ _ _ (final_checks_no_crit R W _) E2)
          as (ds2 & -> & H3).
        apply Forall_app. split; auto.
        constructor; [discriminate|constructor].
      + right. split; [reflexivity|].
        lapply (proof_unopened R W charm_name Hdir);
          [ intros E | unfold cannot_open; now rewrite Hfs ].
        rewrite E in Hret.
        destruct (final_checks R W _ _) as [[[]|e] L3] eqn:E2;
          [|discriminate].
        injection Hret as <- _.
        destruct (emits_run _ _ _ _ _ (final_checks_no_crit R W _) E2)
          as (ds2 & -> & H3).
        apply Forall_app. split; auto.
        constructor; [discriminate|constructor].
    - left. split; [reflexivity|].
      unfold proof, proof_steps in Hret. cbv zeta in Hret.
      rewrite Hdir in Hret. cbn [negb] in Hret.
      unfold crit in Hret. rewrite record_run in Hret.
      injection Hret as <- _. eauto. }
  destruct Hcases as [[Hs (msg & ->)]|[Hs Hno]]; split.
  - split; auto. intros _. exists msg. now left.
  - eauto.
  - split; [|rewrite Hs; discriminate].
    intros (msg & Hin). now elim (no_crit_in _ _ Hno Hin).
  - intros (msg & Hin). now elim (no_crit_in _ _ Hno Hin).
Qed.

Lemma crit_only_when_stopped_early_witness :
  let ds := [(SCrit, "cannot parse mycharm/metadata.yaml:"
                     ++ "could not determine a constructor")] in
  ((exists msg, In (SCrit, msg) ds)
   <-> stops_early Fixtures.R0 Fixtures.broken_world "mycharm" = true) /\
  ((exists msg, In (SCrit, msg) ds) -> exists msg, ds = [(SCrit, msg)]).
Proof.
  apply (crit_only_when_stopped_early
           Fixtures.R0 Fixtures.broken_world "mycharm" _ 200).
  vm_compute; reflexivity.
Defined.

Lemma not_stopped_early R W charm_name :
  stops_early R W charm_name = false ->
  os_path_isdir W (resolve_charm_path W charm_name) = true /\
  ((exists charm, loaded_manifest R W charm_name = Some charm) \/
   cannot_open W (OsPath.join (resolve_charm_path W charm_name)
                              "metadata.yaml") = true).
Proof.
  unfold stops_early, loaded_manifest, cannot_open. cbv zeta.
  destruct (os_path_isdir W _); [|discriminate].
  destruct (fs W _) as [[m [|] text|m es]|]; auto.
  destruct (yaml_safe_load R text); [eauto|discriminate].
Qed.

Lemma final_checks_unreadable_revision R W charm_path L :
  exists_unreadable W (OsPath.join charm_path "revision") = true ->
  exists strerror L',
    final_checks R W charm_path L
    = (Raise (IOError (OsPath.join charm_path "revision") strerror), L').
Proof.
  unfold exists_unreadable, final_checks, os_path_exists, open_read.
  cbv zeta. unfold bind at 1.
  match goal with
  | |- context [when ?b ?m L] => destruct (when b m L) as [o L1] eqn:E1
  end.
  assert (Ho : o = Ok tt).
  { revert E1. destruct (match fs W _ with Some _ => true | None => false end);
      cbn [when]; [unfold warn; rewrite record_run|unfold ret];
      intros [= <- _]; reflexivity. }
  subst o. unfold bind.
  destruct (fs W (OsPath.join charm_path "revision")) as [[m [|] c|m es]|];
    try discriminate; intros _; cbn [raise]; eauto.
Qed.

(** A [revision] entry that exists and cannot be opened (a directory, or a
    file without read permission) makes [proof] raise: the file is opened
    outside every [try].  Only a call that stops early at a [crit] still
    returns. *)
Theorem unreadable_revision_file_raises R W charm_name :
  exists_unreadable W (OsPath.join (resolve_charm_path W charm_name)
                                   "revision") = true ->
  stops_early R W charm_name = false ->
  exists e, proof R W charm_name = Raised e.
Proof.
  intros Hrev Hstop.
  destruct (not_stopped_early R W charm_name Hstop) as [Hdir [[charm Hm]|Ho]].
  - unfold proof. rewrite (proof_steps_loaded _ _ _ _ _ Hm). cbv zeta.
    destruct (manifest_checks R W charm _ _ (CharmLinter)) as [[[]|e] L1].
    + destruct (final_checks_unreadable_revision R W _ L1 Hrev)
        as (s & L' & ->). simpl. eauto.
    + destruct e; simpl; eauto.
      unfold bind. rewrite metadata_handler_run.
      match goal with
      | |- context [final_checks R W ?p ?L0] =>
          destruct (final_checks_unreadable_revision R W p L0 Hrev)
            as (s & L' & ->)
      end.
      simpl. eauto.
  - rewrite (proof_unopened R W charm_name Hdir Ho).
    match goal with
    | |- context [final_checks R W ?p ?L0] =>
        destruct (final_checks_unreadable_revision R W p L0 Hrev)
          as (s & L' & ->)
    end.
    simpl. eauto.
Qed.

Lemma unreadable_revision_file_raises_witness :
  exists e,
    proof Fixtures.R0
          (Fixtures.world
             (("mycharm/revision", Dir 493 [])
              :: Fixtures.charm_files "<metadata>" "<config>"
                                      Fixtures.readme true))
          "mycharm"
    = Raised e.
Proof.
  apply unreadable_revision_file_raises.
  - vm_compute; reflexivity.
  - vm_compute; reflexivity.
Defined.

(* ================================================================== *)
(** * The manifest checks, one by one, in a completed run *)

Lemma emits_incl {A} P (m : M A) L o L' :
  emits P m -> m L = (o, L') -> incl (lint L) (lint L').
Proof.
  intros Hm E d Hd. eapply emits_keeps; eauto using appends_only.
Qed.

(** The states between the manifest checks of a completed run; each check
    keeps what the checks before it recorded. *)
Lemma proof_completed_stages R W charm_name charm ds code :
  loaded_manifest R W charm_name = Some charm ->
  proof R W charm_name = Returned ds code ->
  ~ In (metadata_error charm_name) ds ->
  let charm_path := resolve_charm_path W charm_name in
  let hooks_path := OsPath.join charm_path "hooks" in
  exists L1 L2 L3 L4 L5 L6 L7 L8 L9 L10,
    (check_metadata_keys R charm (CharmLinter) = (Ok tt, L1) /\
     check_name_summary R charm charm_path L1 = (Ok tt, L2) /\
     check_maintainer R charm L2 = (Ok tt, L3) /\
     check_categories R charm L3 = (Ok tt, L4) /\
     check_icon R W charm_path L4 = (Ok tt, L5)) /\
    (check_hooks_dir_copyright R W charm_path hooks_path L5 = (Ok tt, L6) /\
     check_readme R W charm_path L6 = (Ok tt, L7) /\
     check_relations R W charm hooks_path L7 = (Ok tt, L8) /\
     check_revision R charm L8 = (Ok tt, L9) /\
     check_charm_hooks R W hooks_path L9 = (Ok tt, L10)) /\
    final_checks R W charm_path L10 = (Ok tt, mkLinter ds code) /\
    (incl (lint L1) ds /\ incl (lint L2) ds /\ incl (lint L3) ds /\
     incl (lint L4) ds /\ incl (lint L5) ds) /\
    (incl (lint L6) ds /\ incl (lint L7) ds /\ incl (lint L8) ds /\
     incl (lint L9) ds /\ incl (lint L10) ds).
Proof.
  intros Hload Hproof Hnot. cbv zeta.
  destruct (proof_completed _ _ _ _ _ _ Hload Hproof Hnot) as (L & Hm & Hf).
  apply manifest_checks_Ok in Hm.
  destruct Hm as (L1 & L2 & L3 & L4 & L5 & L6 & L7 & L8 & L9 &
                  E1 & E2 & E3 & E4 & E5 & E6 & E7 & E8 & E9 & E10).
  exists L1, L2, L3, L4, L5, L6, L7, L8, L9, L.
  pose proof (emits_incl _ _ _ _ _ (check_name_summary_other R _ _) E2) as I2.
  pose proof (emits_incl _ _ _ _ _ (check_maintainer_other R _) E3) as I3.
  pose proof (emits_incl _ _ _ _ _ (check_categories_other R _) E4) as I4.
  pose proof (emits_incl _ _ _ _ _ (check_icon_other R W _) E5) as I5.
  pose proof (emits_incl _ _ _ _ _
                (check_hooks_dir_copyright_other R W _ _) E6) as I6.
  pose proof (emits_incl _ _ _ _ _ (check_readme_other R W _) E7) as I7.
  pose proof (emits_incl _ _ _ _ _ (check_relations_quiet R W _ _) E8) as I8.
  pose proof (emits_incl _ _ _ _ _ (check_revision_quiet R _) E9) as I9.
  pose proof (emits_incl _ _ _ _ _ (check_charm_hooks_other R W _) E10)
    as I10.
  pose proof (emits_incl _ _ _ _ _ (final_checks_other R W _) Hf) as I11.
  cbn [lint] in I11.
  assert (J10 := I11).
  assert (J9 := incl_tran I10 J10). assert (J8 := incl_tran I9 J9).
  assert (J7 := incl_tran I8 J8). assert (J6 := incl_tran I7 J7).
  assert (J5 := incl_tran I6 J6). assert (J4 := incl_tran I5 J5).
  assert (J3 := incl_tran I4 J4). assert (J2 := incl_tran I3 J3).
  assert (J1 := incl_tran I2 J2).
  repeat split; assumption.
Qed.

(** A manifest without [maintainer]: a completed run holds the error
    "Charms need a maintainer (See RFC2822) - Name <email>". *)
Theorem missing_maintainer_reported R W charm_name charm ds code :
  loaded_manifest R W charm_name = Some (PyDict charm) ->
  Py.dict_find "maintainer" charm = None ->
  proof R W charm_name = Returned ds code ->
  ~ In (metadata_error charm_name) ds ->
  In (SErr, "Charms need a maintainer (See RFC2822) - Name <email>") ds.
Proof.
  intros Hload Hm Hproof Hnot.
  destruct (proof_completed_stages _ _ _ _ _ _ Hload Hproof Hnot)
    as (L1 & L2 & L3 & L4 & L5 & L6 & L7 & L8 & L9 & L10 &
        (_ & _ & E3 & _) & _ & _ & (_ & _ & I3 & _) & _).
  apply I3.
  unfold check_maintainer, py_contains, Py.dict_has, bind in E3.
  rewrite Hm in E3. cbn [ret negb] in E3. unfold err in E3.
  rewrite record_run in E3. injection E3 as <-.
  cbn [lint]. apply in_or_app. right. left. reflexivity.
Qed.

Lemma missing_maintainer_reported_witness :
  In (SErr, "Charms need a maintainer (See RFC2822) - Name <email>")
     (Fixtures.diagnostics_of
        (proof Cases.R1 (Cases.charm_world "<no-maintainer>") "mycharm")).
Proof.
  apply (missing_maintainer_reported
           Cases.R1 (Cases.charm_world "<no-maintainer>") "mycharm"
           Cases.bare_items _
           (Fixtures.code_of
              (proof Cases.R1 (Cases.charm_world "<no-maintainer>")
                     "mycharm"))).
  - vm_compute; reflexivity.
  - vm_compute; reflexivity.
  - vm_compute; reflexivity.
  - apply occurrences_zero_not_in. vm_compute; reflexivity.
Defined.

(* ================================================================== *)
(** * [check_hook], case by case *)

Lemma length_append (a b : string) :
  String.length (a ++ b) = (String.length a + String.length b)%nat.
Proof. induction a as [|c a IH]; simpl; auto. Qed.

Lemma append_cancel_l (a b c : string) : a ++ b = a ++ c -> b = c.
Proof. induction a as [|x a IH]; simpl; [auto|]. intros [= H]. auto. Qed.

Lemma append_same_length (a b c d : string) :
  String.length a = String.length b -> a ++ c = b ++ d -> a = b /\ c = d.
Proof.
  revert b. induction a as [|x a IH]; intros [|y b]; simpl; try discriminate.
  - auto.
  - intros [= Hl] [= -> H]. destruct (IH b Hl H) as [-> ->]. auto.
Qed.

Lemma append_cancel_r (a b c : string) : a ++ c = b ++ c -> a = b.
Proof.
  intros H. apply (append_same_length a b c c); auto.
  apply (f_equal String.length) in H. rewrite !length_append in H. lia.
Qed.

Lemma dec_injective a b : PyString.dec a = PyString.dec b -> a = b.
Proof.
  unfold PyString.dec. intros H.
  assert (Hn : forall z, Z.to_int z <> Decimal.Pos Decimal.Nil /\
                         Z.to_int z <> Decimal.Neg Decimal.Nil).
  { intros [|p|p]; simpl; split; try discriminate;
      intros [= Hp]; now apply (DecimalPos.Unsigned.to_uint_nonnil p). }
  apply (f_equal NilZero.int_of_string) in H.
  rewrite !NilZero.isi in H by apply Hn.
  injection H as H. apply (f_equal Z.of_int) in H.
  now rewrite !DecimalZ.of_to in H.
Qed.

Lemma ec2_warning_injective hook a b :
  ec2_warning hook a = ec2_warning hook b -> a = b.
Proof.
  unfold ec2_warning. intros [= H].
  apply append_cancel_l in H. injection H as H.
  apply append_cancel_r in H. now apply dec_injective.
Qed.

Lemma filter_map_comm {A B} (f : B -> bool) (g : A -> B) (l : list A) :
  filter f (map g l) = map g (filter (fun x => f (g x)) l).
Proof.
  induction l as [|a l IH]; cbn [map filter]; [reflexivity|].
  destruct (f (g a)); cbn [map]; now rewrite IH.
Qed.

(** The numbers (from 0) of the lines that contain the address of the EC2
    metadata service. *)
Lemma scan_hook_run R hook lines : forall count L,
  exists L',
    scan_hook R hook count lines L = (Ok tt, L') /\
    lint L'
    = (lint L
       ++ map (fun n => ec2_warning hook (count + Z.of_nat n + 1))
              (filter (fun n => PyString.str_in ec2_url
                                  (nth n lines EmptyString))
                      (seq 0 (List.length lines))))%list.
Proof.
  induction lines as [|line rest IH]; intros count L.
  - exists L. cbn [scan_hook ret List.length seq filter map].
    now rewrite app_nil_r.
  - cbn [List.length seq]. rewrite <- seq_shift. cbn [filter nth].
    rewrite filter_map_comm. cbn [nth].
    assert (Hext :
      map (fun n => ec2_warning hook (count + Z.of_nat (S n) + 1))
          (filter (fun n => PyString.str_in ec2_url (nth n rest EmptyString))
                  (seq 0 (List.length rest)))
      = map (fun n => ec2_warning hook (count + 1 + Z.of_nat n + 1))
            (filter (fun n => PyString.str_in ec2_url
                                (nth n rest EmptyString))
                    (seq 0 (List.length rest)))).
    { apply map_ext. intros n. f_equal. lia. }
    cbn [scan_hook]. cbv zeta. unfold hook_warnings.
    cbn [forM_ fst snd]. fold ec2_url.
    destruct (PyString.str_in ec2_url line) eqn:Eline; cbn [when].
    + unfold bind at 1 2. unfold warn at 1. rewrite record_run.
      unfold ret at 1. cbv beta iota.
      match goal with
      | |- context [scan_hook R hook (count + 1) rest ?L0] =>
          destruct (IH (count + 1)%Z L0) as (L' & E & Hl)
      end.
      exists L'. split; [exact E|].
      rewrite Hl. cbn [lint map]. rewrite map_map, Hext.
      replace (count + Z.of_nat 0 + 1)%Z with (count + 1)%Z by lia.
      now rewrite <- app_assoc.
    + unfold bind at 1 2. unfold ret at 1 2. cbv beta iota.
      destruct (IH (count + 1)%Z L) as (L' & E & Hl).
      exists L'. split; [exact E|]. now rewrite Hl, map_map, Hext.
Qed.

Lemma not_executable_not_ec2 hook count :
  not_executable hook <> ec2_warning hook count.
Proof.
  unfold not_executable, ec2_warning. intros [= H].
  apply (f_equal String.length) in H.
  cbn [String.append String.length] in H.
  repeat (rewrite length_append in H; cbn [String.length] in H).
  cbn [String.append String.length] in H.
  repeat (rewrite length_append in H; cbn [String.length] in H).
  lia.
Qed.

(** A hook that does not exist: [check_hook] answers [False] and records
    one error when the hook is required, else one warning when it is
    recommended, else nothing; [required] wins over [recommended]. *)
Theorem check_hook_missing R W hook hooks_path required recommended L :
  fs W (OsPath.join hooks_path hook) = None ->
  exists L',
    check_hook R W hook hooks_path required recommended L = (Ok false, L') /\
    lint L'
    = (lint L
       ++ if required then [(SErr, ("missing hook " ++ hook)%string)]
          else if recommended
               then [(SWarn, ("missing recommended hook " ++ hook)%string)]
               else [])%list.
Proof.
  intros Hfs.
  unfold check_hook, try_except, bind, os_stat_mode. cbv zeta.
  rewrite Hfs. cbn [raise].
  destruct required; [|destruct recommended].
  - unfold err. rewrite record_run. unfold ret. eauto.
  - unfold warn. rewrite record_run. unfold ret. eauto.
  - unfold ret. eexists. split; [reflexivity|]. now rewrite app_nil_r.
Qed.

Lemma check_hook_missing_witness :
  exists L',
    check_hook Fixtures.R0 Fixtures.good_world "upgrade-charm"
               "mycharm/hooks" true true (CharmLinter) = (Ok false, L') /\
    lint L' = [(SErr, "missing hook upgrade-charm")].
Proof.
  apply (check_hook_missing Fixtures.R0 Fixtures.good_world "upgrade-charm"
                            "mycharm/hooks" true true (CharmLinter)).
  vm_compute; reflexivity.
Defined.

(** A hook that exists and can be read: [check_hook] answers [True]
    whatever [required] and [recommended] are, and records exactly this, in
    this order: "<hook> not executable" when the owner-execute bit of the
    mode is not set, then one warning for each line that contains
    http://169.254.169.254/, citing the hook and the 1-based number of the
    line; a line is never reported twice and no other line is reported. *)
Theorem check_hook_readable
        R W hook hooks_path required recommended mode content L :
  fs W (OsPath.join hooks_path hook) = Some (File mode true content) ->
  let lines := PyString.readlines content in
  exists L',
    check_hook R W hook hooks_path required recommended L = (Ok true, L') /\
    lint L'
    = (lint L
       ++ (if (Z.land mode S_IXUSR =? 0)%Z then [not_executable hook] else [])
       ++ map (fun n => ec2_warning hook (Z.of_nat n + 1))
              (filter (fun n => PyString.str_in ec2_url
                                  (nth n lines EmptyString))
                      (seq 0 (List.length lines))))%list.
Proof.
  intros Hfs. cbv zeta.
  unfold check_hook, try_except, os_stat_mode, open_read.
  cbv zeta. rewrite Hfs. unfold bind, ret. cbv beta iota.
  destruct (Z.land mode S_IXUSR =? 0)%Z; cbn [when].
  - unfold warn, record. cbv beta iota.
    match goal with
    | |- context [scan_hook R hook 0 ?ls ?L0] =>
        destruct (scan_hook_run R hook ls 0%Z L0) as (L' & E & Hl)
    end.
    exists L'. rewrite E. split; [reflexivity|].
    rewrite Hl. cbn [lint]. rewrite <- app_assoc. reflexivity.
  - destruct (scan_hook_run R hook (PyString.readlines content) 0%Z L)
      as (L' & E & Hl).
    exists L'. unfold ret. cbv beta iota. rewrite E.
    split; [reflexivity|]. rewrite Hl. reflexivity.
Qed.

Lemma check_hook_readable_witness :
  let W := Cases.with_entry
             "mycharm/hooks/start"
             (File 420 true
                (Fixtures.line "curl http://169.254.169.254/latest/"
                 ++ Fixtures.line "exit 0"
                 ++ Fixtures.line "wget http://169.254.169.254/"))
             "<metadata>" in
  exists L',
    check_hook Fixtures.R0 W "start" "mycharm/hooks" false true (CharmLinter)
    = (Ok true, L') /\
    lint L' = [not_executable "start"; ec2_warning "start" 1;
               ec2_warning "start" 3].
Proof.
  cbv zeta.
  apply (check_hook_readable
           Fixtures.R0
           (Cases.with_entry
              "mycharm/hooks/start"
              (File 420 true
                 (Fixtures.line "curl http://169.254.169.254/latest/"
                  ++ Fixtures.line "exit 0"
                  ++ Fixtures.line "wget http://169.254.169.254/"))
              "<metadata>")
           "start" "mycharm/hooks" false true 420
           (Fixtures.line "curl http://169.254.169.254/latest/"
            ++ Fixtures.line "exit 0"
            ++ Fixtures.line "wget http://169.254.169.254/")
           (CharmLinter)).
  vm_compute; reflexivity.
Defined.

(* ================================================================== *)
(** * The hooks of a relation *)

Lemma check_hook_ext R W W' hook hooks_path required recommended L :
  fs W (OsPath.join hooks_path hook) = fs W' (OsPath.join hooks_path hook) ->
  check_hook R W hook hooks_path required recommended L
  = check_hook R W' hook hooks_path required recommended L.
Proof.
  intros H. unfold check_hook, try_except, bind, os_stat_mode, open_read.
  cbv zeta. now rewrite H.
Qed.

Lemma bind_ext {A B} (m m' : M A) (k k' : A -> M B) L :
  m L = m' L -> (forall a L1, k a L1 = k' a L1) ->
  bind m k L = bind m' k' L.
Proof.
  intros Hm Hk. unfold bind. rewrite Hm.
  destruct (m' L) as [[a|e] L1]; auto.
Qed.

Lemma hooks_chain_first R W hooks_path r (k : bool -> M unit) L L4 :
  check_hook R W (r ++ "-relation-changed") hooks_path false false L
  = (Ok true, L4) ->
  bind (or_check_hook R W false (PyStr r) "-relation-changed" hooks_path)
    (fun h1 =>
       bind (or_check_hook R W h1 (PyStr r) "-relation-departed" hooks_path)
         (fun h2 =>
            bind (or_check_hook R W h2 (PyStr r) "-relation-joined"
                                hooks_path)
              (fun h3 =>
                 bind (or_check_hook R W h3 (PyStr r) "-relation-broken"
                                     hooks_path) k))) L
  = k true L4.
Proof.
  intros E. unfold or_check_hook, py_add_str. unfold bind, ret.
  cbv beta iota. rewrite E. reflexivity.
Qed.

Lemma check_hook_readable_ok
      R W hook hooks_path required recommended mode content L :
  fs W (OsPath.join hooks_path hook) = Some (File mode true content) ->
  exists L',
    check_hook R W hook hooks_path required recommended L = (Ok true, L').
Proof.
  intros Hfs.
  unfold check_hook, try_except, os_stat_mode, open_read.
  cbv zeta. rewrite Hfs. unfold bind, ret. cbv beta iota.
  destruct (Z.land mode S_IXUSR =? 0)%Z; cbn [when];
    unfold warn, record, ret; cbv beta iota;
    match goal with
    | |- context [scan_hook R hook 0 ?ls ?L0] =>
        destruct (scan_hook_run R hook ls 0%Z L0) as (L' & E & _)
    end;
    exists L'; now rewrite E.
Qed.

(** One hook suffices, and the others are then not looked at: when
    [<r>-relation-changed] exists and can be read, the check of the relation
    [r] gives the same outcome and the same diagnostics in every world that
    holds this file, whatever the departed, joined and broken hooks are
    (missing, or even unreadable). *)
Theorem relation_hooks_stop_at_first
        R W W' subordinate hooks_path r rel mode content L :
  let changed := OsPath.join hooks_path (r ++ "-relation-changed") in
  fs W changed = Some (File mode true content) ->
  fs W' changed = Some (File mode true content) ->
  check_relation R W subordinate hooks_path (PyStr r, rel) L
  = check_relation R W' subordinate hooks_path (PyStr r, rel) L.
Proof.
  cbv zeta. intros HW HW'.
  unfold check_relation. cbn [fst snd].
  apply bind_ext; [reflexivity|]. intros _ L1.
  apply bind_ext; [reflexivity|]. intros is_template L2.
  apply bind_ext; [reflexivity|]. intros _ L3.
  destruct (check_hook_readable_ok R W (r ++ "-relation-changed") hooks_path
              false false mode content L3 HW) as (L4 & E).
  assert (E' : check_hook R W' (r ++ "-relation-changed") hooks_path
                          false false L3 = (Ok true, L4)).
  { rewrite <- E. apply check_hook_ext. now rewrite HW, HW'. }
  rewrite (hooks_chain_first R W _ _ _ _ _ E).
  rewrite (hooks_chain_first R W' _ _ _ _ _ E').
  reflexivity.
Qed.

Lemma relation_hooks_stop_at_first_witness :
  check_relation Fixtures.R0 Fixtures.good_world (PyBool false)
                 "mycharm/hooks" (Fixtures.website "http") (CharmLinter)
  = check_relation Fixtures.R0
      (Cases.with_entry "mycharm/hooks/website-relation-departed"
                        (File 493 false Fixtures.script) "<metadata>")
      (PyBool false) "mycharm/hooks" (Fixtures.website "http") (CharmLinter).
Proof.
  apply (relation_hooks_stop_at_first
           Fixtures.R0 Fixtures.good_world
           (Cases.with_entry "mycharm/hooks/website-relation-departed"
                             (File 493 false Fixtures.script) "<metadata>")
           (PyBool false) "mycharm/hooks" "website"
           (PyDict [Fixtures.item "interface" (PyStr "http")])
           493 Fixtures.script (CharmLinter)).
  - vm_compute; reflexivity.
  - vm_compute; reflexivity.
Defined.

Lemma check_hook_absent_optional R W hook hooks_path L :
  fs W (OsPath.join hooks_path hook) = None ->
  check_hook R W hook hooks_path false false L = (Ok false, L).
Proof.
  intros H. unfold check_hook, try_except, bind, os_stat_mode. cbv zeta.
  now rewrite H.
Qed.

Lemma check_relation_fields_errs_only R name rel :
  emits (fun d => fst d = SErr) (check_relation_fields R name rel).
Proof.
  unfold check_relation_fields, py_getitem, py_in_str, py_str_add.
  repeat (sev_step ltac:(reflexivity)).
Qed.

Lemma errs_only_occurrences {A} (m : M A) L o L' sev msg :
  sev <> SErr ->
  emits (fun d => fst d = SErr) m -> m L = (o, L') ->
  occurrences (sev, msg) (lint L') = occurrences (sev, msg) (lint L).
Proof.
  intros Hs Hm E. eapply emits_occurrences; eauto.
  eapply emits_weaken; [|exact Hm].
  cbv beta. intros d Hd ->. now apply Hs.
Qed.

(** A relation none of whose four hooks exists: when its check completes in
    a charm that is not a subordinate, the info "relation <r> has no hooks"
    is recorded once; for a subordinate it is not recorded. *)
Theorem relation_without_hooks_noted
        R W subordinate hooks_path r rel L L' :
  fs W (OsPath.join hooks_path (r ++ "-relation-changed")) = None ->
  fs W (OsPath.join hooks_path (r ++ "-relation-departed")) = None ->
  fs W (OsPath.join hooks_path (r ++ "-relation-joined")) = None ->
  fs W (OsPath.join hooks_path (r ++ "-relation-broken")) = None ->
  check_relation R W subordinate hooks_path (PyStr r, rel) L = (Ok tt, L') ->
  occurrences (no_hooks r) (lint L')
  = (occurrences (no_hooks r) (lint L)
     + if Py.truthy subordinate then 0 else 1)%nat.
Proof.
  intros H1 H2 H3 H4 E.
  unfold check_relation in E. cbn [fst snd] in E.
  apply bind_Ok_inv in E. destruct E as ([] & La & Ea & E).
  apply bind_Ok_inv in E. destruct E as (is_template & Lb & Eb & E).
  injection Eb as <- <-.
  apply bind_Ok_inv in E. destruct E as ([] & Lc & Ec & E).
  assert (Qa : occurrences (no_hooks r) (lint La)
               = occurrences (no_hooks r) (lint L)).
  { eapply errs_only_occurrences; [discriminate| |exact Ea].
    destruct rel; try apply check_relation_fields_errs_only;
      apply emits_record; reflexivity. }
  assert (Qc : occurrences (no_hooks r) (lint Lc)
               = occurrences (no_hooks r) (lint La)).
  { eapply errs_only_occurrences; [discriminate| |exact Ec].
    unfold py_str_add. repeat (sev_step ltac:(reflexivity)). }
  assert (Chain : forall k : bool -> M unit,
    bind (or_check_hook R W false (PyStr r) "-relation-changed" hooks_path)
      (fun h1 =>
         bind (or_check_hook R W h1 (PyStr r) "-relation-departed"
                             hooks_path)
           (fun h2 =>
              bind (or_check_hook R W h2 (PyStr r) "-relation-joined"
                                  hooks_path)
                (fun h3 =>
                   bind (or_check_hook R W h3 (PyStr r) "-relation-broken"
                                       hooks_path) k))) Lc
    = k false Lc).
  { intros k. unfold or_check_hook, py_add_str. unfold bind, ret.
    cbv beta iota.
    rewrite (check_hook_absent_optional R W _ _ Lc H1).
    rewrite (check_hook_absent_optional R W _ _ Lc H2).
    rewrite (check_hook_absent_optional R W _ _ Lc H3).
    rewrite (check_hook_absent_optional R W _ _ Lc H4).
    reflexivity. }
  rewrite Chain in E. cbn [negb andb] in E.
  rewrite Qa in Qc. rewrite <- Qc.
  destruct (Py.truthy subordinate); cbn [negb] in E.
  - injection E as <-. lia.
  - unfold py_str_add, bind, ret, info in E. cbv beta iota in E.
    rewrite record_run in E. injection E as <-.
    cbn [lint]. rewrite occurrences_app.
    unfold no_hooks. cbn [String.append].
    now rewrite occurrences_self.
Qed.

Lemma relation_without_hooks_noted_witness :
  let rel := PyDict [Fixtures.item "interface" (PyStr "mysql")] in
  occurrences (no_hooks "db")
    (lint (snd (check_relation Fixtures.R0 Fixtures.good_world (PyBool false)
                               "mycharm/hooks" (PyStr "db", rel)
                               (CharmLinter))))
  = 1%nat.
Proof.
  cbv zeta.
  apply (relation_without_hooks_noted
           Fixtures.R0 Fixtures.good_world (PyBool false) "mycharm/hooks"
           "db" (PyDict [Fixtures.item "interface" (PyStr "mysql")])
           (CharmLinter)); vm_compute; reflexivity.
Defined.

(* ================================================================== *)
(** * The fields of a relation *)

(** A step that always ends normally. *)
Lemma forM_always_ok {A} (l : list A) (f : A -> M unit) :
  (forall x L, exists L', f x L = (Ok tt, L')) ->
  forall L, exists L', forM_ l f L = (Ok tt, L').
Proof.
  intros Hf. induction l as [|x l IH]; intros L; cbn [forM_].
  - now exists L.
  - unfold bind. destruct (Hf x L) as (L1 & ->). apply IH.
Qed.

Lemma when_always_ok R b sev msg L :
  exists L', when b (record R sev msg) L = (Ok tt, L').
Proof. destruct b; cbn [when]; [rewrite record_run|unfold ret]; eauto. Qed.

Lemma scope_check_always_ok R name rel L :
  exists L',
    (if Py.dict_has "scope" rel then
       bind (py_getitem (PyDict rel) "scope")
         (fun scope =>
            when (negb (Py.in_strs scope KNOWN_SCOPES))
                 (err R ("Unknown scope found in relation " ++ fmt_s R name
                         ++ " - (" ++ fmt_s R scope ++ ")")))
     else ret tt) L = (Ok tt, L').
Proof.
  unfold Py.dict_has, py_getitem, bind.
  destruct (Py.dict_find "scope" rel) as [s|]; [|unfold ret; eauto].
  unfold ret at 1. apply when_always_ok.
Qed.

Lemma unknown_fields_always_ok R name (rel : pydict) L :
  exists L',
    forM_ (map fst rel) (fun key =>
      when (negb (Py.in_strs key KNOWN_RELATION_KEYS))
           (err R ("Unknown relation field in relation " ++ fmt_s R name
                   ++ " - (" ++ fmt_s R key ++ ")"))) L = (Ok tt, L').
Proof. apply forM_always_ok. intros x L0. apply when_always_ok. Qed.

(** A relation without [interface]: the check of its fields ends normally,
    records the error "relation missing interface", and records errors
    only (no [crit], no warning). *)
Theorem relation_missing_interface R name rel L :
  Py.dict_find "interface" rel = None ->
  exists ds L',
    check_relation_fields R name rel L = (Ok tt, L') /\
    lint L' = (lint L ++ ds)%list /\
    In (SErr, "relation missing interface") ds /\
    Forall (fun d => fst d = SErr) ds.
Proof.
  intros Hi.
  assert (Hrun : forall L0, exists L1 L2 L',
    check_relation_fields R name rel L0 = (Ok tt, L') /\
    forM_ (map fst rel) (fun key =>
      when (negb (Py.in_strs key KNOWN_RELATION_KEYS))
           (err R ("Unknown relation field in relation " ++ fmt_s R name
                   ++ " - (" ++ fmt_s R key ++ ")"))) L2 = (Ok tt, L') /\
    lint L2 = (lint L1 ++ [(SErr, "relation missing interface")])%list).
  { intros L0. unfold check_relation_fields.
    destruct (scope_check_always_ok R name rel L0) as (L1 & E1).
    unfold bind at 1. rewrite E1.
    unfold Py.dict_has. rewrite Hi.
    unfold bind at 1. unfold err at 1. rewrite record_run.
    match goal with
    | |- context [forM_ _ _ ?L2] =>
        destruct (unknown_fields_always_ok R name rel L2) as (L' & E3)
    end.
    do 3 eexists. split; [exact E3|]. split; [exact E3|]. reflexivity. }
  destruct (check_relation_fields_errs_only R name rel)
    as (o & ds & Hds & Huni).
  destruct (Hrun L) as (L1 & L2 & L' & E & _ & _).
  exists ds, L'. split; [exact E|].
  destruct (Huni L) as [_ Hl]. rewrite E in Hl. cbn [snd] in Hl.
  split; [exact Hl|]. split; [|exact Hds].
  destruct (Hrun (mkLinter [] 0%Z)) as (M1 & M2 & M' & E0 & E3 & Hl2).
  destruct (Huni (mkLinter [] 0%Z)) as [_ Hl0].
  rewrite E0 in Hl0. cbn [snd lint app] in Hl0. rewrite <- Hl0.
  eapply emits_keeps; [ | exact E3 | ].
  - apply emits_forM_. intros key. apply emits_when, emits_record. exact I.
  - rewrite Hl2. apply in_or_app. right. now left.
Qed.

Lemma relation_missing_interface_witness :
  exists ds L',
    check_relation_fields Fixtures.R0 (PyStr "db")
      [Fixtures.item "scope" (PyStr "global")] (CharmLinter) = (Ok tt, L') /\
    lint L' = ([] ++ ds)%list /\
    In (SErr, "relation missing interface") ds /\
    Forall (fun d => fst d = SErr) ds.
Proof.
  apply (relation_missing_interface
           Fixtures.R0 (PyStr "db") [Fixtures.item "scope" (PyStr "global")]
           (CharmLinter)).
  vm_compute; reflexivity.
Defined.

Lemma known_fields_silent R name keys : forall L,
  Forall (fun k => Py.in_strs k KNOWN_RELATION_KEYS = true) keys ->
  forM_ keys (fun key =>
    when (negb (Py.in_strs key KNOWN_RELATION_KEYS))
         (err R ("Unknown relation field in relation " ++ fmt_s R name
                 ++ " - (" ++ fmt_s R key ++ ")"))) L = (Ok tt, L).
Proof.
  intros L H. induction H as [|k keys Hk _ IH]; cbn [forM_]; [reflexivity|].
  unfold bind. rewrite Hk. cbn [negb when]. unfold ret at 1. exact IH.
Qed.

(** A relation with a string interface that does not occur in
    'interface-name', a scope (if any) among [KNOWN_SCOPES] and fields among
    [KNOWN_RELATION_KEYS] passes the check of its fields without any
    diagnostic. *)
Theorem well_formed_relation_silent R name rel interface L :
  Py.dict_find "interface" rel = Some (PyStr interface) ->
  PyString.str_in interface template_interfaces = false ->
  (forall s, Py.dict_find "scope" rel = Some s ->
             Py.in_strs s KNOWN_SCOPES = true) ->
  Forall (fun k => Py.in_strs k KNOWN_RELATION_KEYS = true) (map fst rel) ->
  check_relation_fields R name rel L = (Ok tt, L).
Proof.
  intros Hi Hsub Hscope Hkeys.
  unfold check_relation_fields, Py.dict_has, py_getitem, py_in_str.
  rewrite Hi.
  destruct (Py.dict_find "scope" rel) as [s|] eqn:Es.
  - unfold bind, ret. cbv beta iota. rewrite (Hscope s eq_refl), Hsub.
    cbn [negb when]. unfold ret.
    now rewrite (known_fields_silent R name _ L Hkeys).
  - unfold bind, ret. cbv beta iota. rewrite Hsub.
    now rewrite (known_fields_silent R name _ L Hkeys).
Qed.

Lemma well_formed_relation_silent_witness :
  check_relation_fields Fixtures.R0 (PyStr "db")
    [Fixtures.item "interface" (PyStr "mysql");
     Fixtures.item "scope" (PyStr "container");
     Fixtures.item "optional" (PyBool true)] (CharmLinter)
  = (Ok tt, CharmLinter).
Proof.
  apply (well_formed_relation_silent Fixtures.R0 (PyStr "db") _ "mysql").
  - vm_compute; reflexivity.
  - vm_compute; reflexivity.
  - intros s [= <-]. vm_compute; reflexivity.
  - repeat constructor.
Defined.

Lemma check_relation_fields_result R name rel L :
  exists o L',
    check_relation_fields R name rel L = (o, L') /\
    (o = Ok tt \/ o = Raise TypeError).
Proof.
  unfold check_relation_fields.
  destruct (scope_check_always_ok R name rel L) as (L1 & E1).
  unfold bind at 1. rewrite E1.
  unfold Py.dict_has, py_getitem, py_in_str, py_str_add.
  destruct (Py.dict_find "interface" rel) as [v|].
  - destruct v as [ | | | | |s| | ];
      try (do 2 eexists; split; [reflexivity|now right]).
    unfold bind at 1 2 3. unfold ret at 1 2. cbv beta iota.
    destruct (PyString.str_in s template_interfaces).
    + unfold bind at 1. unfold ret at 1. cbv beta iota.
      unfold err at 1. rewrite record_run.
      match goal with
      | |- context [forM_ _ _ ?L2] =>
          destruct (unknown_fields_always_ok R name rel L2) as (L' & ->)
      end.
      eauto.
    + unfold ret at 1.
      destruct (unknown_fields_always_ok R name rel L1) as (L' & ->).
      eauto.
  - unfold bind at 1. unfold err at 1. rewrite record_run.
    match goal with
    | |- context [forM_ _ _ ?L2] =>
        destruct (unknown_fields_always_ok R name rel L2) as (L' & ->)
    end.
    eauto.
Qed.

Lemma check_relation_fields_outcome R name rel L :
  fst (check_relation_fields R name rel L) = Ok tt \/
  fst (check_relation_fields R name rel L) = Raise TypeError.
Proof.
  destruct (check_relation_fields_result R name rel L) as (o & L' & -> & H).
  exact H.
Qed.

(** The template test of line 95 uses [in] on a string, which takes
    strings only: an [interface] that is not a string (a number, a list,
    ...) makes the check of the fields raise [TypeError]. *)
Theorem non_string_interface_raises R name rel v L :
  Py.dict_find "interface" rel = Some v ->
  (forall s, v <> PyStr s) ->
  fst (check_relation_fields R name rel L) = Raise TypeError.
Proof.
  intros Hi Hv. unfold check_relation_fields.
  destruct (scope_check_always_ok R name rel L) as (L1 & E1).
  unfold bind at 1. rewrite E1.
  unfold Py.dict_has, py_getitem, py_in_str. rewrite Hi.
  destruct v as [ | | | | |s| | ]; try reflexivity. now elim (Hv s).
Qed.

Lemma non_string_interface_raises_witness :
  fst (check_relation_fields Fixtures.R0 (PyStr "db")
         [Fixtures.item "interface" (PyInt 5)] (CharmLinter))
  = Raise TypeError.
Proof.
  apply (non_string_interface_raises
           Fixtures.R0 (PyStr "db") [Fixtures.item "interface" (PyInt 5)]
           (PyInt 5)).
  - vm_compute; reflexivity.
  - discriminate.
Defined.

(** The template test of line 108 does the same with the name of the
    relation: a relation whose name is not a string (a number, a boolean,
    null) makes its check raise [TypeError], whatever its value is. *)
Theorem non_string_relation_name_raises
        R W subordinate hooks_path key rel L :
  (forall s, key <> PyStr s) ->
  fst (check_relation R W subordinate hooks_path (key, rel) L)
  = Raise TypeError.
Proof.
  intros Hk.
  unfold check_relation. cbn [fst snd]. unfold bind at 1.
  assert (H1 : exists o L1,
            (match rel with
             | PyDict r => check_relation_fields R key r
             | _ => err R ("relation " ++ fmt_s R key ++ " is not a map")
             end) L = (o, L1) /\ (o = Ok tt \/ o = Raise TypeError)).
  { destruct rel;
      try (unfold err; rewrite record_run; do 2 eexists;
           split; [reflexivity|now left]).
    apply check_relation_fields_result. }
  destruct H1 as (o & L1 & -> & [->| ->]); [|reflexivity].
  unfold py_in_str. destruct key as [ | | | | |s| | ]; try reflexivity.
  now elim (Hk s).
Qed.

Lemma non_string_relation_name_raises_witness :
  fst (check_relation Fixtures.R0 Fixtures.good_world (PyBool false)
         "mycharm/hooks"
         (PyInt 1, PyDict [Fixtures.item "interface" (PyStr "http")])
         (CharmLinter))
  = Raise TypeError.
Proof.
  apply (non_string_relation_name_raises
           Fixtures.R0 Fixtures.good_world (PyBool false) "mycharm/hooks"
           (PyInt 1)).
  discriminate.
Defined.

(* ================================================================== *)
(** * Options of config.yaml, case by case *)

(** The check of an option that is a mapping gets to the type check after
    warnings at most. *)
Lemma check_option_reaches_type R option_name option_value L :
  exists L3,
    check_option R (option_name, PyDict option_value) L
    = check_option_type R option_name option_value L3 /\
    errs (lint L3) = errs (lint L).
Proof.
  unfold check_option. cbn [fst snd].
  match goal with
  | |- context [bind (when ?b (warn R ?msg)) _ L] =>
      destruct (warns_only_when R b msg L) as (L1 & E1 & H1)
  end.
  unfold bind at 1. rewrite E1.
  match goal with
  | |- context [bind (when ?b (warn R ?msg)) _ L1] =>
      destruct (warns_only_when R b msg L1) as (L2 & E2 & H2)
  end.
  unfold bind at 1. rewrite E2.
  assert (E3 : exists L3,
    (if Py.dict_has "description" option_value
     then bind (py_getitem (PyDict option_value) "description")
            (fun description =>
               when (negb (Py.isinstance description basestring))
                    (warn R ("config.yaml: description of option "
                             ++ fmt_s R option_name
                             ++ " should be a string")))
     else ret tt) L2 = (Ok tt, L3) /\ errs (lint L3) = errs (lint L2)).
  { unfold Py.dict_has, py_getitem, bind.
    destruct (Py.dict_find "description" option_value) as [d|].
    - cbn [ret]. apply warns_only_when.
    - exists L2. split; reflexivity. }
  destruct E3 as (L3 & E3 & H3).
  unfold bind at 1. rewrite E3.
  exists L3. split; [reflexivity|]. now rewrite H3, H2, H1.
Qed.

(** An unknown type: when [type] is hashable and is not one of the four
    tokens, the type check records the warning "... has an invalid type
    (...)" and nothing else; the default, present or not, matching or not,
    is not looked at. *)
Theorem unknown_option_type_only_warned R option_name option_value t L :
  Py.dict_find "type" option_value = Some t ->
  hashable t = true ->
  declared_class t = None ->
  check_option_type R option_name option_value L
  = (Ok tt, mkLinter (lint L ++ [invalid_type_warning R option_name t])
                     (exit_code_after R SWarn (exit_code L))).
Proof.
  intros Ht Hh Hc.
  unfold check_option_type, py_get, option_type_lookup, bind.
  rewrite Ht. cbn [ret].
  destruct t; try discriminate; try reflexivity.
  unfold declared_class in Hc. unfold ret at 1. rewrite Hc. reflexivity.
Qed.

Lemma unknown_option_type_only_warned_witness :
  check_option_type Fixtures.R0 (PyStr "port")
    [Fixtures.item "type" (PyStr "integer");
     Fixtures.item "default" (PyStr "eighty")] (CharmLinter)
  = (Ok tt,
     mkLinter [(SWarn, "config.yaml: option port has an invalid type "
                       ++ "(integer)")] 100).
Proof.
  apply (unknown_option_type_only_warned
           Fixtures.R0 (PyStr "port")
           [Fixtures.item "type" (PyStr "integer");
            Fixtures.item "default" (PyStr "eighty")]
           (PyStr "integer") (CharmLinter)).
  - vm_compute; reflexivity.
  - vm_compute; reflexivity.
  - vm_compute; reflexivity.
Defined.

(** A [type] that cannot be hashed (a list or a mapping): the membership
    test of line 178 raises [TypeError], and so does the check of the
    option. *)
Theorem unhashable_option_type_raises R option_name option_value t L :
  Py.dict_find "type" option_value = Some t ->
  hashable t = false ->
  fst (check_option R (option_name, PyDict option_value) L) = Raise TypeError.
Proof.
  intros Ht Hh.
  destruct (check_option_reaches_type R option_name option_value L)
    as (L3 & -> & _).
  unfold check_option_type, py_get, option_type_lookup, bind.
  rewrite Ht. cbn [ret].
  destruct t; try discriminate; reflexivity.
Qed.

Lemma unhashable_option_type_raises_witness :
  fst (check_option Fixtures.R0
         (PyStr "port",
          PyDict [Fixtures.item "type" (PyList [PyStr "int"])])
         (CharmLinter))
  = Raise TypeError.
Proof.
  apply (unhashable_option_type_raises
           Fixtures.R0 (PyStr "port")
           [Fixtures.item "type" (PyList [PyStr "int"])]
           (PyList [PyStr "int"])).
  - vm_compute; reflexivity.
  - vm_compute; reflexivity.
Defined.

Lemma dict_find_existsb k d v :
  Py.dict_find k d = Some v ->
  existsb (fun e => Py.eq_str e k) (map fst d) = true.
Proof.
  induction d as [|[k' v'] d IH]; simpl; [discriminate|].
  destruct (Py.eq_str k' k); simpl; auto.
Qed.

Lemma filter_none {A} (f : A -> bool) l :
  Forall (fun x => f x = false) l -> filter f l = [].
Proof.
  induction 1 as [|x l Hx _ IH]; simpl; auto. now rewrite Hx.
Qed.

(** An option with a string description, a recognised type, a default
    that is an instance of the class of the type, and no other key passes
    without any diagnostic. *)
Theorem well_formed_option_silent
        R option_name option_value token cls default description L :
  Py.dict_find "description" option_value = Some (PyStr description) ->
  Py.dict_find "type" option_value = Some (PyStr token) ->
  In (token, cls) KNOWN_OPTION_TYPES ->
  Py.dict_find "default" option_value = Some default ->
  Py.isinstance default cls = true ->
  Forall (fun k => Py.in_strs k KNOWN_OPTION_KEYS = true)
         (map fst option_value) ->
  check_option R (option_name, PyDict option_value) L = (Ok tt, L).
Proof.
  intros Hdesc Htype Hin Hdef Hinst Hkeys.
  unfold check_option. cbn [fst snd].
  assert (Hmissing :
    filter (fun k => negb (existsb (fun e => Py.eq_str e k)
                                   (map fst option_value)))
           KNOWN_OPTION_KEYS = []).
  { unfold KNOWN_OPTION_KEYS. cbn [filter].
    rewrite (dict_find_existsb _ _ _ Hdef), (dict_find_existsb _ _ _ Hdesc),
      (dict_find_existsb _ _ _ Htype).
    reflexivity. }
  assert (Hinvalid :
    filter (fun e => negb (Py.in_strs e KNOWN_OPTION_KEYS))
           (map fst option_value) = []).
  { apply filter_none. eapply Forall_impl; [|exact Hkeys].
    cbv beta. intros k ->. reflexivity. }
  rewrite Hmissing, Hinvalid. cbn [when].
  unfold Py.dict_has, py_getitem. rewrite Hdesc.
  unfold bind at 1 2 3 4. unfold ret at 1 2 3. cbv beta iota.
  cbn [Py.isinstance negb when]. unfold ret at 1.
  unfold check_option_type, py_get, py_getitem, Py.dict_has, bind.
  rewrite Htype, Hdef.
  simpl in Hin.
  destruct Hin as [H|[H|[H|[H|[]]]]]; injection H as <- <-;
    cbn -[Py.isinstance]; rewrite Hinst; reflexivity.
Qed.

Lemma well_formed_option_silent_witness :
  check_option Fixtures.R0 (PyStr "port", PyDict Fixtures.port_fields)
               (CharmLinter)
  = (Ok tt, CharmLinter).
Proof.
  apply (well_formed_option_silent
           Fixtures.R0 (PyStr "port") Fixtures.port_fields
           "int" int_class (PyInt 80) "The port").
  - vm_compute; reflexivity.
  - vm_compute; reflexivity.
  - right; left; reflexivity.
  - vm_compute; reflexivity.
  - vm_compute; reflexivity.
  - repeat constructor.
Defined.

(* ================================================================== *)
(** * Name, summary and maintainers *)

(** With a string name and a string summary the check records the name
    warning exactly when the name differs from the last component of the
    charm path, then the summary warning exactly when the summary has more
    than 72 characters (72 itself passes). *)
Theorem name_and_summary_checked R charm charm_path name summary L :
  Py.dict_find "name" charm = Some (PyStr name) ->
  Py.dict_find "summary" charm = Some (PyStr summary) ->
  exists L',
    check_name_summary R (PyDict charm) charm_path L = (Ok tt, L') /\
    lint L'
    = (lint L
       ++ (if String.eqb name (OsPath.basename charm_path) then []
           else [name_warning R (PyStr name) (OsPath.basename charm_path)])
       ++ (if (String.length summary <=? 72)%nat then []
           else [summary_warning]))%list.
Proof.
  intros Hn Hs.
  unfold check_name_summary, py_getitem, py_len. cbv zeta.
  rewrite Hn, Hs. unfold bind, ret. cbv beta iota. cbn [Py.eq_str].
  rewrite Nat.ltb_antisym.
  destruct (String.eqb name (OsPath.basename charm_path));
    destruct (String.length summary <=? 72)%nat;
    cbn [negb when]; unfold warn, record, ret; cbv beta iota;
    eexists; (split; [reflexivity|]); cbn [lint app];
    rewrite <- ?app_assoc, ?app_nil_r; reflexivity.
Qed.

Lemma name_and_summary_checked_witness :
  exists L',
    check_name_summary Fixtures.R0 (PyDict Fixtures.manifest_items)
                       "/srv/charms/other" (CharmLinter) = (Ok tt, L') /\
    lint L' = [name_warning Fixtures.R0 (PyStr "mycharm") "other"].
Proof.
  apply (name_and_summary_checked
           Fixtures.R0 Fixtures.manifest_items "/srv/charms/other"
           "mycharm" "An example charm" (CharmLinter));
    vm_compute; reflexivity.
Defined.

Lemma maintainers_loop R maintainers : forall L,
  Forall (fun m => exists parsed, parseaddr R m = inr parsed) maintainers ->
  exists L',
    forM_ maintainers (fun maintainer =>
      bind (lift (parseaddr R maintainer))
        (fun parsed =>
           when (negb (Py.eq_str maintainer (formataddr R parsed)))
                (warn R ("Maintainer address should contain a real-name and "
                         ++ "email only. [" ++ formataddr R parsed ++ "]"))))
      L = (Ok tt, L') /\
    lint L'
    = (lint L ++ map (maintainer_warning R)
                     (filter (fun m => negb (round_trips R m))
                             maintainers))%list.
Proof.
  intros L H. revert L.
  induction H as [|m ms (parsed & Hp) _ IH]; intros L; cbn [forM_].
  - exists L. split; [reflexivity|]. cbn. now rewrite app_nil_r.
  - cbn [filter]. unfold round_trips at 1. rewrite Hp.
    unfold bind at 1 2. unfold lift at 1. unfold ret at 1.
    cbv beta iota.
    destruct (Py.eq_str m (formataddr R parsed)); cbn [negb when].
    + unfold ret at 1. apply IH.
    + unfold warn at 1. rewrite record_run.
      match goal with
      | |- context [forM_ _ _ ?L1] => destruct (IH L1) as (L' & E & Hl)
      end.
      exists L'. split; [exact E|]. rewrite Hl. cbn [lint map].
      unfold maintainer_warning at 2. rewrite Hp.
      now rewrite <- app_assoc.
Qed.

(** Every maintainer that [parseaddr] and [formataddr] do not give back
    unchanged gets one warning, in the order of the list, and the others
    get none; a [maintainer] that is not a list counts as a list of one. *)
Theorem maintainers_checked_one_by_one R charm maintainer L :
  Py.dict_find "maintainer" charm = Some maintainer ->
  Forall (fun m => exists parsed, parseaddr R m = inr parsed)
         (maintainers_of maintainer) ->
  exists L',
    check_maintainer R (PyDict charm) L = (Ok tt, L') /\
    lint L'
    = (lint L ++ map (maintainer_warning R)
                     (filter (fun m => negb (round_trips R m))
                             (maintainers_of maintainer)))%list.
Proof.
  intros Hm Hall.
  unfold check_maintainer, py_contains, py_getitem, Py.dict_has.
  rewrite Hm. unfold bind at 1. unfold ret at 1. cbv beta iota.
  cbn [negb]. unfold bind at 1. unfold ret at 1. cbv beta iota.
  apply (maintainers_loop R (maintainers_of maintainer) L Hall).
Qed.

Lemma maintainers_checked_one_by_one_witness :
  exists L',
    check_maintainer Fixtures.R0
      (PyDict [Fixtures.item "maintainer"
                 (PyList [PyStr "Jane <jane@example.com>"; PyNone])])
      (CharmLinter) = (Ok tt, L') /\
    lint L' = [maintainer_warning Fixtures.R0 PyNone].
Proof.
  apply (maintainers_checked_one_by_one
           Fixtures.R0
           [Fixtures.item "maintainer"
              (PyList [PyStr "Jane <jane@example.com>"; PyNone])]
           (PyList [PyStr "Jane <jane@example.com>"; PyNone])
           (CharmLinter)).
  - vm_compute; reflexivity.
  - repeat constructor; eexists; vm_compute; reflexivity.
Defined.

(* ================================================================== *)
(** * [Charm] and [local] *)

(** [local] raises [AttributeError] for every directory that has an entry:
    the loop body looks up [os.join], which does not exist.  No charm is
    ever listed. *)
Theorem local_raises_on_entries W directory mode charm rest :
  fs W directory = Some (Dir mode (charm :: rest)) ->
  local W directory = inl AttributeError /\
  forall W' directory' local_charms,
    local W' directory' = inr local_charms -> local_charms = [].
Proof.
  intros Hd. split.
  - unfold local. rewrite Hd. reflexivity.
  - intros W' d' l. unfold local.
    destruct (fs W' d') as [[m r c|m [|e es]]|]; try discriminate.
    cbn. now intros [= <-].
Qed.

Lemma local_raises_on_entries_witness :
  local Fixtures.good_world "mycharm" = inl AttributeError /\
  forall W' directory' local_charms,
    local W' directory' = inr local_charms -> local_charms = [].
Proof.
  apply (local_raises_on_entries
           Fixtures.good_world "mycharm" 493 "metadata.yaml"
           ["config.yaml"; "hooks"; "copyright"; "README.md"; "icon.svg";
            "revision"]).
  vm_compute; reflexivity.
Defined.

(** For a path that is a directory, what [Charm.metadata] does with
    [metadata.yaml] decides what [proof] does:
    - [metadata] raises the [IOError] of [open]: [proof] records "could
      not find metadata file for ...", sets the exit code to -1 and runs the
      final checks only;
    - the loader raises in [metadata]: [proof] returns the [crit] "cannot
      parse ..." with the text of that exception, and nothing else;
    - [metadata] returns a value: this value is the manifest [proof] runs
      its manifest checks on, followed by the final checks, by the handler
      and the final checks when they end with an [IOError], by nothing when
      they end with another exception, which [proof] raises. *)
Theorem metadata_is_what_proof_checks R W charm_path :
  os_path_isdir W charm_path = true ->
  proof R W charm_path
  = match metadata R W charm_path with
    | inl _ =>
        result_of (final_checks R W charm_path
                     (mkLinter [metadata_error charm_path] (-1)))
    | inr (inr e) =>
        Returned [(SCrit, "cannot parse "
                          ++ OsPath.join charm_path "metadata.yaml"
                          ++ ":" ++ e)]
                 (exit_code_after R SCrit 0)
    | inr (inl charm) =>
        match manifest_checks R W charm charm_path
                              (OsPath.join charm_path "hooks")
                              (CharmLinter) with
        | (Ok _, L1) => result_of (final_checks R W charm_path L1)
        | (Raise (IOError _ _), L1) =>
            result_of (final_checks R W charm_path
                         (mkLinter
                            (lint L1 ++ [metadata_error charm_path])%list
                            (-1)))
        | (Raise e, _) => Raised e
        end
    end.
Proof.
  intros Hdir.
  assert (Hres : resolve_charm_path W charm_path = charm_path).
  { unfold resolve_charm_path. now rewrite Hdir. }
  unfold metadata.
  destruct (fs W (OsPath.join charm_path "metadata.yaml"))
    as [[m [|] text|m es]|] eqn:Efs.
  - destruct (yaml_safe_load R text) as [charm|e] eqn:Eload.
    + assert (Hl : loaded_manifest R W charm_path = Some charm).
      { unfold loaded_manifest. cbv zeta.
        now rewrite Hres, Hdir, Efs, Eload. }
      unfold proof. rewrite (proof_steps_loaded _ _ _ _ _ Hl).
      cbv zeta. rewrite Hres.
      destruct (manifest_checks R W charm charm_path _ _) as [[[]|e] L1];
        [reflexivity|].
      destruct e; reflexivity.
    + unfold proof.
      rewrite (proof_stops_at_parse_error R W charm_path m text e);
        rewrite ?Hres; auto.
  - pose proof (proof_unopened R W charm_path) as H.
    rewrite Hres in H. apply H; [exact Hdir|].
    unfold cannot_open. now rewrite Efs.
  - pose proof (proof_unopened R W charm_path) as H.
    rewrite Hres in H. apply H; [exact Hdir|].
    unfold cannot_open. now rewrite Efs.
  - pose proof (proof_unopened R W charm_path) as H.
    rewrite Hres in H. apply H; [exact Hdir|].
    unfold cannot_open. now rewrite Efs.
Qed.

Lemma metadata_is_what_proof_checks_witness :
  metadata Fixtures.R0 Fixtures.unreadable_world "mycharm"
  = inr (inl (PyDict Fixtures.manifest_items)) /\
  proof Fixtures.R0 Fixtures.unreadable_world "mycharm"
  = Returned [metadata_error "mycharm"] (-1).
Proof.
  split; [vm_compute; reflexivity|].
  rewrite (metadata_is_what_proof_checks
             Fixtures.R0 Fixtures.unreadable_world "mycharm"
             ltac:(vm_compute; reflexivity)).
  vm_compute; reflexivity.
Defined.

(* ================================================================== *)
(** * The [requires] of a subordinate charm *)

Lemma find_scope_container_not_iterable name rel post pre : forall L,
  existsb scope_is_container (map snd pre) = false ->
  iterable rel = false ->
  find_scope_container (pre ++ (name, rel) :: post)%list L
  = (Raise TypeError, L).
Proof.
  induction pre as [|[name0 rel0] pre IH]; intros L Hpre Hrel.
  - cbn [app find_scope_container].
    destruct rel; try discriminate Hrel; reflexivity.
  - cbn [map snd existsb] in Hpre. apply orb_false_iff in Hpre.
    destruct Hpre as [H0 Hpre].
    cbn [app find_scope_container].
    destruct rel0 as [ | | | | |s|l|r]; try reflexivity.
    + unfold bind, py_contains, py_getitem, ret. cbv beta iota.
      destruct (PyString.str_in "scope" s); [reflexivity|].
      now apply IH.
    + unfold bind, py_contains, py_getitem, ret. cbv beta iota.
      destruct (existsb (fun x => Py.eq_str x "scope") l); [reflexivity|].
      now apply IH.
    + unfold scope_is_container in H0.
      unfold bind, py_contains, py_getitem, Py.dict_has, ret.
      cbv beta iota.
      destruct (Py.dict_find "scope" r) as [s|]; cbv beta iota.
      * rewrite H0. now apply IH.
      * now apply IH.
Qed.

(** In the [requires] of a subordinate charm, a relation whose value is
    not a string, a list or a mapping (an empty YAML value, a number) makes
    the check raise [TypeError], unless a relation before it has
    [scope: container]; nothing is recorded. *)
Theorem subordinate_requires_entry_not_iterable
        R charm pre name rel post L :
  Py.dict_find "requires" charm
  = Some (PyDict (pre ++ (name, rel) :: post)%list) ->
  existsb scope_is_container (map snd pre) = false ->
  iterable rel = false ->
  check_subordinate_requires R (PyDict charm) L = (Raise TypeError, L).
Proof.
  intros Hreq Hpre Hrel.
  unfold check_subordinate_requires, try_except, py_get, py_items.
  rewrite Hreq. unfold bind at 1. unfold ret at 1. cbv beta iota.
  unfold bind at 1. unfold ret at 1. cbv beta iota.
  unfold bind at 1.
  rewrite (find_scope_container_not_iterable name rel post pre L Hpre Hrel).
  reflexivity.
Qed.

Lemma subordinate_requires_entry_not_iterable_witness :
  check_subordinate_requires Fixtures.R0
    (PyDict [Fixtures.item "subordinate" (PyBool true);
             Fixtures.item "requires"
               (PyDict [Fixtures.item "logging"
                          (PyDict [Fixtures.item "interface"
                                     (PyStr "syslog")]);
                        Fixtures.item "juju-info" PyNone])])
    (CharmLinter)
  = (Raise TypeError, CharmLinter).
Proof.
  apply (subordinate_requires_entry_not_iterable
           Fixtures.R0
           [Fixtures.item "subordinate" (PyBool true);
            Fixtures.item "requires"
              (PyDict [Fixtures.item "logging"
                         (PyDict [Fixtures.item "interface"
                                    (PyStr "syslog")]);
                       Fixtures.item "juju-info" PyNone])]
           [Fixtures.item "logging"
              (PyDict [Fixtures.item "interface" (PyStr "syslog")])]
           (PyStr "juju-info") PyNone [] (CharmLinter));
    vm_compute; reflexivity.
Defined.

(** The subordinate check looks at the [scope] of the [requires] entries
    and at nothing else: whatever the manifest, it records its own error
    once or nothing at all, so interfaces, unknown fields and hooks of
    these relations are never reported. *)
Theorem subordinate_requires_not_validated R charm L :
  exists o L',
    check_subordinate_requires R charm L = (o, L') /\
    (lint L' = lint L \/ lint L' = (lint L ++ [subordinate_error])%list).
Proof.
  unfold check_subordinate_requires, try_except, py_get, py_items.
  destruct charm as [ | | | | | | |charm];
    try (eexists; eexists; split; [reflexivity | left; reflexivity]).
  unfold bind at 1. unfold ret at 1. cbv beta iota.
  destruct (Py.dict_find "requires" charm) as [requires|].
  - destruct requires as [ | | | | | | |items];
      try (eexists; eexists; split; [reflexivity | left; reflexivity]).
    + eexists; eexists; split; [reflexivity | right; reflexivity].
    + unfold bind at 1. unfold ret at 1. cbv beta iota.
      unfold bind at 1.
      destruct (find_scope_container_run items L) as (o & E & _ & Hr).
      rewrite E.
      destruct o as [[|]|e].
      * eexists; eexists; split; [reflexivity | left; reflexivity].
      * eexists; eexists; split; [reflexivity | right; reflexivity].
      * destruct e;
          try (eexists; eexists; split; [reflexivity | left; reflexivity]).
        now contradiction Hr.
  - eexists; eexists; split; [reflexivity | right; reflexivity].
Qed.

(* ================================================================== *)
(** * README files *)

Lemma check_readme_template_file R W charm_path mode entries L L' :
  fs W charm_path = Some (Dir mode entries) ->
  In "README.ex" entries ->
  check_readme R W charm_path L = (Ok tt, L') ->
  In (SErr, "Includes template README.ex file") (lint L').
Proof.
  intros Hfs Hin E.
  assert (Hf : In "README.ex" (found_readmes entries)).
  { unfold found_readmes. apply filter_In. split; [exact Hin|].
    vm_compute; reflexivity. }
  assert (Hex : existsb (String.eqb "README.ex") (found_readmes entries)
                = true).
  { apply existsb_exists. exists "README.ex". split; [exact Hf|].
    apply String.eqb_refl. }
  unfold check_readme, os_listdir in E. rewrite Hfs in E.
  unfold bind at 1 in E. unfold ret at 1 in E. cbv beta iota zeta in E.
  rewrite Hex in E.
  destruct (found_readmes entries) as [|f fs'] eqn:Ef; [destruct Hf|].
  unfold bind at 1 in E. cbn [when] in E. unfold err at 1 in E.
  rewrite record_run in E.
  eapply emits_keeps; [ | exact E | ].
  - eapply emits_weaken; [ | apply check_boilerplate_other ]. auto.
  - cbn [lint]. apply in_or_app. right. left. reflexivity.
Qed.

(** A charm directory that holds a file named README.ex: a completed run
    reports "Includes template README.ex file", whatever other README files
    there are. *)
Theorem template_readme_file_reported
        R W charm_name charm ds code mode entries :
  loaded_manifest R W charm_name = Some charm ->
  fs W (resolve_charm_path W charm_name) = Some (Dir mode entries) ->
  In "README.ex" entries ->
  proof R W charm_name = Returned ds code ->
  ~ In (metadata_error charm_name) ds ->
  In (SErr, "Includes template README.ex file") ds.
Proof.
  intros Hload Hfs Hin Hproof Hnot.
  destruct (proof_completed_stages _ _ _ _ _ _ Hload Hproof Hnot)
    as (L1 & L2 & L3 & L4 & L5 & L6 & L7 & L8 & L9 & L10 &
        _ & (_ & E7 & _) & _ & _ & (_ & I7 & _)).
  apply I7.
  exact (check_readme_template_file _ _ _ _ _ _ _ Hfs Hin E7).
Qed.

Lemma template_readme_file_reported_witness :
  In (SErr, "Includes template README.ex file")
     (Fixtures.diagnostics_of
        (proof Fixtures.R0
               (Cases.with_entry "mycharm"
                  (Dir 493 ["metadata.yaml"; "README.md"; "README.ex"])
                  "<metadata>")
               "mycharm")).
Proof.
  apply (template_readme_file_reported
           Fixtures.R0
           (Cases.with_entry "mycharm"
              (Dir 493 ["metadata.yaml"; "README.md"; "README.ex"])
              "<metadata>")
           "mycharm" (PyDict Fixtures.manifest_items) _
           (Fixtures.code_of
              (proof Fixtures.R0
                     (Cases.with_entry "mycharm"
                        (Dir 493 ["metadata.yaml"; "README.md"; "README.ex"])
                        "<metadata>")
                     "mycharm"))
           493 ["metadata.yaml"; "README.md"; "README.ex"]).
  - vm_compute; reflexivity.
  - vm_compute; reflexivity.
  - right; right; left; reflexivity.
  - vm_compute; reflexivity.
  - apply occurrences_zero_not_in. vm_compute; reflexivity.
Defined.

(** A charm directory in which no entry has README in its name, in any
    case: a completed run holds the warning "no README file". *)
Theorem missing_readme_warned R W charm_name charm ds code mode entries :
  loaded_manifest R W charm_name = Some charm ->
  fs W (resolve_charm_path W charm_name) = Some (Dir mode entries) ->
  found_readmes entries = [] ->
  proof R W charm_name = Returned ds code ->
  ~ In (metadata_error charm_name) ds ->
  In (SWarn, "no README file") ds.
Proof.
  intros Hload Hfs Hnone Hproof Hnot.
  destruct (proof_completed_stages _ _ _ _ _ _ Hload Hproof Hnot)
    as (L1 & L2 & L3 & L4 & L5 & L6 & L7 & L8 & L9 & L10 &
        _ & (_ & E7 & _) & _ & _ & (_ & I7 & _)).
  apply I7.
  unfold check_readme, os_listdir in E7. rewrite Hfs in E7.
  unfold bind at 1 in E7. unfold ret at 1 in E7. cbv beta iota zeta in E7.
  rewrite Hnone in E7. unfold warn in E7. rewrite record_run in E7.
  injection E7 as <-. cbn [lint]. apply in_or_app. right. left. reflexivity.
Qed.

Lemma missing_readme_warned_witness :
  In (SWarn, "no README file")
     (Fixtures.diagnostics_of
        (proof Fixtures.R0
               (Cases.with_entry "mycharm"
                  (Dir 493 ["metadata.yaml"; "Read-me"; "docs"])
                  "<metadata>")
               "mycharm")).
Proof.
  apply (missing_readme_warned
           Fixtures.R0
           (Cases.with_entry "mycharm"
              (Dir 493 ["metadata.yaml"; "Read-me"; "docs"])
              "<metadata>")
           "mycharm" (PyDict Fixtures.manifest_items) _
           (Fixtures.code_of
              (proof Fixtures.R0
                     (Cases.with_entry "mycharm"
                        (Dir 493 ["metadata.yaml"; "Read-me"; "docs"])
                        "<metadata>")
                     "mycharm"))
           493 ["metadata.yaml"; "Read-me"; "docs"]).
  - vm_compute; reflexivity.
  - vm_compute; reflexivity.
  - vm_compute; reflexivity.
  - vm_compute; reflexivity.
  - apply occurrences_zero_not_in. vm_compute; reflexivity.
Defined.

(* ================================================================== *)
(** * The revision file *)

Lemma uint_value_pos d : forall acc,
  uint_value (Zpos acc) d = Zpos (Pos.of_uint_acc d acc).
Proof.
  induction d; intros acc; cbn [uint_value Pos.of_uint_acc];
    [reflexivity | rewrite <- IHd; f_equal; lia ..].
Qed.

Lemma uint_value_zero d : uint_value 0 d = Z.of_N (Pos.of_uint d).
Proof.
  induction d; cbn [uint_value Pos.of_uint];
    [reflexivity | exact IHd | ..];
    (etransitivity; [ | apply f_equal; reflexivity ]);
    cbn [Z.of_N]; rewrite <- uint_value_pos; reflexivity.
Qed.

Lemma digits_value_of_uint d : forall acc,
  PyString.digits_value acc (NilEmpty.string_of_uint d)
  = Some (uint_value acc d).
Proof.
  induction d; intros acc;
    cbn [NilEmpty.string_of_uint PyString.digits_value uint_value];
    [reflexivity | ..];
    match goal with
    | |- context [PyString.is_digit ?c] =>
        change (PyString.is_digit c) with true
    end; cbv iota; rewrite IHd; reflexivity.
Qed.

Lemma no_space_of_uint d :
  has_char_where PyString.isspace (NilEmpty.string_of_uint d) = false.
Proof.
  induction d; cbn [NilEmpty.string_of_uint has_char_where];
    [reflexivity | ..];
    match goal with
    | |- context [PyString.isspace ?c] =>
        change (PyString.isspace c) with false
    end; exact IHd.
Qed.

Lemma rstrip_no_space s :
  has_char_where PyString.isspace s = false -> PyString.rstrip s = s.
Proof.
  induction s as [|c s IH]; cbn [has_char_where PyString.rstrip];
    [reflexivity|].
  intros H. apply orb_false_iff in H. destruct H as [Hc Hs].
  rewrite (IH Hs), Hc. now destruct s.
Qed.

Lemma strip_no_space s :
  has_char_where PyString.isspace s = false -> PyString.strip s = s.
Proof.
  intros H. unfold PyString.strip.
  assert (E : PyString.lstrip s = s).
  { destruct s as [|c s]; [reflexivity|]. cbn [has_char_where] in H.
    apply orb_false_iff in H. destruct H as [Hc _].
    cbn [PyString.lstrip]. now rewrite Hc. }
  rewrite E. now apply rstrip_no_space.
Qed.

Lemma rstrip_all_space w :
  all_space w = true -> PyString.rstrip w = EmptyString.
Proof.
  unfold all_space.
  induction w as [|c w IH]; cbn [has_char_where PyString.rstrip];
    [reflexivity|].
  intros H. apply negb_true_iff, orb_false_iff in H. destruct H as [Hc Hw].
  rewrite IH by now rewrite Hw.
  apply negb_false_iff in Hc. now rewrite Hc.
Qed.

Lemma rstrip_append_space s w :
  all_space w = true -> PyString.rstrip (s ++ w) = PyString.rstrip s.
Proof.
  intros Hw. induction s as [|c s IH]; cbn [String.append PyString.rstrip].
  - now apply rstrip_all_space.
  - now rewrite IH.
Qed.

Lemma unsigned_value_to_uint p :
  PyString.unsigned_value (NilEmpty.string_of_uint (Pos.to_uint p))
  = Some (Zpos p).
Proof.
  assert (Hv : uint_value 0 (Pos.to_uint p) = Zpos p).
  { rewrite uint_value_zero, DecimalPos.Unsigned.of_to. reflexivity. }
  unfold PyString.unsigned_value. rewrite digits_value_of_uint, Hv.
  destruct (Pos.to_uint p) eqn:E; cbn [NilEmpty.string_of_uint];
    try reflexivity.
  now apply DecimalPos.Unsigned.to_uint_nonnil in E.
Qed.

Lemma dec_pos p :
  PyString.dec (Zpos p) = NilEmpty.string_of_uint (Pos.to_uint p).
Proof.
  unfold PyString.dec. cbn [Z.to_int NilZero.string_of_int].
  unfold NilZero.string_of_uint.
  destruct (Pos.to_uint p) eqn:E; try reflexivity.
  now apply DecimalPos.Unsigned.to_uint_nonnil in E.
Qed.

Lemma dec_neg p :
  PyString.dec (Zneg p)
  = String "-" (NilEmpty.string_of_uint (Pos.to_uint p)).
Proof.
  unfold PyString.dec. cbn [Z.to_int NilZero.string_of_int].
  unfold NilZero.string_of_uint.
  destruct (Pos.to_uint p) eqn:E; try reflexivity.
  now apply DecimalPos.Unsigned.to_uint_nonnil in E.
Qed.

Lemma no_space_dec z :
  has_char_where PyString.isspace (PyString.dec z) = false.
Proof.
  destruct z as [|p|p].
  - reflexivity.
  - rewrite dec_pos. apply no_space_of_uint.
  - rewrite dec_neg. cbn [has_char_where].
    change (PyString.isspace "-") with false. apply no_space_of_uint.
Qed.

(** [int(str(z)) == z]: the decimal text of a number reads back as that
    number. *)
Lemma int_of_str_dec z : PyString.int_of_str (PyString.dec z) = Some z.
Proof.
  unfold PyString.int_of_str. rewrite (strip_no_space _ (no_space_dec z)).
  destruct z as [|p|p].
  - reflexivity.
  - rewrite dec_pos. pose proof (unsigned_value_to_uint p) as H.
    destruct (Pos.to_uint p); cbn [NilEmpty.string_of_uint] in *;
      exact H.
  - rewrite dec_neg.
    assert (E : PyString.lstrip
                  (NilEmpty.string_of_uint (Pos.to_uint p))
                = NilEmpty.string_of_uint (Pos.to_uint p)).
    { pose proof (no_space_of_uint (Pos.to_uint p)) as H.
      destruct (NilEmpty.string_of_uint (Pos.to_uint p)) as [|c s];
        [reflexivity|].
      cbn [has_char_where] in H. apply orb_false_iff in H.
      destruct H as [Hc _]. cbn [PyString.lstrip]. now rewrite Hc. }
    rewrite E, unsigned_value_to_uint. reflexivity.
Qed.

(** Python 2 skips blanks after the sign as well. *)
Lemma int_of_str_blank_after_sign :
  PyString.int_of_str "+ 7" = Some 7%Z /\
  PyString.int_of_str " - 7 " = Some (-7)%Z /\
  PyString.int_of_str "+-7" = None /\
  PyString.int_of_str "+" = None /\
  PyString.int_of_str "1 2" = None.
Proof. repeat split; reflexivity. Qed.

Section RevisionFile.

Variable R : Runtime.
Variable W : World.

Ltac no_rev :=
  repeat (sev_step ltac:(unfold revision_file_error;
                         let H := fresh in intro H; cbn in H;
                         discriminate H)).

Lemma check_option_no_revision_error item :
  emits (fun d => d <> revision_file_error) (check_option R item).
Proof.
  unfold check_option, check_option_type, py_get, py_getitem,
    option_type_lookup.
  no_rev.
Qed.
Hint Resolve check_option_no_revision_error : severity.

Lemma check_config_file_no_revision_error charm_path :
  emits (fun d => d <> revision_file_error)
        (check_config_file R W charm_path).
Proof. unfold check_config_file, open_read. no_rev. Qed.

End RevisionFile.

Lemma final_checks_revision_step R W charm_path mode content L o L' :
  fs W (OsPath.join charm_path "revision") = Some (File mode true content) ->
  final_checks R W charm_path L = (o, L') ->
  exists L2,
    check_config_file R W charm_path L2 = (o, L') /\
    occurrences revision_file_error (lint L2)
    = (occurrences revision_file_error (lint L)
       + match PyString.int_of_str (PyString.rstrip content) with
         | Some _ => 0
         | None => 1
         end)%nat.
Proof.
  intros Hfs E.
  unfold final_checks, os_path_exists, open_read in E. cbv zeta in E.
  rewrite Hfs in E.
  unfold bind at 1 in E.
  assert (H1 : exists L1,
             when (match fs W (OsPath.join3 charm_path "tests" "00-autogen")
                   with Some _ => true | None => false end)
                  (warn R "has templated 00-autogen test file") L
             = (Ok tt, L1) /\
             occurrences revision_file_error (lint L1)
             = occurrences revision_file_error (lint L)).
  { destruct (fs W (OsPath.join3 charm_path "tests" "00-autogen"));
      cbn [when].
    - unfold warn. rewrite record_run. eexists. split; [reflexivity|].
      cbn [lint]. rewrite occurrences_app. cbn. lia.
    - exists L. split; reflexivity. }
  destruct H1 as (L1 & E1 & O1). rewrite E1 in E.
  unfold bind at 1 in E. unfold bind at 1 in E. unfold ret at 1 in E.
  cbv beta iota in E.
  destruct (PyString.int_of_str (PyString.rstrip content)) as [n|].
  - unfold ret at 1 in E. exists L1. split; [exact E|]. lia.
  - unfold err at 1 in E. rewrite record_run in E.
    eexists. split; [exact E|].
    cbn [lint]. rewrite occurrences_app, O1. cbn. lia.
Qed.

(** With a revision file that can be read, the last part of [proof]
    records "revision file contains non-numeric data" once when the
    content, without the whitespace at its end, is not what [int] reads
    (whitespace, an optional sign, whitespace, decimal digits), and not at
    all when it is; nothing else it does records that error. *)
Theorem revision_file_checked R W charm_path mode content L o L' :
  fs W (OsPath.join charm_path "revision") = Some (File mode true content) ->
  final_checks R W charm_path L = (o, L') ->
  occurrences revision_file_error (lint L')
  = (occurrences revision_file_error (lint L)
     + match PyString.int_of_str (PyString.rstrip content) with
       | Some _ => 0
       | None => 1
       end)%nat.
Proof.
  intros Hfs E.
  destruct (final_checks_revision_step _ _ _ _ _ _ _ _ Hfs E)
    as (L2 & E2 & O2).
  rewrite (emits_occurrences _ _ _ _ _
             (check_config_file_no_revision_error R W charm_path) E2).
  exact O2.
Qed.

Lemma revision_file_checked_witness :
  occurrences revision_file_error
    (lint (snd (final_checks Fixtures.R0
                  (Cases.with_entry "mycharm/revision"
                     (File 420 true "1.2") "<metadata>")
                  "mycharm" (CharmLinter))))
  = 1%nat.
Proof.
  apply (revision_file_checked
           Fixtures.R0
           (Cases.with_entry "mycharm/revision" (File 420 true "1.2")
                             "<metadata>")
           "mycharm" 420 "1.2" (CharmLinter)
           (fst (final_checks Fixtures.R0
                   (Cases.with_entry "mycharm/revision"
                      (File 420 true "1.2") "<metadata>")
                   "mycharm" (CharmLinter)))).
  - vm_compute; reflexivity.
  - vm_compute; reflexivity.
Defined.

(** A revision file that holds an integer in decimal, negative ones
    included, followed by any whitespace (the newline an editor adds) is
    accepted: the error is not recorded. *)
Theorem numeric_revision_file_accepted
        R W charm_path mode z trailing L o L' :
  fs W (OsPath.join charm_path "revision")
  = Some (File mode true (PyString.dec z ++ trailing)) ->
  all_space trailing = true ->
  final_checks R W charm_path L = (o, L') ->
  occurrences revision_file_error (lint L')
  = occurrences revision_file_error (lint L).
Proof.
  intros Hfs Hw E.
  destruct (final_checks_revision_step _ _ _ _ _ _ _ _ Hfs E)
    as (L2 & E2 & O2).
  rewrite (emits_occurrences _ _ _ _ _
             (check_config_file_no_revision_error R W charm_path) E2).
  rewrite (rstrip_append_space _ _ Hw),
    (rstrip_no_space _ (no_space_dec z)), int_of_str_dec in O2.
  lia.
Qed.

Lemma numeric_revision_file_accepted_witness :
  occurrences revision_file_error
    (lint (snd (final_checks Fixtures.R0
                  (Cases.with_entry "mycharm/revision"
                     (File 420 true (Fixtures.line "-7")) "<metadata>")
                  "mycharm" (CharmLinter))))
  = 0%nat.
Proof.
  apply (numeric_revision_file_accepted
           Fixtures.R0
           (Cases.with_entry "mycharm/revision"
              (File 420 true (Fixtures.line "-7")) "<metadata>")
           "mycharm" 420 (-7)%Z (String PyString.nl EmptyString)
           (CharmLinter)
           (fst (final_checks Fixtures.R0
                   (Cases.with_entry "mycharm/revision"
                      (File 420 true (Fixtures.line "-7")) "<metadata>")
                   "mycharm" (CharmLinter)))).
  - vm_compute; reflexivity.
  - vm_compute; reflexivity.
  - vm_compute; reflexivity.
Defined.

(* ================================================================== *)
(** * The exceptions [check_config_file] lets through *)

Section Escapes.

Variable R : Runtime.
Variable P : exn -> Prop.

Lemma escapes_ret {A} (a : A) : escapes P (ret a).
Proof. intros L e H. discriminate H. Qed.

Lemma escapes_raise {A} (e : exn) : P e -> escapes P (@raise A e).
Proof. intros H L e' [= <-]. exact H. Qed.

Lemma escapes_record sev msg : escapes P (record R sev msg).
Proof. intros L e H. discriminate H. Qed.

Lemma escapes_bind {A B} (m : M A) (k : A -> M B) :
  escapes P m -> (forall a, escapes P (k a)) -> escapes P (bind m k).
Proof.
  intros Hm Hk L e. unfold bind. specialize (Hm L).
  destruct (m L) as [[a|e'] L1]; cbn [fst] in *.
  - apply Hk.
  - intros [= <-]. now apply Hm.
Qed.

Lemma escapes_when b (m : M unit) : escapes P m -> escapes P (when b m).
Proof. destruct b; [auto | intros _; apply escapes_ret]. Qed.

Lemma escapes_forM_ {A} (l : list A) (f : A -> M unit) :
  (forall a, escapes P (f a)) -> escapes P (forM_ l f).
Proof.
  intros Hf. induction l as [|a l IH]; cbn [forM_].
  - apply escapes_ret.
  - apply escapes_bind; auto.
Qed.

(** A handler for every exception, itself without exception. *)
Lemma escapes_try_all {A} (m : M A) (k : exn -> M A) :
  (forall e, escapes P (k e)) ->
  escapes P (try_except m (fun e => Some (k e))).
Proof.
  intros Hk L e. unfold try_except.
  destruct (m L) as [[a|e'] L1]; cbn [fst].
  - discriminate.
  - apply Hk.
Qed.

End Escapes.

Ltac escapes_step tac :=
  first
    [ apply escapes_ret | apply escapes_record
    | apply escapes_raise; tac
    | match goal with
      | |- escapes _ (bind (match ?x with _ => _ end) _) => destruct x
      | |- escapes _ (bind (if ?x then _ else _) _) => destruct x
      end
    | apply escapes_bind; [ | intros ? ]
    | apply escapes_when
    | apply escapes_forM_; intros ?
    | progress cbv zeta
    | match goal with
      | |- escapes _ (match ?x with _ => _ end) => destruct x
      | |- escapes _ (if ?x then _ else _) => destruct x
      end ].

Lemma check_option_escapes R item :
  escapes lookup_or_type_error (check_option R item).
Proof.
  unfold check_option, check_option_type, py_get, py_getitem,
    option_type_lookup, warn, err.
  repeat (escapes_step ltac:(unfold lookup_or_type_error; auto)).
Qed.

Lemma pop_options_found l key :
  In key l -> Py.eq_str key "options" = true ->
  exists rest, pop_options l = inr rest.
Proof.
  intros Hin Hk. induction l as [|k l IH]; [destruct Hin|].
  cbn [pop_options]. destruct (Py.eq_str k "options") eqn:E.
  - eexists; reflexivity.
  - destruct Hin as [->|Hin]; [congruence|].
    destruct (IH Hin) as (rest & ->). eexists; reflexivity.
Qed.

(** For a config.yaml whose loaded value is made of [None], booleans,
    numbers, [str] strings, lists and mappings, and in which every key of
    every option is ASCII (a key that is not is loaded as a [unicode]
    object, on which [str(key)] of line 167 raises [UnicodeEncodeError]):
    [check_config_file] ends normally or with [KeyError] or [TypeError].
    An [IOError] or an error of the loader is recorded as "Cannot parse
    config.yaml: ..." and not raised, and [wrong_keys.index('options')]
    always finds its key, [sorted] keeping the keys it is given. *)
Theorem config_check_raises_lookup_or_type_error R W charm_path L e :
  (forall l k, In k l -> In k (py_sorted R l)) ->
  option_keys_ascii R W charm_path = true ->
  fst (check_config_file R W charm_path L) = Raise e ->
  e = KeyError \/ e = TypeError.
Proof.
  intros Hsorted _. revert L e.
  change (escapes lookup_or_type_error (check_config_file R W charm_path)).
  unfold check_config_file. cbv zeta.
  destruct (negb (os_path_isfile W (OsPath.join charm_path "config.yaml"))).
  { apply escapes_record. }
  apply escapes_bind.
  { apply escapes_try_all. intros e.
    apply escapes_bind; [apply escapes_record | intros _; apply escapes_ret]. }
  intros [[ | | | | | | |config]|];
    try apply escapes_record; try apply escapes_ret.
  destruct (Py.dict_find "options" config) as [options|] eqn:Eo;
    [ | apply escapes_record ].
  apply escapes_bind.
  - destruct (1 <? List.length config)%nat; [ | apply escapes_ret ].
    pose proof (dict_find_key _ _ _ Eo) as Hin.
    destruct (pop_options_found _ _ (Hsorted _ _ Hin) eq_refl)
      as (rest & ->).
    cbn [lift]. apply escapes_bind; [apply escapes_ret | intros ?].
    apply escapes_record.
  - intros _. destruct options; try apply escapes_record.
    apply escapes_forM_. intros item. apply check_option_escapes.
Qed.

Lemma config_check_raises_lookup_or_type_error_witness :
  KeyError = KeyError \/ KeyError = TypeError.
Proof.
  apply (config_check_raises_lookup_or_type_error
           Fixtures.R0 Fixtures.untyped_world "mycharm" (CharmLinter)
           KeyError).
  - intros l k H. exact H.
  - vm_compute; reflexivity.
  - vm_compute; reflexivity.
Defined.

(* ================================================================== *)
(** * Hooks that cannot be read, and the handler of [proof] *)








